(** * NewsPulse: ingestion pipeline, entity post-processing and crisis agent

    A shallow embedding of [backend/scrapers/rss_scraper.py],
    [backend/nlp/entities.py] and [backend/agent.py], with the properties
    of the ingestion pipeline and of the watch-list patrol proved about it.

    Conventions of the embedding.
    - A Python [str] is a [string]; every character is a code point in the
      range U+0000..U+00FF, and [str.lower], [str.strip], [str.split],
      [str.isdigit] are the CPython functions restricted to that range
      ([str.capitalize] too, but for the two code points whose title-case
      form lies outside the range, see [Py.title_char]).
    - A value that may be absent ([None], a missing dict key) is an
      [option]; code that may raise returns a [Res].
    - [datetime] values are instants in seconds ([Z]); a score is a
      rational.  Scores and dates are carried around, never computed on,
      except for the 24 hour window of the risk scan.
    - The document store, the HTTP session, the extraction libraries,
      the analyzers, the search engine and the report writer are
      collaborators: they are fields of the records [World], [Web],
      [Analyzers], [NerModels], [Schema] and [Engine] below.
    - A computation is a function from the world to its outcome, the
      world it leaves and the list of the events it caused. *)

From Stdlib Require Import ZArith QArith String Ascii List Bool Lia.
From stdpp Require Import gmap strings list.
Import ListNotations.

#[local] Open Scope string_scope.
#[local] Open Scope list_scope.
#[local] Open Scope Z_scope.

(** ** Python strings *)

Module Py.

Definition ord (c : ascii) : Z := Z.of_N (N_of_ascii c).
Definition chr (z : Z) : ascii := ascii_of_N (Z.to_N z).

Definition chars (s : string) : list ascii := list_ascii_of_string s.
Definition str (l : list ascii) : string := string_of_list_ascii l.

(** [len(s)] *)
Definition len (s : string) : Z := Z.of_nat (String.length s).

(** [bool(s)]: a string is truthy when it is not empty. *)
Definition truthy (s : string) : bool :=
  match s with EmptyString => false | _ => true end.

(** [c.isspace()] on U+0000..U+00FF. *)
Definition isspace (c : ascii) : bool :=
  let n := ord c in
  ((9 <=? n) && (n <=? 13)) || ((28 <=? n) && (n <=? 32))
  || (n =? 133) || (n =? 160).

(** [c.isdigit()] on U+0000..U+00FF: the decimal digits and the
    superscripts U+00B2, U+00B3, U+00B9. *)
Definition isdigit_char (c : ascii) : bool :=
  let n := ord c in
  ((48 <=? n) && (n <=? 57)) || (n =? 178) || (n =? 179) || (n =? 185).

(** [s.isdigit()]: all characters are digits and there is at least one. *)
Definition isdigit (s : string) : bool :=
  truthy s && forallb isdigit_char (chars s).

(** [c.lower()] on U+0000..U+00FF. *)
Definition lower_char (c : ascii) : ascii :=
  let n := ord c in
  if ((65 <=? n) && (n <=? 90)) || ((192 <=? n) && (n <=? 214))
     || ((216 <=? n) && (n <=? 222))
  then chr (n + 32) else c.

Definition lower (s : string) : string := str (map lower_char (chars s)).

(** [s.lstrip()], [s.rstrip()], [s.strip()] *)
Fixpoint lstrip_chars (l : list ascii) : list ascii :=
  match l with
  | c :: r => if isspace c then lstrip_chars r else l
  | [] => []
  end.

Definition rstrip_chars (l : list ascii) : list ascii :=
  rev (lstrip_chars (rev l)).

Definition strip (s : string) : string :=
  str (rstrip_chars (lstrip_chars (chars s))).

(** [s[:n]] for [0 <= n] *)
Definition take (n : nat) (s : string) : string := str (firstn n (chars s)).

(** [a.startswith(p)] on character lists *)
Fixpoint starts (p l : list ascii) : bool :=
  match p, l with
  | [], _ => true
  | a :: p', b :: l' => Ascii.eqb a b && starts p' l'
  | _ :: _, [] => false
  end.

Definition startswith (s p : string) : bool := starts (chars p) (chars s).

(** [p in s]: [p] occurs in [s] as a substring. *)
Fixpoint contains_chars (p l : list ascii) : bool :=
  starts p l ||
  match l with
  | [] => false
  | _ :: r => contains_chars p r
  end.

Definition contains (p s : string) : bool := contains_chars (chars p) (chars s).

(** [s.split()]: the maximal runs of characters that are not white
    space.  [cur] is the run being read, in reverse. *)
Fixpoint split_ws_aux (cur : list ascii) (l : list ascii) : list string :=
  match l with
  | [] => match cur with [] => [] | _ => [str (rev cur)] end
  | c :: r =>
      if isspace c
      then match cur with
           | [] => split_ws_aux [] r
           | _ => str (rev cur) :: split_ws_aux [] r
           end
      else split_ws_aux (c :: cur) r
  end.

Definition split_ws (s : string) : list string := split_ws_aux [] (chars s).

(** [sep.join(l)] *)
Fixpoint join (sep : string) (l : list string) : string :=
  match l with
  | [] => ""
  | [x] => x
  | x :: r => x +:+ sep +:+ join sep r
  end.

(** [s.replace(p, r)] for a non-empty [p]: the occurrences are replaced
    from left to right, without overlap.  [skip] counts the characters
    of the occurrence just replaced that are still to be passed. *)
Fixpoint replace_chars (p r : list ascii) (skip : nat) (l : list ascii)
  : list ascii :=
  match l with
  | [] => []
  | c :: l' =>
      match skip with
      | S k => replace_chars p r k l'
      | O =>
          if starts p l
          then (r ++ replace_chars p r (Nat.pred (List.length p)) l')%list
          else c :: replace_chars p r O l'
      end
  end.

Definition replace (s p r : string) : string :=
  str (replace_chars (chars p) (chars r) O (chars s)).

(** [s.split(sep)] for a non-empty separator string: the empty pieces
    are kept. *)
Fixpoint split_str_aux (sep : list ascii) (skip : nat) (cur : list ascii)
  (l : list ascii) : list string :=
  match l with
  | [] => [str (rev cur)]
  | c :: l' =>
      match skip with
      | S k => split_str_aux sep k cur l'
      | O =>
          if starts sep l
          then str (rev cur) :: split_str_aux sep (Nat.pred (List.length sep)) [] l'
          else split_str_aux sep O (c :: cur) l'
      end
  end.

Definition split_str (sep : string) (s : string) : list string :=
  split_str_aux (chars sep) O [] (chars s).

(** [s.rfind(c)] for a character: the last index of [c], or -1. *)
Fixpoint rfind_aux (c : ascii) (i : Z) (best : Z) (l : list ascii) : Z :=
  match l with
  | [] => best
  | x :: r => rfind_aux c (i + 1) (if Ascii.eqb x c then i else best) r
  end.

Definition rfind (s : string) (c : ascii) : Z := rfind_aux c 0 (-1) (chars s).

(** [s.rsplit(' ', 1)[0]]: the part before the last space, the whole
    string when it has none. *)
Definition before_last_space (s : string) : string :=
  let i := rfind s " "%char in
  if i <? 0 then s else take (Z.to_nat i) s.

(** [re.split(r'[.!?]+', s)]: the pieces between the maximal runs of
    [.], [!] and [?]; empty pieces at either end are kept. *)
Definition is_sentence_end (c : ascii) : bool :=
  Ascii.eqb c "."%char || Ascii.eqb c "!"%char || Ascii.eqb c "?"%char.

Fixpoint split_sentences_aux (in_run : bool) (cur : list ascii)
  (l : list ascii) : list string :=
  match l with
  | [] => [str (rev cur)]
  | c :: r =>
      if is_sentence_end c
      then if in_run
           then split_sentences_aux true [] r
           else str (rev cur) :: split_sentences_aux true [] r
      else split_sentences_aux false (c :: cur) r
  end.

Definition split_sentences (s : string) : list string :=
  split_sentences_aux false [] (chars s).

(** The title-case form of the first character of [w.capitalize()].
    The two code points whose title-case form lies above U+00FF (U+00B5
    and U+00FF) are left as they are; U+00DF becomes [Ss]. *)
Definition title_char (c : ascii) : list ascii :=
  let n := ord c in
  if ((97 <=? n) && (n <=? 122)) || ((224 <=? n) && (n <=? 246))
     || ((248 <=? n) && (n <=? 254))
  then [chr (n - 32)]
  else if n =? 223 then ["S"%char; "s"%char]
  else [c].

(** [w.capitalize()] *)
Definition capitalize (w : string) : string :=
  match chars w with
  | [] => ""
  | c :: r => str (title_char c ++ map lower_char r)
  end.

(** [max(l, key=len)]: the first element of maximal length. *)
Fixpoint max_by_len (best : string) (l : list string) : string :=
  match l with
  | [] => best
  | x :: r => max_by_len (if len best <? len x then x else best) r
  end.

End Py.

(** ** MD5 (RFC 1321), as computed by [hashlib.md5] *)

Module MD5.

Definition w32 (x : Z) : Z := x mod 2 ^ 32.

Definition rotl (x c : Z) : Z :=
  w32 (Z.lor (Z.shiftl x c) (Z.shiftr (w32 x) (32 - c))).

Definition shifts : list Z :=
  [7; 12; 17; 22; 7; 12; 17; 22; 7; 12; 17; 22; 7; 12; 17; 22;
   5;  9; 14; 20; 5;  9; 14; 20; 5;  9; 14; 20; 5;  9; 14; 20;
   4; 11; 16; 23; 4; 11; 16; 23; 4; 11; 16; 23; 4; 11; 16; 23;
   6; 10; 15; 21; 6; 10; 15; 21; 6; 10; 15; 21; 6; 10; 15; 21].

Definition K : list Z :=
  [0xd76aa478; 0xe8c7b756; 0x242070db; 0xc1bdceee;
   0xf57c0faf; 0x4787c62a; 0xa8304613; 0xfd469501;
   0x698098d8; 0x8b44f7af; 0xffff5bb1; 0x895cd7be;
   0x6b901122; 0xfd987193; 0xa679438e; 0x49b40821;
   0xf61e2562; 0xc040b340; 0x265e5a51; 0xe9b6c7aa;
   0xd62f105d; 0x02441453; 0xd8a1e681; 0xe7d3fbc8;
   0x21e1cde6; 0xc33707d6; 0xf4d50d87; 0x455a14ed;
   0xa9e3e905; 0xfcefa3f8; 0x676f02d9; 0x8d2a4c8a;
   0xfffa3942; 0x8771f681; 0x6d9d6122; 0xfde5380c;
   0xa4beea44; 0x4bdecfa9; 0xf6bb4b60; 0xbebfbc70;
   0x289b7ec6; 0xeaa127fa; 0xd4ef3085; 0x04881d05;
   0xd9d4d039; 0xe6db99e5; 0x1fa27cf8; 0xc4ac5665;
   0xf4292244; 0x432aff97; 0xab9423a7; 0xfc93a039;
   0x655b59c3; 0x8f0ccc92; 0xffeff47d; 0x85845dd1;
   0x6fa87e4f; 0xfe2ce6e0; 0xa3014314; 0x4e0811a1;
   0xf7537e82; 0xbd3af235; 0x2ad7d2bb; 0xeb86d391].

Record state := St { sa : Z; sb : Z; sc : Z; sd : Z }.

Definition init : state :=
  St 0x67452301 0xefcdab89 0x98badcfe 0x10325476.

(** The message length in bits, as eight bytes, least significant first. *)
Definition le_bytes (n : nat) (x : Z) : list Z :=
  map (fun i => Z.shiftr x (8 * Z.of_nat i) mod 256) (seq 0 n).

(** The padded message: a 0x80 byte, zero bytes up to 56 modulo 64, then
    the bit length. *)
Definition pad (msg : list Z) : list Z :=
  let n := Z.of_nat (List.length msg) in
  let zeros := Z.to_nat ((55 - n) mod 64) in
  (msg ++ [128] ++ repeat 0 zeros ++ le_bytes 8 (w32 (8 * n) + 2 ^ 32 * (Z.shiftr (8 * n) 32 mod 2 ^ 32)))%list.

(** Word [g] of a 64-byte block, little endian. *)
Definition word (block : list Z) (g : nat) : Z :=
  let b i := nth (4 * g + i) block 0 in
  b 0%nat + 256 * b 1%nat + 65536 * b 2%nat + 16777216 * b 3%nat.

Definition round (block : list Z) (s : state) (i : nat) : state :=
  let '(St a b c d) := s in
  let zi := Z.of_nat i in
  let '(f, g) :=
    if zi <? 16 then (Z.lor (Z.land b c) (Z.land (Z.lxor b 0xffffffff) d), zi)
    else if zi <? 32 then (Z.lor (Z.land d b) (Z.land (Z.lxor d 0xffffffff) c), (5 * zi + 1) mod 16)
    else if zi <? 48 then (Z.lxor (Z.lxor b c) d, (3 * zi + 5) mod 16)
    else (Z.lxor c (Z.lor b (Z.lxor d 0xffffffff)), (7 * zi) mod 16) in
  let f' := w32 (f + a + nth i K 0 + word block (Z.to_nat g)) in
  St d (w32 (b + rotl f' (nth i shifts 0))) b c.

Definition compress (s : state) (block : list Z) : state :=
  let '(St a b c d) := fold_left (round block) (seq 0 64) s in
  St (w32 (sa s + a)) (w32 (sb s + b)) (w32 (sc s + c)) (w32 (sd s + d)).

Definition blocks (msg : list Z) : list (list Z) :=
  map (fun i => firstn 64 (skipn (64 * i) msg))
      (seq 0 (List.length msg / 64)).

Definition digest (msg : list Z) : list Z :=
  let '(St a b c d) := fold_left compress (blocks (pad msg)) init in
  (le_bytes 4 a ++ le_bytes 4 b ++ le_bytes 4 c ++ le_bytes 4 d)%list.

Definition hexdigit (n : Z) : ascii :=
  if n <? 10 then Py.chr (48 + n) else Py.chr (87 + n).

Definition hex_byte (b : Z) : list ascii := [hexdigit (b / 16); hexdigit (b mod 16)].

(** [hashlib.md5(msg).hexdigest()] *)
Definition hexdigest (msg : list Z) : string :=
  Py.str (concat (map hex_byte (digest msg))).

End MD5.

(** [s.encode('utf-8')] for code points below U+0100: one byte below
    U+0080, two bytes from there on. *)
Definition utf8_char (c : ascii) : list Z :=
  let n := Py.ord c in
  if n <? 128 then [n] else [Z.lor 192 (Z.shiftr n 6); Z.lor 128 (Z.land n 63)].

Definition encode_utf8 (s : string) : list Z := flat_map utf8_char (Py.chars s).

(** ** [rss_scraper.py]: identity and text helpers *)

Definition generate_id (url : string) : string :=
  MD5.hexdigest (encode_utf8 url).

Definition truncate_text (text : string) (max_tokens : Z) : string :=
  if negb (Py.truthy text) then text
  else
    let max_chars := max_tokens * 4 in
    if Py.len text <=? max_chars then text
    else
      let truncated := Py.take (Z.to_nat max_chars) text in
      let last_period := Py.rfind truncated "."%char in
      (* last_period > max_chars * 0.8 *)
      if 8 * max_chars <? 10 * last_period
      then Py.take (Z.to_nat (last_period + 1)) truncated
      else truncated.

(** The default of [max_tokens]. *)
Definition truncate_text_default (text : string) : string :=
  truncate_text text 800.

(** *** The three substitutions of [clean_title]

    Each pattern can match at most once in a title, so [re.sub] removes
    one stretch of it. *)

Definition is_dash (c : ascii) : bool := Ascii.eqb c "-"%char.
Definition is_bar_or_dash (c : ascii) : bool :=
  Ascii.eqb c "|"%char || Ascii.eqb c "-"%char.

(** [\s*-\s*[^-]*$] matches the whole of [l]. *)
Definition matches_site_suffix (l : list ascii) : bool :=
  match Py.lstrip_chars l with
  | c :: r => is_dash c && forallb (fun x => negb (is_dash x)) r
  | [] => false
  end.

(** [\s*[|\-]\s*$] matches the whole of [l]. *)
Definition matches_trailing_sep (l : list ascii) : bool :=
  match Py.lstrip_chars l with
  | c :: r => is_bar_or_dash c && forallb Py.isspace r
  | [] => false
  end.

(** The text before the leftmost position from which [m] matches up to
    the end of the string; the whole text when there is none. *)
Fixpoint cut_at_first (m : list ascii -> bool) (l : list ascii) : list ascii :=
  if m l then []
  else match l with
       | [] => []
       | c :: r => c :: cut_at_first m r
       end.

(** [re.sub(r'\s*-\s*[^-]*$', '', title)] *)
Definition sub_site_suffix (title : string) : string :=
  Py.str (cut_at_first matches_site_suffix (Py.chars title)).

(** [re.sub(r'^\s*[|\-]\s*', '', title)] *)
Definition sub_leading_sep (title : string) : string :=
  match Py.lstrip_chars (Py.chars title) with
  | c :: r => if is_bar_or_dash c then Py.str (Py.lstrip_chars r) else title
  | [] => title
  end.

(** [re.sub(r'\s*[|\-]\s*$', '', title)] *)
Definition sub_trailing_sep (title : string) : string :=
  Py.str (cut_at_first matches_trailing_sep (Py.chars title)).

Definition clean_title (title : string) : string :=
  if negb (Py.truthy title) then ""
  else
    let title := Py.join " " (Py.split_ws title) in
    let title := sub_site_suffix title in
    let title := sub_leading_sep title in
    let title := sub_trailing_sep title in
    let title :=
      if 200 <? Py.len title
      then Py.before_last_space (Py.take 200 title) +:+ "..."
      else title in
    Py.strip title.

Definition invalid_titles : list string :=
  ["untitled"; "no title"; "article"; "news"; "page not found"; "error";
   "404"; "access denied"].

Definition is_valid_title (title : string) : bool :=
  if negb (Py.truthy title) || (Py.len (Py.strip title) <? 10) then false
  else
    let title_lower := Py.strip (Py.lower title) in
    if existsb (fun inv => Py.contains inv title_lower) invalid_titles
    then false
    else true.

Definition extract_title_from_url (url : string) : string :=
  let clean_url :=
    Py.replace (Py.replace (Py.replace url "https://" "") "http://" "") "www." "" in
  let parts := Py.split_str "/" clean_url in
  let fallback := "News Article" in
  if 2 <=? Z.of_nat (List.length parts) then
    let meaningful_parts :=
      List.filter
        (fun p => (4 <? Py.len p)
                  && negb (existsb (fun x => Py.contains x p) ["index"; "html"]))
        (List.tl parts) in
    match meaningful_parts with
    | [] => fallback
    | p :: ps =>
        let title_part := Py.max_by_len p ps in
        Py.join " "
          (map Py.capitalize
             (Py.split_ws (Py.replace (Py.replace title_part "-" " ") "_" " ")))
    end
  else fallback.

Definition lead_ins : list string :=
  ["the article"; "this article"; "according to"; "in a"; "on "; "at "].

(** The loop of [extract_title_from_content] over the first sentences. *)
Fixpoint first_title_sentence (sentences : list string) : option string :=
  match sentences with
  | [] => None
  | sentence :: rest =>
      let sentence := Py.strip sentence in
      if (15 <=? Py.len sentence) && (Py.len sentence <=? 150)
         && negb (existsb (Py.startswith (Py.lower sentence)) lead_ins)
      then
        let cleaned := clean_title sentence in
        if is_valid_title cleaned then Some cleaned
        else first_title_sentence rest
      else first_title_sentence rest
  end.

Definition extract_title_from_content (text : string) : option string :=
  if negb (Py.truthy text) || (Py.len text <? 50) then None
  else first_title_sentence (firstn 5 (Py.split_sentences text)).

(** The last resort of the title chain:
    [f"Article from {url.split('//')[1].split('/')[0] if '//' in url else 'Unknown Source'}"] *)
Definition source_label (url : string) : string :=
  "Article from " +:+
  (if Py.contains "//" url
   then hd "" (Py.split_str "/" (nth 1 (Py.split_str "//" url) ""))
   else "Unknown Source").

(** ** Results, the world and the effect monad *)

(** The outcome of code that may raise: a value, or the exception. *)
Inductive Res (A : Type) : Type :=
| Ok (a : A)
| Raise (exn : string).
Arguments Ok {A} a.
Arguments Raise {A} exn.

(** A dict value that is either [None] or a string, under a key that may
    be absent: [None] is the absent key, [Some None] is [None]. *)
Definition field : Type := option (option string).

(** The value under the key ["name"] of an entity dict. *)
Inductive pyval : Type :=
| VNone
| VStr (s : string)
| VNum (q : Q).

(** The value under the key ["score"]: [None], a number, or a value that
    [float()] rejects. *)
Inductive score_val : Type :=
| SNone
| SNum (q : Q)
| SBad.

(** An entity dict as the extractors build it. *)
Record RawEntity := {
  raw_name : option pyval;
  raw_type : field;
  raw_sentiment : field;
  raw_bias : field;
  raw_score : option score_val
}.

(** [EntitySentiment] and [ArticleDoc] of [backend/models/article_model.py]:
    the fields that [rss_scraper.py] gives them.  The module is not among
    the sources; what its validators accept is the [Schema] below. *)
Record EntitySentiment := {
  ent_name : string;
  ent_type : option string;
  ent_sentiment : option string;
  ent_bias : option string;
  ent_score : option Q
}.

Record ArticleDoc := {
  doc_title : string;
  doc_url : string;
  doc_source_name : string;
  doc_published_date : option Z;
  doc_language : string;
  doc_original_text : string;
  doc_translated_text : option string;
  doc_summary : option string;
  doc_bias_overall : string;
  doc_bias_score : Q;
  doc_sentiment_overall : string;
  doc_sentiment_score : Q;
  doc_entities : list EntitySentiment
}.

Record Schema := {
  entity_ok : EntitySentiment -> bool;
  article_ok : ArticleDoc -> bool
}.

(** A bulk action: [{"_index": INDEX_NAME, "_id": ..., "_source": ...}]. *)
Record Action := {
  act_id : string;
  act_source : ArticleDoc
}.

(** An item of [fetch_feed_entries]. *)
Record FeedItem := {
  item_title : string;
  item_link : option string;
  item_published : option string;
  item_source : string;
  item_description : string
}.

(** What [feedparser.parse] gives for one feed. *)
Record FeedEntry := {
  fe_title : option string;
  fe_link : option string;
  fe_published : option string;
  fe_description : option string
}.

Record Feed := {
  feed_title : option string;
  feed_entries : list FeedEntry
}.

(** A parsed [newspaper.Article]. *)
Record NewsArticle := {
  art_text : string;
  art_title : string;
  art_authors : list string;
  art_publish_date : option Z;
  art_top_image : string
}.

(** The dict that [download_article] returns. *)
Record RawArticle := {
  ra_title : option string;
  ra_text : string;
  ra_method : string;
  ra_publish_date : option Z
}.

(** A document of the index [news_users]. *)
Record User := {
  user_email : option string;
  user_watchlist : option (list string)
}.

(** The projection [_source] of a search hit of [analyze_topic_risk]. *)
Record Hit := {
  hit_title : string;
  hit_url : string;
  hit_source_name : string;
  hit_published_date : option Z;
  hit_summary : option string
}.

(** The dict of [analyze_topic_risk], with the two keys that [run_patrol]
    adds to a critical record. *)
Record RiskRecord := {
  risk_topic : string;
  is_critical : bool;
  article_count : Z;
  articles_data : list Hit;
  top_summary : string;
  ai_assessment : option string;
  users_affected : option (list string)
}.

(** What the code does to the outside, in the order it does it. *)
Inductive Event : Type :=
| EvPing
| EvExists (id : string)
| EvHttpGet (url : string)
| EvNewspaper (url : string)
| EvAnalyzer (operation_name : string) (text : string)
| EvFeed (feed_url : string)
| EvBulk (ids : list string)
| EvUsersIndex
| EvSearchUsers
| EvSearchArticles (topic : string)
| EvReport (risk_list : list RiskRecord)
| EvBrowser (target : string).

(** The store and the clock. *)
Record World := {
  es_up : bool;
  articles : gmap string ArticleDoc;
  users : option (list User);
  now : Z
}.

(** A computation: from a world, the outcome, the world it leaves and the
    events it caused. *)
Definition M (A : Type) : Type := World -> Res A * World * list Event.

Definition ret {A} (a : A) : M A := fun w => (Ok a, w, []).

Definition raise {A} (exn : string) : M A := fun w => (Raise exn, w, []).

Definition bind {A B} (m : M A) (k : A -> M B) : M B :=
  fun w =>
    match m w with
    | (Ok a, w1, evs1) =>
        let '(r, w2, evs2) := k a w1 in (r, w2, (evs1 ++ evs2)%list)
    | (Raise exn, w1, evs1) => (Raise exn, w1, evs1)
    end.

(** [try: m except Exception: h] *)
Definition try_except {A} (m : M A) (h : string -> M A) : M A :=
  fun w =>
    match m w with
    | (Ok a, w1, evs1) => (Ok a, w1, evs1)
    | (Raise exn, w1, evs1) =>
        let '(r, w2, evs2) := h exn w1 in (r, w2, (evs1 ++ evs2)%list)
    end.

Notation "'let*' x ':=' m 'in' k" := (bind m (fun x => k))
  (at level 10, x pattern, m at level 100, k at level 200).

Definition lift {A} (r : Res A) : M A := fun w => (r, w, []).

Definition emit (e : Event) : M unit := fun w => (Ok tt, w, [e]).

Definition get_world : M World := fun w => (Ok w, w, []).

Definition set_articles (a : gmap string ArticleDoc) : M unit :=
  fun w => (Ok tt, {| es_up := es_up w; articles := a;
                      users := users w; now := now w |}, []).

(** A call to the store: it raises when the store cannot be reached. *)
Definition es_call (e : Event) : M unit :=
  let* _ := emit e in
  let* w := get_world in
  if es_up w then ret tt else raise "ConnectionError".

(** [es_client.get_es] *)
Definition get_es : M unit :=
  let* _ := emit EvPing in
  let* w := get_world in
  if es_up w then ret tt else raise "RuntimeError".

(** [es.exists(index=INDEX_NAME, id=doc_id)] *)
Definition es_exists (doc_id : string) : M bool :=
  let* _ := es_call (EvExists doc_id) in
  let* w := get_world in
  ret (bool_decide (is_Some (articles w !! doc_id))).

(** The network and the libraries on it. *)
Record Web := {
  (** [session.get(url, timeout=10)]: the status code and [response.text]. *)
  session_get : string -> Res (Z * string);
  (** [trafilatura.extract(html, ...)] *)
  trafilatura_extract : string -> Res (option string);
  (** [trafilatura.extract_metadata(html).title], [None] when there is no
      metadata or no title. *)
  trafilatura_title : string -> Res (option string);
  (** [BeautifulSoup(html, 'html.parser')], [None] when bs4 is not
      installed: for each selector of [extract_title_from_html], in order,
      the texts of the selected elements. *)
  soup : option (string -> Res (list (Res (list string))));
  (** [Article(url, config); download(); parse()] *)
  newspaper : string -> Res NewsArticle;
  (** [feedparser.parse(feed_url)] *)
  feedparser_parse : string -> Res Feed;
  (** [dateutil.parser.parse(s)] *)
  dateutil_parse : string -> Res Z
}.

(** The analyzer capabilities of [backend.nlp]. *)
Record Analyzers := {
  detect_language : string -> Res string;
  translate_to_english : string -> Res string;
  summarize : string -> Res string;
  an_extract_entities : string -> Res (list RawEntity);
  classify_bias : string -> Res (string * Q);
  classify_sentiment : string -> Res (string * Q)
}.

(** ** [rss_scraper.py]: extraction *)

(** [bool(title)] for a title that may be [None]. *)
Definition has_title (title : option string) : bool :=
  match title with
  | Some t => Py.truthy t
  | None => false
  end.

(** The inner loop of [extract_title_from_html] over [elements[:3]]. *)
Fixpoint first_valid_text (texts : list string) : option string :=
  match texts with
  | [] => None
  | title :: rest =>
      if Py.truthy title && is_valid_title title then Some (clean_title title)
      else first_valid_text rest
  end.

(** The outer loop over the selectors; a selector that raises is passed. *)
Fixpoint first_selector_title (selected : list (Res (list string)))
  : option string :=
  match selected with
  | [] => None
  | Ok elements :: rest =>
      match first_valid_text (firstn 3 elements) with
      | Some t => Some t
      | None => first_selector_title rest
      end
  | Raise _ :: rest => first_selector_title rest
  end.

Definition extract_title_from_html (web : Web) (downloaded_html : string)
  (url : string) : option string :=
  match soup web with
  | None => None
  | Some parse =>
      if negb (Py.truthy downloaded_html) then None
      else match parse downloaded_html with
           | Ok selected => first_selector_title selected
           | Raise _ => None
           end
  end.

(** The minimum length, exclusive, of an extracted body. *)
Definition min_text_length : Z := 100.

(** The first [try] block of [download_article]: [Ok None] when it falls
    through to the fallback without raising. *)
Definition primary_extraction (web : Web) (url : string)
  : M (option RawArticle) :=
  let* _ := emit (EvHttpGet url) in
  let* response := lift (session_get web url) in
  let '(status_code, html) := response in
  if status_code =? 200 then
    let* text := lift (trafilatura_extract web html) in
    match text with
    | Some text =>
        if Py.truthy text && (min_text_length <? Py.len (Py.strip text)) then
          let title :=
            match trafilatura_title web html with
            | Ok (Some t) =>
                if Py.truthy t
                then let pt := clean_title t in
                     if is_valid_title pt then Some pt else None
                else None
            | Ok None => None
            | Raise _ => None
            end in
          let title :=
            if has_title title then title
            else extract_title_from_html web html url in
          let title :=
            if has_title title then title
            else extract_title_from_content text in
          ret (Some {| ra_title := title; ra_text := text;
                       ra_method := "trafilatura"; ra_publish_date := None |})
        else ret None
    | None => ret None
    end
  else ret None.

(** The second [try] block of [download_article]. *)
Definition secondary_extraction (web : Web) (url : string)
  : M (option RawArticle) :=
  let* _ := emit (EvNewspaper url) in
  let* art := lift (newspaper web url) in
  if Py.truthy (art_text art)
     && (min_text_length <? Py.len (Py.strip (art_text art))) then
    let title :=
      if Py.truthy (art_title art)
      then let pt := clean_title (art_title art) in
           if is_valid_title pt then Some pt else None
      else None in
    ret (Some {| ra_title := title; ra_text := art_text art;
                 ra_method := "newspaper3k";
                 ra_publish_date := art_publish_date art |})
  else ret None.

Definition download_article (web : Web) (url : string) : M (option RawArticle) :=
  let* first := try_except (primary_extraction web url) (fun _ => ret None) in
  match first with
  | Some raw => ret (Some raw)
  | None => try_except (secondary_extraction web url) (fun _ => ret None)
  end.

(** [iso_date] on a date that is a [datetime] or [None]. *)
Definition iso_date (dt : option Z) : option Z := dt.

Definition safe_nlp_operation {A} (operation_name : string)
  (operation_func : string -> Res A) (text : string) : M (option A) :=
  let* _ := emit (EvAnalyzer operation_name text) in
  match operation_func text with
  | Ok r => ret (Some r)
  | Raise _ => ret None
  end.

(** [e.get(key, default)] on a string field. *)
Definition get_default (f : field) (default : string) : option string :=
  match f with
  | None => Some default
  | Some v => v
  end.

(** [e.get(key)] *)
Definition get_field (f : field) : option string :=
  match f with
  | None => None
  | Some v => v
  end.

(** One turn of the loop of [validate_and_create_entities]: the entity to
    append, or [None] for [continue]. *)
Definition create_entity (schema : Schema) (e : RawEntity)
  : option EntitySentiment :=
  match raw_name e with
  | Some (VStr name) =>
      if negb (Py.truthy (Py.strip name)) then None
      else
        match raw_score e with
        | Some SBad => None (* not a number: the schema refuses it *)
        | score =>
            let entity :=
              {| ent_name := Py.strip name;
                 ent_type := get_default (raw_type e) "misc";
                 ent_sentiment := get_default (raw_sentiment e) "neutral";
                 ent_bias := get_field (raw_bias e);
                 ent_score := match score with
                              | Some (SNum q) => Some q
                              | _ => None
                              end |} in
            if entity_ok schema entity then Some entity else None
        end
  | _ => None
  end.

Definition validate_and_create_entities (schema : Schema)
  (entities_data : option (list RawEntity)) : list EntitySentiment :=
  match entities_data with
  | None => []
  | Some data => omap (create_entity schema) data
  end.

(** ** [entities.py] *)

(** An entity dict that [_validate_entities] has built: all five keys are
    there. *)
Record ValidEntity := {
  ve_name : string;
  ve_type : string;
  ve_sentiment : string;
  ve_bias : option string;
  ve_score : Q
}.

Definition entity_dict (v : ValidEntity) : RawEntity :=
  {| raw_name := Some (VStr (ve_name v));
     raw_type := Some (Some (ve_type v));
     raw_sentiment := Some (Some (ve_sentiment v));
     raw_bias := Some (ve_bias v);
     raw_score := Some (SNum (ve_score v)) |}.

(** The characters that the punctuation test of [_validate_entities]
    lists: the fourteen below and the double quote (code 34). *)
Definition punctuation : list ascii :=
  (Py.chars ".,!?;:()-[]{}'" ++ [Py.chr 34])%list.

Definition is_punctuation (c : ascii) : bool :=
  existsb (Ascii.eqb c) punctuation.

(** [str(entity.get(key, default)).lower()] *)
Definition str_lower (f : field) (default : string) : string :=
  match f with
  | None => Py.lower default
  | Some None => Py.lower "None"
  | Some (Some s) => Py.lower s
  end.

Definition sentiments : list string := ["positive"; "negative"; "neutral"].

(** One turn of the first loop of [_validate_entities]: the dict to
    append, or [None] for [continue]. *)
Definition validate_entity (entity : RawEntity) : option ValidEntity :=
  match raw_name entity with
  | Some (VStr name) =>
      if negb (Py.truthy name) then None
      else
        let name := Py.strip name in
        if negb (Py.truthy name) || (Py.len name <? 2) then None
        else if Py.isdigit name || forallb is_punctuation (Py.chars name) then None
        else
          let score :=
            match raw_score entity with
            | None | Some SNone => Ok (1 # 2)
            | Some (SNum q) => Ok q
            | Some SBad => Raise "ValueError"
            end in
          match score with
          | Raise _ => None
          | Ok score =>
              let sentiment := str_lower (raw_sentiment entity) "neutral" in
              Some {| ve_name := name;
                      ve_type := str_lower (raw_type entity) "misc";
                      ve_sentiment :=
                        if existsb (String.eqb sentiment) sentiments
                        then sentiment else "neutral";
                      ve_bias := get_field (raw_bias entity);
                      ve_score := score |}
          end
  | _ => None
  end.

(** One turn of the second loop: [seen_names] and [unique_entities]. *)
Definition dedup_step (acc : gset string * list ValidEntity)
  (entity : ValidEntity) : gset string * list ValidEntity :=
  let '(seen_names, unique_entities) := acc in
  let name_lower := Py.lower (ve_name entity) in
  if decide (name_lower ∈ seen_names) then acc
  else ({[name_lower]} ∪ seen_names, (unique_entities ++ [entity])%list).

Definition _validate_entities (entities : list RawEntity) : list ValidEntity :=
  let validated := omap validate_entity entities in
  snd (fold_left dedup_step validated (∅, [])).

(** A span of a spaCy document and a result of the transformers
    pipeline. *)
Record SpacyEnt := {
  span_text : string;
  span_label : string
}.

Record NerResult := {
  ner_word : option string;
  ner_entity_group : option string;
  ner_score : option score_val
}.

(** The two models loaded at import time, [None] when loading failed. *)
Record NerModels := {
  nlp_spacy : option (string -> Res (list SpacyEnt));
  ner_pipeline : option (string -> Res (list NerResult))
}.

Definition _extract_with_spacy (models : NerModels) (text : string)
  : list RawEntity :=
  match nlp_spacy models with
  | None => []
  | Some nlp =>
      match nlp (Py.take 2000 text) with
      | Raise _ => []
      | Ok ents =>
          omap (fun ent =>
                  if Py.truthy (span_text ent)
                     && (1 <? Py.len (Py.strip (span_text ent)))
                  then Some {| raw_name := Some (VStr (Py.strip (span_text ent)));
                               raw_type := Some (Some (Py.lower (span_label ent)));
                               raw_sentiment := Some (Some "neutral");
                               raw_bias := Some None;
                               raw_score := Some (SNum (9 # 10)) |}
                  else None) ents
      end
  end.

(** The loop of [_extract_with_transformers]: a score that [float()]
    rejects ends it, and what was appended so far is returned. *)
Fixpoint transformer_entities (results : list NerResult) : list RawEntity :=
  match results with
  | [] => []
  | result :: rest =>
      match ner_word result with
      | Some word =>
          if Py.truthy word && (1 <? Py.len (Py.strip word)) then
            let score :=
              match ner_score result with
              | None => Some (1 # 2)
              | Some (SNum q) => Some q
              | Some SNone | Some SBad => None
              end in
            match score with
            | None => []
            | Some q =>
                {| raw_name := Some (VStr (Py.strip word));
                   raw_type := Some (Some (Py.lower
                                 (default "misc" (ner_entity_group result))));
                   raw_sentiment := Some (Some "neutral");
                   raw_bias := Some None;
                   raw_score := Some (SNum q) |} :: transformer_entities rest
            end
          else transformer_entities rest
      | None => transformer_entities rest
      end
  end.

Definition _extract_with_transformers (models : NerModels) (text : string)
  : list RawEntity :=
  match ner_pipeline models with
  | None => []
  | Some ner =>
      match ner (Py.take 1000 text) with
      | Raise _ => []
      | Ok results => transformer_entities results
      end
  end.

Definition extract_entities (models : NerModels) (text : string)
  : list ValidEntity :=
  if negb (Py.truthy text) then []
  else
    match nlp_spacy models, ner_pipeline models with
    | Some _, _ => _validate_entities (_extract_with_spacy models text)
    | None, Some _ => _validate_entities (_extract_with_transformers models text)
    | None, None => []
    end.

(** [extract_entities] as the pipeline calls it: it catches what its
    models raise, so the call itself never raises. *)
Definition entities_analyzer (models : NerModels) (text : string)
  : Res (list RawEntity) :=
  Ok (map entity_dict (extract_entities models text)).

(** ** [rss_scraper.py]: the pipeline for one item *)

(** [for x in l: acc = body(acc, x)] *)
Fixpoint for_each {A B} (l : list A) (body : B -> A -> M B) (acc : B) : M B :=
  match l with
  | [] => ret acc
  | x :: rest => let* acc := body acc x in for_each rest body acc
  end.

(** The title logic of [process_single_article]: [rss_title] is
    [entry.get('title', '')], [extracted] is [raw_article.get('title')] and
    [text] the truncated body. *)
Definition resolve_title (rss_title : string) (extracted : option string)
  (text url : string) : string :=
  (* Priority 1: RSS feed title *)
  let rss_title := Py.strip rss_title in
  let final_title :=
    if Py.truthy rss_title && is_valid_title rss_title
    then Some (clean_title rss_title) else None in
  (* Priority 2: Extracted title *)
  let final_title :=
    if has_title final_title then final_title
    else if has_title extracted && is_valid_title (default "" extracted)
         then Some (clean_title (default "" extracted)) else final_title in
  (* Priority 3: Content-based *)
  let final_title :=
    if has_title final_title then final_title
    else let content_title := extract_title_from_content text in
         if has_title content_title && is_valid_title (default "" content_title)
         then content_title else final_title in
  (* Priority 4: URL-based *)
  let final_title :=
    if has_title final_title then default "" final_title
    else extract_title_from_url url in
  if negb (Py.truthy final_title) || negb (is_valid_title final_title)
  then source_label url
  else final_title.

(** [result[0] or "neutral", result[1] or 0.0], and the defaults when the
    classifier gave nothing. *)
Definition label_and_score (result : option (string * Q)) : string * Q :=
  match result with
  | Some (label, score) =>
      (if Py.truthy label then label else "neutral",
       if Qeq_bool score 0 then 0%Q else score)
  | None => ("neutral", 0%Q)
  end.

(** The part of [process_single_article] that follows the download: the
    NLP pipeline and the construction of the document. *)
Definition enrich_and_build (web : Web) (an : Analyzers) (schema : Schema)
  (entry : FeedItem) (url doc_id : string) (raw_article : RawArticle)
  : M (option Action) :=
  let text := truncate_text_default (ra_text raw_article) in
  let final_title :=
    resolve_title (item_title entry) (ra_title raw_article) text url in
  (* NLP Pipeline *)
  let* detected :=
    safe_nlp_operation "Language detection" (detect_language an) text in
  let lang :=
    match detected with
    | Some l => if Py.truthy l then l else "en"
    | None => "en"
    end in
  let* translation :=
    if String.eqb lang "en" then ret (text, None)
    else
      let* translated_result :=
        safe_nlp_operation "Translation" (translate_to_english an) text in
      match translated_result with
      | Some t => if Py.truthy t then ret (t, Some t) else ret (text, None)
      | None => ret (text, None)
      end in
  let '(text, translated_text) := translation in
  let* summary :=
    safe_nlp_operation "Summarization" (summarize an) text in
  let* entities_data :=
    safe_nlp_operation "Entity extraction" (an_extract_entities an) text in
  let entities := validate_and_create_entities schema entities_data in
  let* bias_result :=
    safe_nlp_operation "Bias classification" (classify_bias an) text in
  let '(bias_overall, bias_score) := label_and_score bias_result in
  let* sentiment_result :=
    safe_nlp_operation "Sentiment classification" (classify_sentiment an) text in
  let '(sentiment_overall, sentiment_score) :=
    label_and_score sentiment_result in
  (* Format Date *)
  let pub_date :=
    match ra_publish_date raw_article, item_published entry with
    | Some d, _ => Some d
    | None, Some published =>
        if Py.truthy published
        then match dateutil_parse web published with
             | Ok d => Some d
             | Raise _ => None
             end
        else None
    | None, None => None
    end in
  (* Build the Pydantic Model first to ensure validation *)
  let article_doc :=
    {| doc_title := final_title;
       doc_url := url;
       doc_source_name := item_source entry;
       doc_published_date := iso_date pub_date;
       doc_language := lang;
       doc_original_text := Py.take 5000 (ra_text raw_article);
       doc_translated_text := translated_text;
       doc_summary := summary;
       doc_bias_overall := bias_overall;
       doc_bias_score := bias_score;
       doc_sentiment_overall := sentiment_overall;
       doc_sentiment_score := sentiment_score;
       doc_entities := entities |} in
  if article_ok schema article_doc
  then ret (Some {| act_id := doc_id; act_source := article_doc |})
  else raise "ValidationError".

Definition process_single_article (web : Web) (an : Analyzers)
  (schema : Schema) (entry : FeedItem) : M (option Action) :=
  let* _ := get_es in
  match item_link entry with
  | None => raise "AttributeError"
  | Some url =>
      let doc_id := generate_id url in
      (* 1. FAST CHECK: Does it exist? *)
      let* found := es_exists doc_id in
      if found then ret None
      else
        (* 2. SLOW PART: Download & NLP *)
        let* raw_article := download_article web url in
        match raw_article with
        | None => ret None
        | Some raw_article =>
            enrich_and_build web an schema entry url doc_id raw_article
        end
  end.

(** ** [rss_scraper.py]: a cycle of ingestion *)

Definition RSS_FEEDS : list string :=
  ["https://feeds.feedburner.com/ndtvnews-top-stories";
   "https://timesofindia.indiatimes.com/rssfeedstopstories.cms";
   "https://www.thehindu.com/feeder/default.rss";
   "http://feeds.bbci.co.uk/news/rss.xml";
   "http://rss.cnn.com/rss/cnn_topstories.rss";
   "https://www.aljazeera.com/xml/rss/all.xml";
   "https://techcrunch.com/feed/";
   "https://economictimes.indiatimes.com/rssfeedstopstories.cms";
   "https://economictimes.indiatimes.com/rssfeeds/1977021501.cms";
   "https://www.livemint.com/rss/business";
   "https://www.livemint.com/rss/markets";
   "https://www.livemint.com/rss/money";
   "https://search.cnbc.com/rs/search/combinedcms/view.xml?partnerId=wrss01&id=100003114";
   "https://search.cnbc.com/rs/search/combinedcms/view.xml?partnerId=wrss01&id=10001147";
   "https://www.wired.com/feed/rss";
   "https://www.wired.com/feed/category/science/rss";
   "https://www.theverge.com/rss/index.xml";
   "https://timesofindia.indiatimes.com/rssfeeds/66997905.cms";
   "https://feeds.feedburner.com/gadgets360-latest"].

Definition feed_item (feed_url : string) (feed : Feed) (entry : FeedEntry)
  : FeedItem :=
  {| item_title := Py.strip (default "" (fe_title entry));
     item_link := fe_link entry;
     item_published := fe_published entry;
     item_source := if has_title (feed_title feed)
                    then default "" (feed_title feed) else feed_url;
     item_description := default "" (fe_description entry) |}.

(** [l[:n]] for an integer [n]: the first [n] elements of [l], and for a
    negative [n] all but the last [-n]. *)
Definition slice_upto {A} (n : Z) (l : list A) : list A :=
  if 0 <=? n then firstn (Z.to_nat n) l
  else firstn (List.length l - Z.to_nat (- n)) l.

Definition fetch_feed_entries (web : Web) (limit_per_feed : Z)
  : M (list FeedItem) :=
  for_each RSS_FEEDS
    (fun items feed_url =>
       let* _ := emit (EvFeed feed_url) in
       match feedparser_parse web feed_url with
       | Ok feed =>
           ret (items ++ map (feed_item feed_url feed)
                             (slice_upto limit_per_feed (feed_entries feed)))%list
       | Raise _ => ret items
       end)
    [].

(** [bulk(es, docs_to_index, stats_only=True)]: each action is written
    under its [_id]. *)
Definition bulk (docs_to_index : list Action) : M unit :=
  let* _ := es_call (EvBulk (map act_id docs_to_index)) in
  let* w := get_world in
  set_articles
    (fold_left (fun store a => <[act_id a := act_source a]> store)
               docs_to_index (articles w)).

(** The workers of the pool only read the store and the results are
    gathered as they complete; the items are run here in the order of the
    feeds.  A worker that raises is logged and gives no document. *)
Definition run_workers (web : Web) (an : Analyzers) (schema : Schema)
  (feed_entries : list FeedItem) : M (list Action) :=
  for_each feed_entries
    (fun docs_to_index entry =>
       let* result :=
         try_except (process_single_article web an schema entry)
                    (fun _ => ret None) in
       match result with
       | Some doc => ret (docs_to_index ++ [doc])%list
       | None => ret docs_to_index
       end)
    [].

(** The result is [(total_fetched, new_indexed)]. *)
Definition ingest_from_feeds (web : Web) (an : Analyzers) (schema : Schema)
  (limit_per_feed : Z) : M (Z * Z) :=
  let* _ := get_es in
  let* feed_entries := fetch_feed_entries web limit_per_feed in
  let* docs_to_index := run_workers web an schema feed_entries in
  let* _ :=
    match docs_to_index with
    | [] => ret tt
    | _ => bulk docs_to_index
    end in
  ret (Z.of_nat (List.length feed_entries), Z.of_nat (List.length docs_to_index)).

(** ** [agent.py] *)

(** The search engine of the store and the report writer. *)
Record Engine := {
  (** [multi_match] of the topic on the fields [title] and [summary]. *)
  multi_match : string -> string -> option string -> bool;
  (** [backend.reporter.generate_html_report]: the path of the report. *)
  generate_html_report : list RiskRecord -> Res string
}.

(** The three clauses of the query of [analyze_topic_risk]. *)
Definition matches_query (engine : Engine) (topic : string) (yesterday : Z)
  (d : ArticleDoc) : bool :=
  multi_match engine topic (doc_title d) (doc_summary d)
  && match doc_published_date d with
     | Some t => yesterday <=? t
     | None => false
     end
  && String.eqb (doc_sentiment_overall d) "negative".

Definition published (d : ArticleDoc) : Z := default 0 (doc_published_date d).

(** [sort: published_date desc] *)
Fixpoint insert_desc (d : ArticleDoc) (l : list ArticleDoc) : list ArticleDoc :=
  match l with
  | [] => [d]
  | x :: r => if published x <? published d then d :: l else x :: insert_desc d r
  end.

Definition sort_desc (l : list ArticleDoc) : list ArticleDoc :=
  fold_right insert_desc [] l.

Definition source_of (d : ArticleDoc) : Hit :=
  {| hit_title := doc_title d;
     hit_url := doc_url d;
     hit_source_name := doc_source_name d;
     hit_published_date := doc_published_date d;
     hit_summary := doc_summary d |}.

(** The number of hits asked for. *)
Definition search_size : nat := 5.

(** [es.search(index=INDEX_NAME, body=...)['hits']['hits']]: the matching
    documents, the most recent first, [size] of them at most. *)
Definition es_search (engine : Engine) (topic : string) (yesterday : Z)
  : M (list ArticleDoc) :=
  let* _ := es_call (EvSearchArticles topic) in
  let* w := get_world in
  ret (firstn search_size
         (sort_desc (List.filter (matches_query engine topic yesterday)
                                 (map snd (map_to_list (articles w)))))).

Definition analyze_topic_risk (engine : Engine) (topic : string) : M RiskRecord :=
  let* w := get_world in
  (* 1. Define 'Recent' (Last 24 hours) *)
  let yesterday := now w - 24 * 3600 in
  (* 3. Fetch Data *)
  let* hits := es_search engine topic yesterday in
  let articles_data := map source_of hits in
  (* Get summary from the first article *)
  let top_summary :=
    match articles_data with
    | first :: _ =>
        if has_title (hit_summary first)
        then default "" (hit_summary first)
        else "No summary available."
    | [] => "No summary available."
    end in
  ret {| risk_topic := topic;
         is_critical := 0 <? Z.of_nat (List.length hits);
         article_count := Z.of_nat (List.length hits);
         articles_data := articles_data;
         top_summary := top_summary;
         ai_assessment := None;
         users_affected := None |}.

Definition generate_alert_batch (engine : Engine) (risk_list : list RiskRecord)
  : M unit :=
  let* _ := emit (EvReport risk_list) in
  let* report_path := lift (generate_html_report engine risk_list) in
  (* Opens ONE tab *)
  emit (EvBrowser ("file://" +:+ report_path)).

(** [topic_map]: a dict keeps the order in which its keys were first
    inserted, so it is a list of pairs with distinct keys. *)
Fixpoint topic_map_append (topic_map : list (string * list string))
  (clean_topic email : string) : list (string * list string) :=
  match topic_map with
  | [] => [(clean_topic, [email])]
  | (t, emails) :: rest =>
      if String.eqb t clean_topic then (t, (emails ++ [email])%list) :: rest
      else (t, emails) :: topic_map_append rest clean_topic email
  end.

(** The users of the index [news_users], [size] of them at most. *)
Definition users_size : nat := 1000.

(** The first step of [run_patrol]: [None] when the index is missing. *)
Definition fetch_users : M (option (list User)) :=
  let* _ := es_call EvUsersIndex in
  let* w := get_world in
  match users w with
  | None => ret None
  | Some us =>
      let* _ := es_call EvSearchUsers in
      ret (Some (firstn users_size us))
  end.

(** [user['email']] is read once per topic of the watch-list; it raises
    when the key is missing. *)
Definition map_topics (us : list User) : M (list (string * list string)) :=
  for_each us
    (fun topic_map user =>
       for_each (default [] (user_watchlist user))
         (fun topic_map topic =>
            let clean_topic := Py.strip topic in
            match user_email user with
            | Some email => ret (topic_map_append topic_map clean_topic email)
            | None => raise "KeyError"
            end)
         topic_map)
    [].

Definition analyze_risks (engine : Engine)
  (topic_map : list (string * list string)) : M (list RiskRecord) :=
  for_each topic_map
    (fun risk_list '(topic, emails) =>
       let* risk_data := analyze_topic_risk engine topic in
       if is_critical risk_data then
         ret (risk_list ++
              [{| risk_topic := risk_topic risk_data;
                  is_critical := is_critical risk_data;
                  article_count := article_count risk_data;
                  articles_data := articles_data risk_data;
                  top_summary := top_summary risk_data;
                  ai_assessment := Some (top_summary risk_data);
                  users_affected := Some emails |}])%list
       else ret risk_list)
    [].

Definition run_patrol (engine : Engine) : M unit :=
  (* 1. Fetch Users *)
  let* fetched := try_except fetch_users (fun _ => ret None) in
  match fetched with
  | None => ret tt
  | Some us =>
      (* 2. Map Topics *)
      let* topic_map := map_topics us in
      match topic_map with
      | [] => ret tt
      | _ =>
          (* 3. Analyze Risks *)
          let* risk_list := analyze_risks engine topic_map in
          (* 4. Generate ONE Report *)
          match risk_list with
          | [] => ret tt
          | _ => generate_alert_batch engine risk_list
          end
      end
  end.

(** ** [sentiment.py] *)

Module Sentiment.

(** [truncate_text(text, max_length)] for [0 <= max_length]. *)
Definition truncate_text (text : string) (max_length : Z) : string :=
  if Py.len text <=? max_length * 4 then text
  else
    let truncated := Py.take (Z.to_nat (max_length * 4)) text in
    let last_space := Py.rfind truncated " "%char in
    (* last_space > len(truncated) * 0.8 *)
    if 8 * Py.len truncated <? 10 * last_space
    then Py.take (Z.to_nat last_space) truncated
    else truncated.

(** The labels that stand for a positive and for a negative text. *)
Definition positive_labels : list string := ["positive"; "pos"; "label_2"].
Definition negative_labels : list string := ["negative"; "neg"; "label_0"].

(** [classifier] is [_sentiment_classifier], [None] when no model could
    be loaded; it gives the label and the score of each result. *)
Definition classify_sentiment
  (classifier : option (string -> Res (list (string * Q))))
  (text : string) : string * Q :=
  if negb (Py.truthy text) || negb (Py.truthy (Py.strip text))
  then ("neutral", 0%Q)
  else
    match classifier with
    | None => ("neutral", 0%Q)
    | Some classify =>
        (* Truncate text to avoid sequence length issues *)
        let truncated_text := truncate_text text 400 in
        match classify truncated_text with
        | Ok ((label, score) :: _) =>
            let label := Py.lower label in
            (* Normalize labels (different models use different formats) *)
            let sentiment :=
              if existsb (String.eqb label) positive_labels then "positive"
              else if existsb (String.eqb label) negative_labels then "negative"
              else "neutral" in
            (sentiment, score)
        | Ok [] => ("neutral", 0%Q)
        | Raise _ => ("neutral", 0%Q)
        end
    end.

End Sentiment.

(** ** [summarizer.py] *)

Module Summarizer.

(** [truncate_for_model(text, max_tokens)] for [0 <= max_tokens]. *)
Definition truncate_for_model (text : string) (max_tokens : Z) : string :=
  if negb (Py.truthy text) then text
  else
    (* Rough approximation: 1 token is about 4 characters for English *)
    let max_chars := max_tokens * 4 in
    if Py.len text <=? max_chars then text
    else
      (* Try to truncate at sentence boundaries *)
      let truncated := Py.take (Z.to_nat max_chars) text in
      let last_period := Py.rfind truncated "."%char in
      let last_exclamation := Py.rfind truncated "!"%char in
      let last_question := Py.rfind truncated "?"%char in
      let last_sentence_end :=
        Z.max (Z.max last_period last_exclamation) last_question in
      (* last_sentence_end > max_chars * 0.8 *)
      if 8 * max_chars <? 10 * last_sentence_end
      then Py.strip (Py.take (Z.to_nat (last_sentence_end + 1)) truncated)
      else
        (* Otherwise, truncate at word boundary *)
        let last_space := Py.rfind truncated " "%char in
        (* last_space > max_chars * 0.9 *)
        if 9 * max_chars <? 10 * last_space
        then Py.strip (Py.take (Z.to_nat last_space) truncated)
        else Py.strip truncated.

(** [max_length] and [min_length] of the call of the model, from
    [max_tokens] and the number of words given to it; [int(n * 0.2)] is
    the quotient of [n] by 5. *)
Definition generation_lengths (max_tokens input_len : Z) : Z * Z :=
  let max_gen_len := Z.min max_tokens 150 in
  let min_gen_len := Z.min 30 (input_len / 5) in
  (* Ensure min < max *)
  let min_gen_len :=
    if max_gen_len <=? min_gen_len
    then Z.max 10 (max_gen_len - 10)
    else min_gen_len in
  (max_gen_len, min_gen_len).

(** [s.endswith('.')] *)
Definition ends_with_period (s : string) : bool :=
  match rev (Py.chars s) with
  | c :: _ => Ascii.eqb c "."%char
  | [] => false
  end.

(** The [except] branch of [summarize]: the first three sentences. *)
Definition fallback_summary (text : string) : string :=
  let sentences := firstn 3 (Py.split_str "." text) in
  let fallback := Py.strip (Py.join ". " sentences) in
  if Py.truthy fallback && negb (ends_with_period fallback)
  then fallback +:+ "."
  else fallback.

(** [pipeline] is [_summarizer_pipeline], [None] when the model could
    not be loaded: from the text, [max_length] and [min_length] it gives
    the list of its results, each with its [summary_text] if it has one. *)
Definition summarize
  (pipeline : option (string -> Z -> Z -> Res (list (option string))))
  (text : string) (max_tokens : Z) : string :=
  if negb (Py.truthy text) || negb (Py.truthy (Py.strip text)) then ""
  else
    match pipeline with
    | None => Py.take 300 text +:+ "..."
    | Some run =>
        (* Check if text is too short to summarize *)
        let word_count := Z.of_nat (List.length (Py.split_ws text)) in
        if word_count <? 40 then text
        else
          let truncated_text := truncate_for_model text 1024 in
          let input_len := Z.of_nat (List.length (Py.split_ws truncated_text)) in
          let '(max_gen_len, min_gen_len) :=
            generation_lengths max_tokens input_len in
          match run truncated_text max_gen_len min_gen_len with
          | Ok (Some summary_text :: _) => Py.strip summary_text
          | Ok _ => ""
          | Raise _ => fallback_summary text
          end
    end.

End Summarizer.

(** The analyzers of the repository whose code is among the sources, as
    [process_single_article] calls them: none of them raises. *)
Definition sentiment_analyzer
  (classifier : option (string -> Res (list (string * Q))))
  (text : string) : Res (string * Q) :=
  Ok (Sentiment.classify_sentiment classifier text).

Definition summary_analyzer
  (pipeline : option (string -> Z -> Z -> Res (list (option string))))
  (max_summary_tokens : Z) (text : string) : Res string :=
  Ok (Summarizer.summarize pipeline text max_summary_tokens).

(** ** Notions used in the statements *)

Definition hex_digits : list ascii := Py.chars "0123456789abcdef".

Definition is_hex (c : ascii) : bool := existsb (Ascii.eqb c) hex_digits.

(** In the words of the specification: the title, trimmed and in lower
    case, is one of the generic strings. *)
Definition in_blacklist (title : string) : bool :=
  existsb (String.eqb (Py.strip (Py.lower title))) invalid_titles.

(** The test of the code: a generic string occurs somewhere in the title. *)
Definition mentions_generic (title : string) : bool :=
  existsb (fun inv => Py.contains inv (Py.strip (Py.lower title))) invalid_titles.

(** The world that a computation leaves is the one it started from. *)
Definition keeps_world {A} (m : M A) : Prop :=
  forall w, snd (fst (m w)) = w.

(** What [safe_nlp_operation] returns. *)
Definition safe_value {A} (f : string -> Res A) (text : string) : option A :=
  match f text with
  | Ok r => Some r
  | Raise _ => None
  end.

Definition language_of (an : Analyzers) (text : string) : string :=
  match safe_value (detect_language an) text with
  | Some l => if Py.truthy l then l else "en"
  | None => "en"
  end.

Definition translation_of (an : Analyzers) (text : string) : option string :=
  if String.eqb (language_of an text) "en" then None
  else match safe_value (translate_to_english an) text with
       | Some t => if Py.truthy t then Some t else None
       | None => None
       end.

(** The text that the analyzers after the translation are given. *)
Definition analysis_text (an : Analyzers) (text : string) : string :=
  default text (translation_of an text).

Definition pub_date_of (web : Web) (entry : FeedItem) (raw : RawArticle)
  : option Z :=
  match ra_publish_date raw, item_published entry with
  | Some d, _ => Some d
  | None, Some published =>
      if Py.truthy published
      then match dateutil_parse web published with
           | Ok d => Some d
           | Raise _ => None
           end
      else None
  | None, None => None
  end.

(** The document that [process_single_article] hands to the schema. *)
Definition document_of (web : Web) (an : Analyzers) (schema : Schema)
  (entry : FeedItem) (url : string) (raw : RawArticle) : ArticleDoc :=
  let text0 := truncate_text_default (ra_text raw) in
  let text := analysis_text an text0 in
  {| doc_title := resolve_title (item_title entry) (ra_title raw) text0 url;
     doc_url := url;
     doc_source_name := item_source entry;
     doc_published_date := pub_date_of web entry raw;
     doc_language := language_of an text0;
     doc_original_text := Py.take 5000 (ra_text raw);
     doc_translated_text := translation_of an text0;
     doc_summary := safe_value (summarize an) text;
     doc_bias_overall := fst (label_and_score (safe_value (classify_bias an) text));
     doc_bias_score := snd (label_and_score (safe_value (classify_bias an) text));
     doc_sentiment_overall :=
       fst (label_and_score (safe_value (classify_sentiment an) text));
     doc_sentiment_score :=
       snd (label_and_score (safe_value (classify_sentiment an) text));
     doc_entities :=
       validate_and_create_entities schema
         (safe_value (an_extract_entities an) text) |}.

(** The calls of analyzers, in order, with the text each one is given. *)
Definition analyzer_events (an : Analyzers) (text0 : string) : list Event :=
  let text := analysis_text an text0 in
  (EvAnalyzer "Language detection" text0
   :: (if String.eqb (language_of an text0) "en" then []
       else [EvAnalyzer "Translation" text0])
   ++ [EvAnalyzer "Summarization" text;
       EvAnalyzer "Entity extraction" text;
       EvAnalyzer "Bias classification" text;
       EvAnalyzer "Sentiment classification" text])%list.

(** The primary step yields a body: the page came with status 200 and the
    text recovered from it has more than 100 characters once trimmed. *)
Definition primary_succeeds (web : Web) (url : string) (text : string) : Prop :=
  exists html,
    session_get web url = Ok (200, html)
    /\ trafilatura_extract web html = Ok (Some text)
    /\ min_text_length < Py.len (Py.strip text).

(** The secondary step yields a body. *)
Definition secondary_succeeds (web : Web) (url : string) (text : string) : Prop :=
  exists art,
    newspaper web url = Ok art
    /\ art_text art = text
    /\ min_text_length < Py.len (Py.strip text).

(** In the words of the specification: the status is a success status. *)
Definition is_success_status (status_code : Z) : Prop :=
  200 <= status_code < 300.

(** The analyzer raises on the text it is given. *)
Definition raises {A} (f : string -> Res A) (text : string) : Prop :=
  exists exn, f text = Raise exn.

(** The store after [bulk]. *)
Definition written (docs : list Action) (store : gmap string ArticleDoc)
  : gmap string ArticleDoc :=
  fold_left (fun store a => <[act_id a := act_source a]> store) docs store.

(** The last test of the title logic. *)
Definition or_source_label (url title : string) : string :=
  if negb (Py.truthy title) || negb (is_valid_title title)
  then source_label url else title.

(** The key under which entities are told apart. *)
Definition name_key (e : ValidEntity) : string := Py.lower (ve_name e).

Definition differs_from (e x : ValidEntity) : bool :=
  negb (String.eqb (name_key x) (name_key e)).

(** The first occurrence of every name, in the order of the list: the
    head stays, and what follows loses the entities of the same name. *)
Fixpoint first_seen (l : list ValidEntity) : list ValidEntity :=
  match l with
  | [] => []
  | e :: rest => e :: List.filter (differs_from e) (first_seen rest)
  end.

Definition unseen (seen : gset string) (x : ValidEntity) : bool :=
  bool_decide (name_key x ∉ seen).

(** The documents of the store that the query of a topic matches. *)
Definition matching (engine : Engine) (w : World) (topic : string)
  : list ArticleDoc :=
  List.filter (matches_query engine topic (now w - 24 * 3600))
              (map snd (map_to_list (articles w))).

(** The hits that the store returns for a topic. *)
Definition hits_of (engine : Engine) (w : World) (topic : string)
  : list ArticleDoc :=
  firstn search_size (sort_desc (matching engine w topic)).

(** The record that [analyze_topic_risk] builds from the hits. *)
Definition risk_record (engine : Engine) (w : World) (topic : string)
  : RiskRecord :=
  let hits := hits_of engine w topic in
  let articles_data := map source_of hits in
  {| risk_topic := topic;
     is_critical := 0 <? Z.of_nat (List.length hits);
     article_count := Z.of_nat (List.length hits);
     articles_data := articles_data;
     top_summary :=
       match articles_data with
       | first :: _ =>
           if has_title (hit_summary first)
           then default "" (hit_summary first)
           else "No summary available."
       | [] => "No summary available."
       end;
     ai_assessment := None;
     users_affected := None |}.

(** The reports that a run asked for. *)
Definition reports (evs : list Event) : list (list RiskRecord) :=
  omap (fun e => match e with EvReport risk_list => Some risk_list | _ => None end)
       evs.

(** The topics of the watch-lists, trimmed, as often as they occur. *)
Definition watched_topics (us : list User) : list string :=
  flat_map (fun u => map Py.strip (default [] (user_watchlist u))) us.

(** The record of a critical topic, as [run_patrol] completes it. *)
Definition alert_of (engine : Engine) (w : World)
  (entry : string * list string) : option RiskRecord :=
  let risk_data := risk_record engine w (fst entry) in
  if is_critical risk_data
  then Some {| risk_topic := risk_topic risk_data;
               is_critical := is_critical risk_data;
               article_count := article_count risk_data;
               articles_data := articles_data risk_data;
               top_summary := top_summary risk_data;
               ai_assessment := Some (top_summary risk_data);
               users_affected := Some (snd entry) |}
  else None.

(** A list of characters that neither starts nor ends with white space. *)
Definition trimmed (l : list ascii) : Prop :=
  Py.lstrip_chars l = l /\ Py.lstrip_chars (rev l) = rev l.

(** [a] is what [b] starts with. *)
Definition is_prefix (a b : string) : Prop :=
  exists rest, Py.chars b = (Py.chars a ++ rest)%list.


(** The items that one feed contributes to a cycle. *)
Definition feed_items (web : Web) (limit_per_feed : Z) (feed_url : string)
  : list FeedItem :=
  match feedparser_parse web feed_url with
  | Ok feed =>
      map (feed_item feed_url feed)
          (slice_upto limit_per_feed (feed_entries feed))
  | Raise _ => []
  end.

(** The document that a worker hands back for an item, if any. *)
Definition document_for (web : Web) (an : Analyzers) (schema : Schema)
  (w : World) (entry : FeedItem) : option Action :=
  match process_single_article web an schema entry w with
  | (Ok (Some a), _, _) => Some a
  | _ => None
  end.

(** The outcome and the events of a computation are the same in every
    world. *)
Definition ignores_world {A} (m : M A) : Prop :=
  forall w1 w2, fst (fst (m w1)) = fst (fst (m w2)) /\ snd (m w1) = snd (m w2).

(** The last action of a batch that is filed under an identifier. *)
Definition last_action (docs : list Action) (id : string) : option Action :=
  find (fun a => String.eqb (act_id a) id) (rev docs).

(** The entity of the schema that carries the fields of a validated
    entity dict. *)
Definition entity_of (v : ValidEntity) : EntitySentiment :=
  {| ent_name := ve_name v;
     ent_type := Some (ve_type v);
     ent_sentiment := Some (ve_sentiment v);
     ent_bias := ve_bias v;
     ent_score := Some (ve_score v) |}.

(** What [_validate_entities] leaves of an entity dict is in normal
    form. *)
Definition normal_entity (v : ValidEntity) : Prop :=
  Py.strip (ve_name v) = ve_name v
  /\ 2 <= Py.len (ve_name v)
  /\ Py.isdigit (ve_name v) = false
  /\ forallb is_punctuation (Py.chars (ve_name v)) = false
  /\ Py.lower (ve_type v) = ve_type v
  /\ In (ve_sentiment v) sentiments.

(** [topic_map.get(topic, [])] *)
Fixpoint emails_of (topic_map : list (string * list string)) (topic : string)
  : list string :=
  match topic_map with
  | [] => []
  | (t, emails) :: rest =>
      if String.eqb t topic then emails else emails_of rest topic
  end.

(** The e-mails of the users who watch a topic, in the order of the users:
    a user is listed once for every entry of the watch-list that, trimmed,
    is the topic. *)
Definition watchers (us : list User) (topic : string) : list string :=
  flat_map (fun u =>
              flat_map (fun t =>
                          if String.eqb (Py.strip t) topic
                          then match user_email u with
                               | Some email => [email]
                               | None => []
                               end
                          else [])
                       (default [] (user_watchlist u)))
           us.

(** The texts that [extract_title_from_html] looks at, in order: the
    first three elements of every selector that did not raise. *)
Definition html_candidates (selected : list (Res (list string))) : list string :=
  flat_map (fun r => match r with
                     | Ok elements => firstn 3 elements
                     | Raise _ => []
                     end) selected.

(** The test that a candidate of [extract_title_from_html] must pass. *)
Definition usable_title (title : string) : bool :=
  Py.truthy title && is_valid_title title.

(** ** Sample collaborators, for the examples *)

Module Sample.

Definition body : string :=
  "Scientists discover a new species of frog in the cloud forests of Peru. The animal is smaller than a coin and sings at dusk. Local guides had known it for years.".

Definition web : Web :=
  {| session_get := fun _ => Ok (200, "<html>page</html>");
     trafilatura_extract := fun _ => Ok (Some body);
     trafilatura_title := fun _ => Ok None;
     soup := None;
     newspaper := fun _ => Raise "ArticleException";
     feedparser_parse := fun _ => Raise "URLError";
     dateutil_parse := fun _ => Raise "ParserError" |}.

Definition failing_analyzers : Analyzers :=
  {| detect_language := fun _ => Raise "LangDetectException";
     translate_to_english := fun _ => Raise "RuntimeError";
     summarize := fun _ => Raise "RuntimeError";
     an_extract_entities := fun _ => Raise "RuntimeError";
     classify_bias := fun _ => Raise "RuntimeError";
     classify_sentiment := fun _ => Raise "RuntimeError" |}.

Definition schema : Schema :=
  {| entity_ok := fun _ => true; article_ok := fun _ => true |}.

Definition entry : FeedItem :=
  {| item_title := "Breaking: X raises funds";
     item_link := Some "http://a.test/1";
     item_published := None;
     item_source := "A Test";
     item_description := "" |}.

Definition doc : ArticleDoc :=
  {| doc_title := "Breaking: X raises funds";
     doc_url := "http://a.test/1";
     doc_source_name := "A Test";
     doc_published_date := Some 1000;
     doc_language := "en";
     doc_original_text := body;
     doc_translated_text := None;
     doc_summary := Some "X raises funds.";
     doc_bias_overall := "neutral";
     doc_bias_score := 0%Q;
     doc_sentiment_overall := "negative";
     doc_sentiment_score := (9 # 10)%Q;
     doc_entities := [] |}.

Definition empty_world : World :=
  {| es_up := true; articles := ∅; users := None; now := 2000 |}.

Definition stored_world : World :=
  {| es_up := true;
     articles := {[ "9758a08f62aa66bb1ad66f56554b2dc5" := doc ]};
     users := None;
     now := 2000 |}.

(** What [download_article] makes of the page that [web] serves. *)
Definition raw : RawArticle :=
  {| ra_title :=
       Some "Scientists discover a new species of frog in the cloud forests of Peru";
     ra_text := body;
     ra_method := "trafilatura";
     ra_publish_date := None |}.

(** A body of exactly 100 characters, and a web that serves it. *)
Definition text_100 : string := Py.str (repeat "x"%char 100).

Definition web_100 : Web :=
  {| session_get := fun _ => Ok (200, "<html>page</html>");
     trafilatura_extract := fun _ => Ok (Some text_100);
     trafilatura_title := fun _ => Ok None;
     soup := None;
     newspaper := fun _ => Raise "ArticleException";
     feedparser_parse := fun _ => Raise "URLError";
     dateutil_parse := fun _ => Raise "ParserError" |}.

(** A search engine that looks for the topic in the title, and a report
    writer. *)
Definition engine : Engine :=
  {| multi_match := fun topic title _ =>
                      Py.contains (Py.lower topic) (Py.lower title);
     generate_html_report := fun _ => Ok "/tmp/briefing.html" |}.

(** Two subscribers who watch a topic in common. *)
Definition subscribers : list User :=
  [{| user_email := Some "a@a.test";
      user_watchlist := Some ["X raises"; " funds "] |};
   {| user_email := Some "b@a.test";
      user_watchlist := Some ["funds"] |}].

Definition patrol_world : World :=
  {| es_up := true;
     articles := {[ "9758a08f62aa66bb1ad66f56554b2dc5" := doc ]};
     users := Some subscribers;
     now := 2000 |}.

(** The same subscribers over an empty store. *)
Definition quiet_world : World :=
  {| es_up := true; articles := ∅; users := Some subscribers; now := 2000 |}.




(** A web on which the first feed of [RSS_FEEDS] lists one item, twice,
    and the other feeds cannot be reached. *)
Definition feed_web : Web :=
  {| session_get := fun _ => Ok (200, "<html>page</html>");
     trafilatura_extract := fun _ => Ok (Some body);
     trafilatura_title := fun _ => Ok None;
     soup := None;
     newspaper := fun _ => Raise "ArticleException";
     feedparser_parse := fun feed_url =>
       if String.eqb feed_url "https://feeds.feedburner.com/ndtvnews-top-stories"
       then Ok {| feed_title := Some "A Test";
                  feed_entries :=
                    [{| fe_title := Some " Breaking: X raises funds ";
                        fe_link := Some "http://a.test/1";
                        fe_published := None;
                        fe_description := None |};
                     {| fe_title := Some "Breaking: X raises funds";
                        fe_link := Some "http://a.test/1";
                        fe_published := None;
                        fe_description := None |}] |}
       else Raise "URLError";
     dateutil_parse := fun _ => Raise "ParserError" |}.

(** A web whose pages have a title element behind a selector that
    raises. *)
Definition soup_web : Web :=
  {| session_get := fun _ => Ok (200, "<html>page</html>");
     trafilatura_extract := fun _ => Ok (Some body);
     trafilatura_title := fun _ => Ok None;
     soup := Some (fun _ => Ok [Raise "ValueError";
                                Ok ["Home"; "Frogs of the cloud forest | A Test"]]);
     newspaper := fun _ => Raise "ArticleException";
     feedparser_parse := fun _ => Raise "URLError";
     dateutil_parse := fun _ => Raise "ParserError" |}.

(** A world whose store cannot be reached. *)
Definition down_world : World :=
  {| es_up := false; articles := ∅; users := None; now := 2000 |}.

End Sample.

(** * Properties *)

(** ** Strings *)

Lemma length_str (l : list ascii) : String.length (Py.str l) = List.length l.
Proof.
  induction l as [|c l IH]; [reflexivity|].
  change (S (String.length (Py.str l)) = S (List.length l)).
  now rewrite IH.
Qed.

Lemma chars_str (l : list ascii) : Py.chars (Py.str l) = l.
Proof. apply list_ascii_of_string_of_list_ascii. Qed.

Lemma str_chars (s : string) : Py.str (Py.chars s) = s.
Proof. apply string_of_list_ascii_of_string. Qed.

Lemma length_chars (s : string) : List.length (Py.chars s) = String.length s.
Proof. now rewrite <- (str_chars s) at 2; rewrite length_str. Qed.

Lemma length_py_take (n : nat) (s : string) :
  String.length (Py.take n s) = Nat.min n (String.length s).
Proof.
  unfold Py.take. rewrite length_str, length_take, length_chars. reflexivity.
Qed.

Lemma truthy_length (s : string) :
  Py.truthy s = true <-> (0 < String.length s)%nat.
Proof. destruct s; simpl; split; (lia || discriminate || reflexivity). Qed.

(** ** The identity of a document *)

Lemma hexdigit_is_hex (n : Z) : 0 <= n < 16 -> is_hex (MD5.hexdigit n) = true.
Proof.
  intros H.
  assert (In n (map Z.of_nat (seq 0 16))) as Hin.
  { apply in_map_iff. exists (Z.to_nat n). split; [lia|]. apply in_seq. lia. }
  simpl in Hin.
  repeat (destruct Hin as [<-|Hin]; [vm_compute; reflexivity|]).
  destruct Hin.
Qed.

Lemma hex_byte_is_hex (b : Z) :
  0 <= b < 256 -> forallb is_hex (MD5.hex_byte b) = true.
Proof.
  intros H. unfold MD5.hex_byte. cbn [forallb].
  rewrite !hexdigit_is_hex; [reflexivity| |].
  - apply Z.mod_pos_bound. lia.
  - split; [apply Z.div_pos; lia | apply Z.div_lt_upper_bound; lia].
Qed.

Lemma le_bytes_range (n : nat) (x b : Z) :
  In b (MD5.le_bytes n x) -> 0 <= b < 256.
Proof.
  unfold MD5.le_bytes. intros H. apply in_map_iff in H as (i & <- & _).
  apply Z.mod_pos_bound. lia.
Qed.

Lemma digest_shape (msg : list Z) :
  List.length (MD5.digest msg) = 16%nat
  /\ forall b, In b (MD5.digest msg) -> 0 <= b < 256.
Proof.
  unfold MD5.digest.
  destruct (fold_left MD5.compress (MD5.blocks (MD5.pad msg)) MD5.init)
    as [a b c d].
  split; [reflexivity|].
  intros x Hx. rewrite !in_app_iff in Hx.
  destruct Hx as [H|[H|[H|H]]]; eapply le_bytes_range; exact H.
Qed.

Lemma hex_bytes_shape (bytes : list Z) :
  (forall b, In b bytes -> 0 <= b < 256) ->
  List.length (concat (map MD5.hex_byte bytes)) = (2 * List.length bytes)%nat
  /\ forallb is_hex (concat (map MD5.hex_byte bytes)) = true.
Proof.
  induction bytes as [|b bytes IH]; intros H; [split; reflexivity|].
  destruct IH as [IHl IHh]; [intros; apply H; now right|].
  split.
  - cbn [map concat]. rewrite length_app, IHl. simpl. lia.
  - cbn [map concat]. rewrite forallb_app, IHh, hex_byte_is_hex; [reflexivity|].
    apply H. now left.
Qed.

(** Whatever the bytes, the digest is written with 32 lower-case
    hexadecimal digits. *)
Lemma hexdigest_shape (msg : list Z) :
  String.length (MD5.hexdigest msg) = 32%nat
  /\ forallb is_hex (Py.chars (MD5.hexdigest msg)) = true.
Proof.
  unfold MD5.hexdigest.
  destruct (digest_shape msg) as [Hlen Hrange].
  destruct (hex_bytes_shape _ Hrange) as [Hl Hh].
  rewrite length_str, chars_str, Hl, Hlen. split; [reflexivity|exact Hh].
Qed.

(** C7. For every URL string [u], two calls of [generate_id u] give the
    same value, and that value is a string of exactly 32 characters, each
    of them a lower-case hexadecimal digit. *)
Theorem generate_id_deterministic_fixed_length (u : string) :
  let first_call := generate_id u in
  let second_call := generate_id u in
  first_call = second_call
  /\ String.length first_call = 32%nat
  /\ forallb is_hex (Py.chars first_call) = true.
Proof.
  cbv zeta. split; [reflexivity|].
  unfold generate_id. apply hexdigest_shape.
Qed.

Example generate_id_empty :
  generate_id "" = "d41d8cd98f00b204e9800998ecf8427e".
Proof. vm_compute. reflexivity. Qed.

Example generate_id_abc :
  generate_id "abc" = "900150983cd24fb0d6963f7d28e17f72".
Proof. vm_compute. reflexivity. Qed.

Example generate_id_a_test :
  generate_id "http://a.test/1" = "9758a08f62aa66bb1ad66f56554b2dc5".
Proof. vm_compute. reflexivity. Qed.

(** ** The validity of a title *)

Lemma strip_empty : Py.strip "" = "".
Proof. reflexivity. Qed.

Lemma is_valid_title_unfold (title : string) :
  is_valid_title title
  = (10 <=? Py.len (Py.strip title)) && negb (mentions_generic title).
Proof.
  unfold is_valid_title, mentions_generic.
  destruct title as [|c title]; [reflexivity|].
  cbn [Py.truthy negb orb].
  destruct (Py.len (Py.strip (String c title)) <? 10) eqn:E;
    destruct (10 <=? Py.len (Py.strip (String c title))) eqn:E';
    try (apply Z.ltb_lt in E); try (apply Z.ltb_ge in E);
    try (apply Z.leb_le in E'); try (apply Z.leb_gt in E');
    try (exfalso; lia); reflexivity.
Qed.

(** C8, as the specification states it, fails: a title of eighteen
    characters that is none of the generic strings is refused, because
    one of them occurs inside it. *)
Lemma is_valid_title_not_blacklist_membership :
  ~ (forall title : string,
        is_valid_title title = true
        <-> 10 <= Py.len (Py.strip title) /\ in_blacklist title = false).
Proof.
  intros H.
  destruct (H "Latest news update") as [_ Hback].
  assert (is_valid_title "Latest news update" = true) as Hv.
  { apply Hback. split.
    - assert (Py.len (Py.strip "Latest news update") = 18) as ->
        by (vm_compute; reflexivity).
      lia.
    - vm_compute. reflexivity. }
  vm_compute in Hv. discriminate Hv.
Qed.

(** C8, amended. A title is valid if and only if its trimmed length is at
    least 10 and none of the generic strings occurs as a substring of the
    title, trimmed and in lower case. *)
Theorem is_valid_title_iff (title : string) :
  is_valid_title title = true
  <-> 10 <= Py.len (Py.strip title)
      /\ forall inv, In inv invalid_titles ->
                     Py.contains inv (Py.strip (Py.lower title)) = false.
Proof.
  rewrite is_valid_title_unfold, andb_true_iff, Z.leb_le, negb_true_iff.
  unfold mentions_generic.
  split; intros [Hlen Hgen]; (split; [exact Hlen|]).
  - intros inv Hin.
    destruct (Py.contains inv (Py.strip (Py.lower title))) eqn:E; [|reflexivity].
    assert (existsb (fun inv => Py.contains inv (Py.strip (Py.lower title)))
                    invalid_titles = true) as Hex
      by (apply existsb_exists; exists inv; split; assumption).
    rewrite Hex in Hgen. discriminate Hgen.
  - destruct (existsb _ invalid_titles) eqn:E; [|reflexivity].
    apply existsb_exists in E as (inv & Hin & Hc).
    rewrite (Hgen inv Hin) in Hc. discriminate Hc.
Qed.

Lemma is_valid_title_iff_witness :
  is_valid_title "Breaking: X raises funds" = true.
Proof.
  apply (proj2 (is_valid_title_iff "Breaking: X raises funds")).
  split.
  - assert (Py.len (Py.strip "Breaking: X raises funds") = 24) as ->
      by (vm_compute; reflexivity).
    lia.
  - intros inv Hin. simpl in Hin.
    repeat (destruct Hin as [<-|Hin]; [vm_compute; reflexivity|]).
    destruct Hin.
Defined.

(** ** Computations that only read the world *)

Lemma keeps_ret {A} (a : A) : keeps_world (ret a).
Proof. intros w. reflexivity. Qed.

Lemma keeps_raise {A} (exn : string) : keeps_world (@raise A exn).
Proof. intros w. reflexivity. Qed.

Lemma keeps_lift {A} (r : Res A) : keeps_world (lift r).
Proof. intros w. reflexivity. Qed.

Lemma keeps_emit (e : Event) : keeps_world (emit e).
Proof. intros w. reflexivity. Qed.

Lemma keeps_get_world : keeps_world get_world.
Proof. intros w. reflexivity. Qed.

Lemma keeps_bind {A B} (m : M A) (k : A -> M B) :
  keeps_world m -> (forall a, keeps_world (k a)) -> keeps_world (bind m k).
Proof.
  intros Hm Hk w. unfold bind. specialize (Hm w).
  destruct (m w) as [[[a|exn] w1] evs1]; simpl in Hm; subst w1; [|reflexivity].
  specialize (Hk a w). destruct (k a w) as [[r w2] evs2]. exact Hk.
Qed.

Lemma keeps_try_except {A} (m : M A) (h : string -> M A) :
  keeps_world m -> (forall exn, keeps_world (h exn)) ->
  keeps_world (try_except m h).
Proof.
  intros Hm Hh w. unfold try_except. specialize (Hm w).
  destruct (m w) as [[[a|exn] w1] evs1]; simpl in Hm; subst w1; [reflexivity|].
  specialize (Hh exn w). destruct (h exn w) as [[r w2] evs2]. exact Hh.
Qed.

Lemma keeps_for_each {A B} (l : list A) (body : B -> A -> M B) (acc : B) :
  (forall b a, keeps_world (body b a)) -> keeps_world (for_each l body acc).
Proof.
  intros Hbody. revert acc.
  induction l as [|x l IH]; intros acc; simpl.
  - apply keeps_ret.
  - apply keeps_bind; [apply Hbody | exact IH].
Qed.

Create HintDb keeps discriminated.
#[export] Hint Resolve keeps_ret keeps_raise keeps_lift keeps_emit
  keeps_get_world : keeps.

(** Takes a computation apart along its binds, matches and tests. *)
Ltac keeps_step :=
  match goal with
  | |- keeps_world (bind _ _) => apply keeps_bind; [|intros]
  | |- keeps_world (try_except _ _) => apply keeps_try_except; [|intros]
  | |- keeps_world (for_each _ _ _) => apply keeps_for_each; intros
  | |- keeps_world (match ?x with _ => _ end) => destruct x
  | |- keeps_world (let '(_, _) := ?x in _) => destruct x
  | |- keeps_world _ => solve [auto with keeps]
  end.

Ltac keeps := repeat keeps_step.

Lemma keeps_es_call (e : Event) : keeps_world (es_call e).
Proof. unfold es_call. keeps. Qed.

Lemma keeps_get_es : keeps_world get_es.
Proof. unfold get_es. keeps. Qed.

Lemma keeps_es_exists (doc_id : string) : keeps_world (es_exists doc_id).
Proof. unfold es_exists. keeps. apply keeps_es_call. Qed.

#[export] Hint Resolve keeps_es_call keeps_get_es keeps_es_exists : keeps.

Lemma keeps_primary_extraction (web : Web) (url : string) :
  keeps_world (primary_extraction web url).
Proof. unfold primary_extraction. keeps. Qed.

Lemma keeps_secondary_extraction (web : Web) (url : string) :
  keeps_world (secondary_extraction web url).
Proof. unfold secondary_extraction. keeps. Qed.

#[export] Hint Resolve keeps_primary_extraction keeps_secondary_extraction : keeps.

Lemma keeps_download_article (web : Web) (url : string) :
  keeps_world (download_article web url).
Proof. unfold download_article. keeps. Qed.

Lemma keeps_safe_nlp_operation {A} (name : string) (f : string -> Res A)
  (text : string) : keeps_world (safe_nlp_operation name f text).
Proof. unfold safe_nlp_operation. keeps. Qed.

#[export] Hint Resolve keeps_download_article keeps_safe_nlp_operation : keeps.

Lemma keeps_enrich_and_build web an schema entry url doc_id raw :
  keeps_world (enrich_and_build web an schema entry url doc_id raw).
Proof. unfold enrich_and_build. keeps. Qed.

#[export] Hint Resolve keeps_enrich_and_build : keeps.

Lemma keeps_process_single_article web an schema entry :
  keeps_world (process_single_article web an schema entry).
Proof. unfold process_single_article. keeps. Qed.

#[export] Hint Resolve keeps_process_single_article : keeps.

Lemma keeps_run_workers web an schema entries :
  keeps_world (run_workers web an schema entries).
Proof. unfold run_workers. keeps. Qed.

Lemma keeps_fetch_feed_entries web limit :
  keeps_world (fetch_feed_entries web limit).
Proof. unfold fetch_feed_entries. keeps. Qed.

(** ** The enrichment in closed form *)

Lemma safe_nlp_operation_run {A} name (f : string -> Res A) text w :
  safe_nlp_operation name f text w
  = (Ok (safe_value f text), w, [EvAnalyzer name text]).
Proof.
  unfold safe_nlp_operation, safe_value, bind, emit, ret.
  destruct (f text); reflexivity.
Qed.

(** One call of an analyzer, run. *)
Ltac run_analyzer :=
  unfold bind at 1; rewrite safe_nlp_operation_run; cbv beta iota.

Lemma enrich_and_build_run web an schema entry url doc_id raw w :
  enrich_and_build web an schema entry url doc_id raw w
  = (if article_ok schema (document_of web an schema entry url raw)
     then Ok (Some {| act_id := doc_id;
                      act_source := document_of web an schema entry url raw |})
     else Raise "ValidationError",
     w, analyzer_events an (truncate_text_default (ra_text raw))).
Proof.
  unfold enrich_and_build, document_of, analyzer_events, analysis_text,
    translation_of, pub_date_of, iso_date.
  run_analyzer.
  fold (language_of an (truncate_text_default (ra_text raw))).
  set (text0 := truncate_text_default (ra_text raw)).
  set (lang := language_of an text0).
  assert (forall text translated,
    (let '(r, w2, evs2) :=
       (let* summary := safe_nlp_operation "Summarization" (summarize an) text in
        let* entities_data :=
          safe_nlp_operation "Entity extraction" (an_extract_entities an) text in
        let* bias_result :=
          safe_nlp_operation "Bias classification" (classify_bias an) text in
        let '(bias_overall, bias_score) := label_and_score bias_result in
        let* sentiment_result :=
          safe_nlp_operation "Sentiment classification" (classify_sentiment an) text in
        let '(sentiment_overall, sentiment_score) :=
          label_and_score sentiment_result in
        let d :=
          {| doc_title := resolve_title (item_title entry) (ra_title raw) text0 url;
             doc_url := url;
             doc_source_name := item_source entry;
             doc_published_date := pub_date_of web entry raw;
             doc_language := lang;
             doc_original_text := Py.take 5000 (ra_text raw);
             doc_translated_text := translated;
             doc_summary := summary;
             doc_bias_overall := bias_overall;
             doc_bias_score := bias_score;
             doc_sentiment_overall := sentiment_overall;
             doc_sentiment_score := sentiment_score;
             doc_entities := validate_and_create_entities schema entities_data |} in
        if article_ok schema d
        then ret (Some {| act_id := doc_id; act_source := d |})
        else raise "ValidationError") w in
     (r, w2, evs2))
    = (let d :=
         {| doc_title := resolve_title (item_title entry) (ra_title raw) text0 url;
            doc_url := url;
            doc_source_name := item_source entry;
            doc_published_date := pub_date_of web entry raw;
            doc_language := lang;
            doc_original_text := Py.take 5000 (ra_text raw);
            doc_translated_text := translated;
            doc_summary := safe_value (summarize an) text;
            doc_bias_overall :=
              fst (label_and_score (safe_value (classify_bias an) text));
            doc_bias_score :=
              snd (label_and_score (safe_value (classify_bias an) text));
            doc_sentiment_overall :=
              fst (label_and_score (safe_value (classify_sentiment an) text));
            doc_sentiment_score :=
              snd (label_and_score (safe_value (classify_sentiment an) text));
            doc_entities :=
              validate_and_create_entities schema
                (safe_value (an_extract_entities an) text) |} in
       (if article_ok schema d
        then Ok (Some {| act_id := doc_id; act_source := d |})
        else Raise "ValidationError",
        w,
        [EvAnalyzer "Summarization" text;
         EvAnalyzer "Entity extraction" text;
         EvAnalyzer "Bias classification" text;
         EvAnalyzer "Sentiment classification" text]))) as Htail.
  { intros text translated.
    do 3 run_analyzer.
    destruct (label_and_score (safe_value (classify_bias an) text)).
    run_analyzer.
    destruct (label_and_score (safe_value (classify_sentiment an) text)).
    cbv zeta. cbn [fst snd].
    match goal with |- context [article_ok schema ?d] =>
      destruct (article_ok schema d) end; reflexivity. }
  unfold pub_date_of in Htail.
  destruct (String.eqb lang "en").
  - unfold bind at 1. unfold ret at 1. cbv beta iota.
    specialize (Htail text0 None). cbv zeta in Htail.
    destruct ((let* summary := _ in _) w) as [[r w2] evs2].
    cbn [default]. injection Htail as -> -> ->. reflexivity.
  - unfold bind at 1. run_analyzer.
    destruct (safe_value (translate_to_english an) text0) as [t|];
      [destruct (Py.truthy t)|]; unfold ret at 1; cbv beta iota; cbn [default].
    + specialize (Htail t (Some t)). cbv zeta in Htail.
      destruct ((let* summary := _ in _) w) as [[r w2] evs2].
      injection Htail as -> -> ->. reflexivity.
    + specialize (Htail text0 None). cbv zeta in Htail.
      destruct ((let* summary := _ in _) w) as [[r w2] evs2].
      injection Htail as -> -> ->. reflexivity.
    + specialize (Htail text0 None). cbv zeta in Htail.
      destruct ((let* summary := _ in _) w) as [[r w2] evs2].
      injection Htail as -> -> ->. reflexivity.
Qed.

(** ** The dedup gate *)

Lemma get_es_up (w : World) :
  es_up w = true -> get_es w = (Ok tt, w, [EvPing]).
Proof. intros H. unfold get_es, bind, emit, get_world. simpl. now rewrite H. Qed.

Lemma get_es_down (w : World) :
  es_up w = false -> get_es w = (Raise "RuntimeError", w, [EvPing]).
Proof. intros H. unfold get_es, bind, emit, get_world. simpl. now rewrite H. Qed.

Lemma es_exists_up (doc_id : string) (w : World) :
  es_up w = true ->
  es_exists doc_id w
  = (Ok (bool_decide (is_Some (articles w !! doc_id))), w, [EvExists doc_id]).
Proof.
  intros H. unfold es_exists, es_call, bind, emit, get_world. simpl.
  now rewrite H.
Qed.

(** A run of [process_single_article] on an item that has a link, while
    the store is up. *)
Lemma process_single_article_run web an schema entry url w :
  es_up w = true ->
  item_link entry = Some url ->
  process_single_article web an schema entry w
  = if bool_decide (is_Some (articles w !! generate_id url))
    then (Ok None, w, [EvPing; EvExists (generate_id url)])
    else
      match download_article web url w with
      | (Ok (Some raw), _, evs_d) =>
          (if article_ok schema (document_of web an schema entry url raw)
           then Ok (Some {| act_id := generate_id url;
                            act_source := document_of web an schema entry url raw |})
           else Raise "ValidationError",
           w,
           (EvPing :: EvExists (generate_id url) :: evs_d
            ++ analyzer_events an (truncate_text_default (ra_text raw)))%list)
      | (Ok None, _, evs_d) =>
          (Ok None, w, EvPing :: EvExists (generate_id url) :: evs_d)
      | (Raise exn, _, evs_d) =>
          (Raise exn, w, EvPing :: EvExists (generate_id url) :: evs_d)
      end.
Proof.
  intros Hup Hlink.
  unfold process_single_article. unfold bind at 1.
  rewrite get_es_up by exact Hup. rewrite Hlink.
  unfold bind at 1. rewrite es_exists_up by exact Hup.
  destruct (bool_decide (is_Some (articles w !! generate_id url))).
  { reflexivity. }
  unfold bind.
  pose proof (keeps_download_article web url w) as Hkd.
  destruct (download_article web url w) as [[[[raw|]|exn] w1] evs_d];
    simpl in Hkd; subst w1.
  - rewrite enrich_and_build_run. reflexivity.
  - unfold ret. cbn [app]. rewrite app_nil_r. reflexivity.
  - reflexivity.
Qed.

(** A run that yields a document: the store is up, the item has a link
    whose identifier the store does not hold, and the download gave a
    body. *)
Lemma process_single_article_some web an schema entry w a w' evs :
  process_single_article web an schema entry w = (Ok (Some a), w', evs) ->
  exists url raw evs_d,
    item_link entry = Some url
    /\ es_up w = true
    /\ articles w !! generate_id url = None
    /\ download_article web url w = (Ok (Some raw), w, evs_d)
    /\ article_ok schema (document_of web an schema entry url raw) = true
    /\ a = {| act_id := generate_id url;
              act_source := document_of web an schema entry url raw |}
    /\ evs = (EvPing :: EvExists (generate_id url) :: evs_d
              ++ analyzer_events an (truncate_text_default (ra_text raw)))%list
    /\ w' = w.
Proof.
  intros H.
  destruct (es_up w) eqn:Hup.
  2:{ unfold process_single_article, bind in H.
      rewrite get_es_down in H by exact Hup. discriminate H. }
  destruct (item_link entry) as [url|] eqn:Hlink.
  2:{ unfold process_single_article, bind in H.
      rewrite get_es_up, Hlink in H by exact Hup. discriminate H. }
  rewrite (process_single_article_run _ _ _ _ url) in H by assumption.
  destruct (bool_decide (is_Some (articles w !! generate_id url))) eqn:Hex;
    [discriminate H|].
  apply bool_decide_eq_false in Hex.
  pose proof (keeps_download_article web url w) as Hkd.
  destruct (download_article web url w) as [[[[raw|]|exn] w1] evs_d] eqn:Hd;
    simpl in Hkd; subst w1; try discriminate H.
  destruct (article_ok schema (document_of web an schema entry url raw)) eqn:Hok;
    [|discriminate H].
  injection H as <- <- <-.
  exists url, raw, evs_d. repeat split; try reflexivity; try assumption.
  destruct (articles w !! generate_id url) eqn:E; [|reflexivity].
  exfalso. apply Hex. eexists. reflexivity.
Qed.

(** [process_single_article] leaves the world as it found it. *)
Lemma process_single_article_world web an schema entry w :
  exists r evs, process_single_article web an schema entry w = (r, w, evs).
Proof.
  pose proof (keeps_process_single_article web an schema entry w) as Hk.
  destruct (process_single_article web an schema entry w) as [[r w1] evs].
  simpl in Hk. subst w1. eauto.
Qed.

(** The loop of [run_workers], from any list of documents gathered so
    far. *)
Lemma run_workers_loop web an schema entries (acc : list Action) w :
  exists docs evs,
    for_each entries
      (fun docs_to_index entry =>
         let* result :=
           try_except (process_single_article web an schema entry)
                      (fun _ => ret None) in
         match result with
         | Some doc => ret (docs_to_index ++ [doc])%list
         | None => ret docs_to_index
         end) acc w = (Ok (acc ++ docs)%list, w, evs)
    /\ forall a, In a docs <->
                 exists entry evs',
                   In entry entries
                   /\ process_single_article web an schema entry w
                      = (Ok (Some a), w, evs').
Proof.
  set (body := fun (docs_to_index : list Action) entry =>
         let* result :=
           try_except (process_single_article web an schema entry)
                      (fun _ => ret None) in
         match result with
         | Some doc => ret (docs_to_index ++ [doc])%list
         | None => ret docs_to_index
         end).
  revert acc. induction entries as [|entry entries IH]; intros acc.
  - exists [], []. split; [cbn; now rewrite app_nil_r|].
    intros a. split; [intros []|intros (e & ? & [] & _)].
  - destruct (process_single_article_world web an schema entry w)
      as (r & evs1 & Hp).
    assert (exists new evs',
               body acc entry w = (Ok (acc ++ new)%list, w, evs')
               /\ forall a, In a new <-> r = Ok (Some a)) as (new & evs' & Hb & Hnew).
    { unfold body, bind, try_except. rewrite Hp.
      destruct r as [[a|]|exn]; unfold ret.
      - exists [a]. eexists. split; [reflexivity|].
        intros a'. split; [intros [<-|[]]; reflexivity|].
        intros [= <-]. now left.
      - exists []. eexists. split; [rewrite (app_nil_r acc); reflexivity|].
        intros a'. split; [intros []|discriminate].
      - exists []. eexists. split; [rewrite (app_nil_r acc); reflexivity|].
        intros a'. split; [intros []|discriminate]. }
    destruct (IH (acc ++ new)%list) as (docs & evs & Hrun & Hdocs).
    exists (new ++ docs)%list, (evs' ++ evs)%list. split.
    + change (for_each (entry :: entries) body acc w)
        with (bind (body acc entry) (for_each entries body) w).
      unfold bind. rewrite Hb, Hrun. now rewrite app_assoc.
    + intros a. rewrite in_app_iff, Hnew, Hdocs. split.
      * intros [->|(e & ev & Hin & He)].
        -- exists entry, evs1. split; [now left|exact Hp].
        -- exists e, ev. split; [now right|exact He].
      * intros (e & ev & [<-|Hin] & He).
        -- left. rewrite Hp in He. now injection He as -> _.
        -- right. eauto.
Qed.

(** The batch of a cycle: the documents of the items that
    [process_single_article] turns into one. *)
Lemma run_workers_docs web an schema entries w :
  exists docs evs,
    run_workers web an schema entries w = (Ok docs, w, evs)
    /\ forall a, In a docs <->
                 exists entry evs',
                   In entry entries
                   /\ process_single_article web an schema entry w
                      = (Ok (Some a), w, evs').
Proof.
  destruct (run_workers_loop web an schema entries [] w)
    as (docs & evs & Hrun & Hdocs).
  exists docs, evs. split; [exact Hrun|exact Hdocs].
Qed.

(** C2. When the identifier of the item's link is already in the store,
    [process_single_article] returns [None] having done nothing but ping
    the store and ask it whether the identifier exists: no page is
    fetched, no analyzer runs and the store is as it was.  Whatever the
    items of the cycle, no document of the batch to be written carries
    that identifier. *)
Theorem existing_item_is_skipped web an schema entry url w :
  es_up w = true ->
  item_link entry = Some url ->
  is_Some (articles w !! generate_id url) ->
  process_single_article web an schema entry w
  = (Ok None, w, [EvPing; EvExists (generate_id url)])
  /\ forall feed_entries, exists docs_to_index evs,
       run_workers web an schema feed_entries w = (Ok docs_to_index, w, evs)
       /\ forall a, In a docs_to_index -> act_id a <> generate_id url.
Proof.
  intros Hup Hlink Hex. split.
  - rewrite (process_single_article_run _ _ _ _ url) by assumption.
    now rewrite bool_decide_eq_true_2.
  - intros feed_entries.
    destruct (run_workers_docs web an schema feed_entries w)
      as (docs & evs & Hrun & Hdocs).
    exists docs, evs. split; [exact Hrun|].
    intros a Hin Hid. apply Hdocs in Hin as (e & evs' & _ & He).
    apply process_single_article_some in He
      as (url' & raw & evs_d & _ & _ & Hnone & _ & _ & -> & _ & _).
    cbn in Hid. rewrite Hid in Hnone. rewrite Hnone in Hex.
    destruct Hex as [? Hex]. discriminate Hex.
Qed.

Lemma existing_item_is_skipped_witness :
  process_single_article Sample.web Sample.failing_analyzers Sample.schema
    Sample.entry Sample.stored_world
  = (Ok None, Sample.stored_world, [EvPing; EvExists (generate_id "http://a.test/1")]).
Proof.
  apply (existing_item_is_skipped Sample.web Sample.failing_analyzers
           Sample.schema Sample.entry "http://a.test/1" Sample.stored_world).
  - reflexivity.
  - reflexivity.
  - exists Sample.doc. vm_compute. reflexivity.
Defined.

(** ** The extraction chain *)

Lemma long_is_truthy (text : string) :
  min_text_length < Py.len (Py.strip text) -> Py.truthy text = true.
Proof.
  destruct text; [|reflexivity].
  intros H. vm_compute in H. discriminate H.
Qed.

Lemma primary_extraction_run web url w :
  exists r,
    primary_extraction web url w = (r, w, [EvHttpGet url])
    /\ (forall raw, r = Ok (Some raw) ->
                    primary_succeeds web url (ra_text raw)
                    /\ ra_method raw = "trafilatura")
    /\ (forall text, primary_succeeds web url text ->
                     exists raw, r = Ok (Some raw) /\ ra_text raw = text).
Proof.
  unfold primary_extraction, primary_succeeds, bind, emit, lift, ret.
  destruct (session_get web url) as [[status html]|exn] eqn:Hget.
  2:{ eexists. split; [reflexivity|]. split.
      - intros raw [=].
      - intros text (h & [=] & _). }
  destruct (status =? 200) eqn:Hst.
  2:{ eexists. split; [reflexivity|]. split.
      - intros raw [=].
      - intros text (h & [= -> _] & _). discriminate Hst. }
  apply Z.eqb_eq in Hst. subst status.
  destruct (trafilatura_extract web html) as [[text|]|exn] eqn:Hex.
  2,3: (eexists; split; [reflexivity|]; split;
        [intros raw [=] | intros t (h & [= <-] & Hex' & _); congruence]).
  destruct (Py.truthy text && (min_text_length <? Py.len (Py.strip text)))
    eqn:Hlen.
  - apply andb_true_iff in Hlen as [_ Hlen]. apply Z.ltb_lt in Hlen.
    eexists. split; [reflexivity|]. split.
    + intros raw [= <-]. cbn. split; [|reflexivity].
      exists html. auto.
    + intros t (h & [= <-] & Hex' & _).
      rewrite Hex in Hex'. injection Hex' as <-.
      eexists. split; reflexivity.
  - eexists. split; [reflexivity|]. split.
    + intros raw [=].
    + intros t (h & [= <-] & Hex' & Hlong).
      rewrite Hex in Hex'. injection Hex' as <-.
      rewrite (long_is_truthy _ Hlong) in Hlen.
      apply Z.ltb_lt in Hlong. rewrite Hlong in Hlen. discriminate Hlen.
Qed.

Lemma secondary_extraction_run web url w :
  exists r,
    secondary_extraction web url w = (r, w, [EvNewspaper url])
    /\ (forall raw, r = Ok (Some raw) ->
                    secondary_succeeds web url (ra_text raw)
                    /\ ra_method raw = "newspaper3k")
    /\ (forall text, secondary_succeeds web url text ->
                     exists raw, r = Ok (Some raw) /\ ra_text raw = text).
Proof.
  unfold secondary_extraction, secondary_succeeds, bind, emit, lift, ret.
  destruct (newspaper web url) as [art|exn] eqn:Hnp.
  2:{ eexists. split; [reflexivity|]. split.
      - intros raw [=].
      - intros text (a & [=] & _). }
  destruct (Py.truthy (art_text art)
            && (min_text_length <? Py.len (Py.strip (art_text art)))) eqn:Hlen.
  - apply andb_true_iff in Hlen as [_ Hlen]. apply Z.ltb_lt in Hlen.
    eexists. split; [reflexivity|]. split.
    + intros raw [= <-]. cbn. split; [|reflexivity]. exists art. auto.
    + intros t (a & [= <-] & <- & _). eexists. split; reflexivity.
  - eexists. split; [reflexivity|]. split.
    + intros raw [=].
    + intros t (a & [= <-] & <- & Hlong).
      rewrite (long_is_truthy _ Hlong) in Hlen.
      apply Z.ltb_lt in Hlong. rewrite Hlong in Hlen. discriminate Hlen.
Qed.

(** [download_article] never raises; it asks the fallback only when the
    primary step gave nothing. *)
Lemma download_article_run web url w :
  exists r evs,
    download_article web url w = (Ok r, w, evs)
    /\ ((exists text, primary_succeeds web url text) ->
        evs = [EvHttpGet url]
        /\ exists raw, r = Some raw /\ primary_succeeds web url (ra_text raw))
    /\ (~ (exists text, primary_succeeds web url text) ->
        evs = [EvHttpGet url; EvNewspaper url]
        /\ (forall raw, r = Some raw -> secondary_succeeds web url (ra_text raw))
        /\ (forall text, secondary_succeeds web url text ->
                         exists raw, r = Some raw /\ ra_text raw = text)).
Proof.
  destruct (primary_extraction_run web url w) as (r1 & Hp & Hp1 & Hp2).
  destruct (secondary_extraction_run web url w) as (r2 & Hs & Hs1 & Hs2).
  unfold download_article, bind, try_except, ret. rewrite Hp.
  assert ((r1 = Ok None \/ exists exn, r1 = Raise exn) ->
          ~ (exists text, primary_succeeds web url text)) as Hnot.
  { intros Hr1 (text & Hsucc). apply Hp2 in Hsucc as (raw & -> & _).
    destruct Hr1 as [[=]|(exn & [=])]. }
  destruct r1 as [[raw|]|exn].
  - exists (Some raw), [EvHttpGet url]. split; [reflexivity|]. split.
    + intros _. split; [reflexivity|].
      exists raw. split; [reflexivity|]. now apply Hp1.
    + intros Hno. exfalso. apply Hno. exists (ra_text raw). now apply Hp1.
  - rewrite Hs.
    destruct r2 as [r2|exn2].
    + exists r2, [EvHttpGet url; EvNewspaper url]. split; [reflexivity|]. split.
      * intros Hyes. exfalso. apply Hnot; eauto.
      * intros _. split; [reflexivity|]. split.
        -- intros raw ->. now apply Hs1.
        -- intros text Hsucc. apply Hs2 in Hsucc as (raw & [= ->] & Ht). eauto.
    + exists None, [EvHttpGet url; EvNewspaper url]. split; [reflexivity|]. split.
      * intros Hyes. exfalso. apply Hnot; eauto.
      * intros _. split; [reflexivity|]. split.
        -- intros raw [=].
        -- intros text Hsucc. apply Hs2 in Hsucc as (raw & [=] & _).
  - rewrite Hs.
    destruct r2 as [r2|exn2].
    + exists r2, [EvHttpGet url; EvNewspaper url]. split; [reflexivity|]. split.
      * intros Hyes. exfalso. apply Hnot; eauto.
      * intros _. split; [reflexivity|]. split.
        -- intros raw ->. now apply Hs1.
        -- intros text Hsucc. apply Hs2 in Hsucc as (raw & [= ->] & Ht). eauto.
    + exists None, [EvHttpGet url; EvNewspaper url]. split; [reflexivity|]. split.
      * intros Hyes. exfalso. apply Hnot; eauto.
      * intros _. split; [reflexivity|]. split.
        -- intros raw [=].
        -- intros text Hsucc. apply Hs2 in Hsucc as (raw & [=] & _).
Qed.

Lemma primary_succeeds_unique web url t1 t2 :
  primary_succeeds web url t1 -> primary_succeeds web url t2 -> t1 = t2.
Proof.
  intros (h1 & Hg1 & He1 & _) (h2 & Hg2 & He2 & _).
  rewrite Hg1 in Hg2. injection Hg2 as <-.
  rewrite He1 in He2. now injection He2.
Qed.

(** C9, as the specification states it, fails: a page that comes with
    status 200 and whose text has exactly 100 characters is refused by
    the primary step, although the status is a success status and the
    text is not below 100 characters. *)
Lemma primary_refuses_100_characters :
  ~ (forall web url w status_code html text,
        session_get web url = Ok (status_code, html) ->
        trafilatura_extract web html = Ok (Some text) ->
        (forall raw, fst (fst (primary_extraction web url w)) <> Ok (Some raw))
        <-> (~ is_success_status status_code
             \/ Py.len (Py.strip text) < 100)).
Proof.
  intros H.
  destruct (H Sample.web_100 "http://a.test/1" Sample.empty_world
              200 "<html>page</html>" Sample.text_100 eq_refl eq_refl)
    as [Hfails _].
  destruct Hfails as [Hstatus|Hlen].
  - intros raw. vm_compute. discriminate.
  - apply Hstatus. unfold is_success_status. lia.
  - vm_compute in Hlen. discriminate Hlen.
Qed.

(** C9, amended.  [download_article] never raises.  The primary step
    yields the body exactly when the page comes with status 200 and the
    text recovered from it, trimmed, has more than 100 characters; then
    the fallback is not asked.  Otherwise the fallback is asked for the
    same page, and yields the body exactly when its text, trimmed, has
    more than 100 characters.  When both fail [download_article] returns
    [None] and [process_single_article] drops the item. *)
Theorem download_article_chain web url w :
  exists r evs,
    download_article web url w = (Ok r, w, evs)
    /\ (forall text, primary_succeeds web url text ->
          evs = [EvHttpGet url]
          /\ exists raw, r = Some raw /\ ra_text raw = text)
    /\ (~ (exists text, primary_succeeds web url text) ->
          evs = [EvHttpGet url; EvNewspaper url]
          /\ (forall text, secondary_succeeds web url text ->
                exists raw, r = Some raw /\ ra_text raw = text)
          /\ (~ (exists text, secondary_succeeds web url text) ->
                r = None
                /\ forall an schema entry,
                     es_up w = true ->
                     item_link entry = Some url ->
                     articles w !! generate_id url = None ->
                     process_single_article web an schema entry w
                     = (Ok None, w,
                        [EvPing; EvExists (generate_id url);
                         EvHttpGet url; EvNewspaper url]))).
Proof.
  destruct (download_article_run web url w) as (r & evs & Hrun & Hprim & Hsec).
  exists r, evs. split; [exact Hrun|]. split.
  - intros text Hsucc.
    destruct Hprim as (-> & raw & -> & Hraw); [eauto|].
    split; [reflexivity|]. exists raw. split; [reflexivity|].
    eapply primary_succeeds_unique; eassumption.
  - intros Hno. destruct (Hsec Hno) as (-> & Hs1 & Hs2).
    split; [reflexivity|]. split; [exact Hs2|].
    intros Hno2.
    assert (r = None) as ->.
    { destruct r as [raw|]; [|reflexivity].
      exfalso. apply Hno2. exists (ra_text raw). now apply Hs1. }
    split; [reflexivity|].
    intros an schema entry Hup Hlink Hnone.
    rewrite (process_single_article_run _ _ _ _ url) by assumption.
    rewrite bool_decide_eq_false_2 by (rewrite Hnone; intros [? [=]]).
    now rewrite Hrun.
Qed.

Lemma download_article_chain_witness :
  exists r evs,
    download_article Sample.web_100 "http://a.test/1" Sample.empty_world
    = (Ok r, Sample.empty_world, evs)
    /\ r = None.
Proof.
  destruct (download_article_chain Sample.web_100 "http://a.test/1"
              Sample.empty_world) as (r & evs & Hrun & _ & Hsec).
  exists r, evs. split; [exact Hrun|].
  apply Hsec.
  - intros (text & html & Hget & Hex & Hlen).
    injection Hget as <-. injection Hex as <-.
    vm_compute in Hlen. discriminate Hlen.
  - intros (text & art & Hnp & _). discriminate Hnp.
Defined.

(** ** The document *)

Lemma truncate_text_bound (text : string) :
  (String.length (truncate_text_default text) <= 3200)%nat.
Proof.
  unfold truncate_text_default, truncate_text.
  destruct (Py.truthy text) eqn:Ht; cbn [negb].
  2:{ destruct text; [cbn; lia|discriminate Ht]. }
  destruct (Py.len text <=? 800 * 4) eqn:Hlen.
  - apply Z.leb_le in Hlen. unfold Py.len in Hlen. lia.
  - destruct (8 * (800 * 4) <? _); rewrite !length_py_take; lia.
Qed.

Lemma classic_primary web url :
  (exists text, primary_succeeds web url text)
  \/ ~ (exists text, primary_succeeds web url text).
Proof.
  unfold primary_succeeds.
  destruct (session_get web url) as [[status html]|exn].
  2:{ right. intros (t & h & [=] & _). }
  destruct (Z.eq_dec status 200) as [->|Hne].
  2:{ right. intros (t & h & [= -> _] & _). now apply Hne. }
  destruct (trafilatura_extract web html) as [[text|]|exn] eqn:Hex.
  2,3: right; intros (t & h & [= <-] & Hex' & _); congruence.
  destruct (Z_lt_dec min_text_length (Py.len (Py.strip text))) as [Hlt|Hge].
  - left. exists text, html. repeat split; [exact Hex|exact Hlt].
  - right. intros (t & h & [= <-] & Hex' & Hlt).
    rewrite Hex in Hex'. injection Hex' as <-. now apply Hge.
Qed.

Lemma download_article_events web url w r w' evs :
  download_article web url w = (r, w', evs) ->
  forall name text, ~ In (EvAnalyzer name text) evs.
Proof.
  intros H name text Hin.
  destruct (download_article_run web url w) as (r0 & evs0 & Hrun & Hp & Hs).
  rewrite Hrun in H. injection H as _ _ <-.
  destruct (classic_primary web url) as [Hyes|Hno].
  - destruct (Hp Hyes) as [-> _]. destruct Hin as [[=]|[]].
  - destruct (Hs Hno) as [-> _]. destruct Hin as [[=]|[[=]|[]]].
Qed.

(** C10. In every document that the pipeline builds, [original_text] is
    the first 5000 characters of the extracted body, so it never has more
    than 5000 characters; the analyzers are given another copy, cut to
    3200 characters at most by [truncate_text], or its translation. *)
Theorem original_text_is_first_5000 web an schema entry w a w' evs :
  process_single_article web an schema entry w = (Ok (Some a), w', evs) ->
  exists url raw evs_d,
    item_link entry = Some url
    /\ download_article web url w = (Ok (Some raw), w, evs_d)
    /\ Py.chars (doc_original_text (act_source a))
       = firstn 5000 (Py.chars (ra_text raw))
    /\ (String.length (doc_original_text (act_source a)) <= 5000)%nat
    /\ (String.length (truncate_text_default (ra_text raw)) <= 3200)%nat
    /\ forall name text,
         In (EvAnalyzer name text) evs ->
         text = truncate_text_default (ra_text raw)
         \/ doc_translated_text (act_source a) = Some text.
Proof.
  intros H.
  apply process_single_article_some in H
    as (url & raw & evs_d & Hlink & _ & _ & Hd & _ & -> & -> & _).
  exists url, raw, evs_d. cbn [act_source document_of doc_original_text
                                doc_translated_text].
  split; [exact Hlink|]. split; [exact Hd|].
  split; [unfold Py.take; apply chars_str|].
  split; [rewrite length_py_take; lia|].
  split; [apply truncate_text_bound|].
  intros name text [[=]|[[=]|Hin]].
  apply in_app_iff in Hin as [Hin|Hin].
  { exfalso. eapply download_article_events; eassumption. }
  unfold analyzer_events, analysis_text in Hin.
  destruct (translation_of an (truncate_text_default (ra_text raw))) as [t|];
    cbn [default] in Hin.
  - destruct Hin as [[= _ <-]|Hin]; [now left|].
    apply in_app_iff in Hin as [Hin|Hin].
    + destruct (String.eqb _ "en"); [destruct Hin|].
      destruct Hin as [[= _ <-]|[]]. now left.
    + repeat (destruct Hin as [[= _ <-]|Hin]; [now right|]). destruct Hin.
  - left.
    destruct Hin as [[= _ <-]|Hin]; [reflexivity|].
    apply in_app_iff in Hin as [Hin|Hin].
    + destruct (String.eqb _ "en"); [destruct Hin|].
      destruct Hin as [[= _ <-]|[]]. reflexivity.
    + repeat (destruct Hin as [[= _ <-]|Hin]; [reflexivity|]). destruct Hin.
Qed.

Lemma original_text_is_first_5000_witness :
  match process_single_article Sample.web Sample.failing_analyzers
          Sample.schema Sample.entry Sample.empty_world with
  | (Ok (Some a), _, _) =>
      (String.length (doc_original_text (act_source a)) <= 5000)%nat
  | _ => False
  end.
Proof.
  destruct (process_single_article Sample.web Sample.failing_analyzers
              Sample.schema Sample.entry Sample.empty_world)
    as [[[[a|]|exn] w'] evs] eqn:E; try (vm_compute in E; discriminate E).
  destruct (original_text_is_first_5000 _ _ _ _ _ _ _ _ E)
    as (url & raw & evs_d & _ & _ & _ & Hlen & _).
  exact Hlen.
Defined.

(** ** Fault isolation *)


Lemma written_lookup (docs : list Action) (store : gmap string ArticleDoc)
  (id : string) :
  is_Some (store !! id) \/ (exists a, In a docs /\ act_id a = id) ->
  is_Some (written docs store !! id).
Proof.
  revert store. induction docs as [|a docs IH]; intros store H; cbn.
  - destruct H as [H|(a & [] & _)]. exact H.
  - apply IH.
    destruct (decide (act_id a = id)) as [<-|Hne].
    + left. rewrite lookup_insert_eq. eauto.
    + destruct H as [H|(a' & [<-|Hin] & Hid)].
      * left. now rewrite lookup_insert_ne.
      * contradiction.
      * right. eauto.
Qed.

Lemma bulk_run (docs : list Action) (w : World) :
  es_up w = true ->
  bulk docs w
  = (Ok tt,
     {| es_up := es_up w; articles := written docs (articles w);
        users := users w; now := now w |},
     [EvBulk (map act_id docs)]).
Proof.
  intros Hup. unfold bulk, es_call, bind, emit, get_world, set_articles, ret.
  destruct w as [up store us t]. cbn in *. subst up. reflexivity.
Qed.






(** ** The title chain *)

Lemma valid_is_truthy (title : string) :
  is_valid_title title = true -> Py.truthy title = true.
Proof. destruct title; [discriminate|reflexivity]. Qed.

Lemma invalid_absent : is_valid_title (default "" None) = false.
Proof. reflexivity. Qed.

Lemma or_source_label_valid url title :
  is_valid_title title = true -> or_source_label url title = title.
Proof.
  intros H. unfold or_source_label.
  now rewrite (valid_is_truthy _ H), H.
Qed.

Lemma or_source_label_invalid url title :
  is_valid_title title = false -> or_source_label url title = source_label url.
Proof.
  intros H. unfold or_source_label. rewrite H.
  now destruct (Py.truthy title).
Qed.

(** Case analysis on the tests of the title logic, the innermost first. *)
Ltac title_case :=
  match goal with
  | H : is_valid_title ?x = _ |- context [is_valid_title ?x] => rewrite H
  | H : Py.truthy ?x = _ |- context [Py.truthy ?x] => rewrite H
  | |- context [is_valid_title ?x] =>
      lazymatch x with
      | context [if _ then _ else _] => fail
      | _ => let E := fresh "E" in destruct (is_valid_title x) eqn:E
      end
  | |- context [Py.truthy ?x] =>
      lazymatch x with
      | context [if _ then _ else _] => fail
      | _ => let E := fresh "E" in destruct (Py.truthy x) eqn:E
      end
  end.

(** A title cannot be valid and empty. *)
Ltac title_absurd :=
  match goal with
  | V : is_valid_title ?x = true, T : Py.truthy ?x = false |- _ =>
      rewrite (valid_is_truthy _ V) in T; discriminate T
  | V : is_valid_title "" = true |- _ => discriminate V
  end.

(** The title logic, one candidate after the other. *)
Lemma resolve_title_cases rss_title extracted text url :
  resolve_title rss_title extracted text url
  = let c1 := Py.strip rss_title in
    let c2 := default "" extracted in
    let c3 := default "" (extract_title_from_content text) in
    if is_valid_title c1 && Py.truthy (clean_title c1)
    then or_source_label url (clean_title c1)
    else if is_valid_title c2 && Py.truthy (clean_title c2)
    then or_source_label url (clean_title c2)
    else if is_valid_title c3 then c3
    else or_source_label url (extract_title_from_url url).
Proof.
  unfold resolve_title, or_source_label. cbv zeta.
  set (c1 := Py.strip rss_title). set (k1 := clean_title c1).
  destruct extracted as [c2|];
    destruct (extract_title_from_content text) as [c3|];
    cbn [has_title default from_option id];
    repeat (title_case; cbn [andb orb negb has_title default from_option id]);
    try reflexivity; try congruence; title_absurd.
Qed.

(** A valid feed title does not always decide the final title: for the
    feed title below the final title is neither that title nor its
    cleaned form. *)
Lemma hyphenated_feed_title_is_lost :
  ~ (forall rss_title extracted text url,
        is_valid_title (Py.strip rss_title) = true ->
        resolve_title rss_title extracted text url = Py.strip rss_title
        \/ resolve_title rss_title extracted text url
           = clean_title (Py.strip rss_title)).
Proof.
  intros H.
  destruct (H "COVID-19 cases rise sharply"
              (Some "Coronavirus cases rise sharply across Europe")
              Sample.body "http://a.test/world/virus-cases-rise") as [E|E].
  - vm_compute. reflexivity.
  - vm_compute in E. discriminate E.
  - vm_compute in E. discriminate E.
Qed.

(** The title logic tests a candidate before it cleans it and keeps the
    cleaned text.  When the feed title is valid and its cleaned form is
    not empty but no longer valid, the later candidates are passed over
    and the last test of the logic puts the label of the source in its
    place. *)
Lemma valid_title_cleaned_invalid rss_title extracted text url :
  is_valid_title (Py.strip rss_title) = true ->
  clean_title (Py.strip rss_title) <> "" ->
  is_valid_title (clean_title (Py.strip rss_title)) = false ->
  resolve_title rss_title extracted text url = source_label url.
Proof.
  intros Hv Hne Hc. rewrite resolve_title_cases. cbv zeta. rewrite Hv.
  assert (Py.truthy (clean_title (Py.strip rss_title)) = true) as ->.
  { destruct (clean_title (Py.strip rss_title)); [now destruct Hne|reflexivity]. }
  cbn [andb]. now apply or_source_label_invalid.
Qed.

(** C5.  The code at the input where the chain breaks.  The feed title
    is valid, and so is the extractor's title, whose cleaned form is
    valid as well.  [clean_title] cuts the feed title at its hyphen to
    ["COVID"], which is not valid; the title is tested before it is
    cleaned, so the extractor's title is never looked at, and the last
    test of the logic replaces ["COVID"] by the label of the source.
    The final title is none of the valid candidates.  The path of
    [download_article] cleans a title first and tests it after: there
    ["COVID"] is refused outright. *)
Theorem valid_feed_title_gives_the_label :
  let rss_title := "COVID-19 cases rise sharply" in
  let extracted := "Coronavirus cases rise sharply across Europe" in
  let url := "http://a.test/world/virus-cases-rise" in
  is_valid_title rss_title = true
  /\ clean_title rss_title = "COVID"
  /\ is_valid_title (clean_title rss_title) = false
  /\ is_valid_title extracted = true
  /\ is_valid_title (clean_title extracted) = true
  /\ resolve_title rss_title (Some extracted) Sample.body url
     = "Article from a.test"
  /\ resolve_title "" (Some extracted) Sample.body url = extracted.
Proof. vm_compute. repeat split; reflexivity. Qed.

(** A valid feed title that [clean_title] empties: the next candidate is
    consulted. *)
Example dash_title_example :
  is_valid_title "- some headline text" = true
  /\ resolve_title "- some headline text"
       (Some "Coronavirus cases rise sharply across Europe")
       Sample.body "http://a.test/world/virus-cases-rise"
     = "Coronavirus cases rise sharply across Europe".
Proof. vm_compute. split; reflexivity. Qed.

(** The chain where cleaning does no harm.  The candidates are: (1) the
    feed title, (2) the extractor's title, (3) the title mined from the
    body, (4) the title made from the URL, (5) the label of the source.
    A candidate (1) or (2) that is valid and whose cleaned form is valid
    gives its cleaned form, (3) and (4) are used as they are, and a
    candidate is reached when the ones before it are not valid. *)
Theorem title_chain_order rss_title extracted text url :
  let c1 := Py.strip rss_title in
  let c2 := default "" extracted in
  let c3 := default "" (extract_title_from_content text) in
  let c4 := extract_title_from_url url in
  let final_title := resolve_title rss_title extracted text url in
  (is_valid_title c1 = true ->
   is_valid_title (clean_title c1) = true ->
   final_title = clean_title c1)
  /\ (is_valid_title c1 = false ->
      is_valid_title c2 = true ->
      is_valid_title (clean_title c2) = true ->
      final_title = clean_title c2)
  /\ (is_valid_title c1 = false ->
      is_valid_title c2 = false ->
      is_valid_title c3 = true ->
      final_title = c3)
  /\ (is_valid_title c1 = false ->
      is_valid_title c2 = false ->
      is_valid_title c3 = false ->
      is_valid_title c4 = true ->
      final_title = c4)
  /\ (is_valid_title c1 = false ->
      is_valid_title c2 = false ->
      is_valid_title c3 = false ->
      is_valid_title c4 = false ->
      final_title = source_label url).
Proof.
  cbv zeta. rewrite resolve_title_cases. cbv zeta.
  repeat split.
  - intros H1 H1'. rewrite H1, (valid_is_truthy _ H1'). cbn [andb].
    now apply or_source_label_valid.
  - intros H1 H2 H2'. rewrite H1, H2, (valid_is_truthy _ H2'). cbn [andb].
    now apply or_source_label_valid.
  - intros H1 H2 H3. rewrite H1, H2, H3. reflexivity.
  - intros H1 H2 H3 H4. rewrite H1, H2, H3. cbn [andb].
    now apply or_source_label_valid.
  - intros H1 H2 H3 H4. rewrite H1, H2, H3. cbn [andb].
    now apply or_source_label_invalid.
Qed.

Lemma title_chain_order_witness :
  resolve_title "Markets rally strongly today - Reuters"
    (Some "Coronavirus cases rise sharply across Europe")
    Sample.body "http://a.test/world/virus-cases-rise"
  = "Markets rally strongly today".
Proof.
  apply (title_chain_order "Markets rally strongly today - Reuters"
           (Some "Coronavirus cases rise sharply across Europe")
           Sample.body "http://a.test/world/virus-cases-rise").
  - vm_compute. reflexivity.
  - vm_compute. reflexivity.
Defined.

(** ** Entity post-processing *)

Lemma not_elem_of_add (k x : string) (seen : gset string) :
  x ∉ {[k]} ∪ seen <-> x <> k /\ x ∉ seen.
Proof. rewrite elem_of_union, elem_of_singleton. tauto. Qed.

Lemma filter_unseen_differs (seen : gset string) (e : ValidEntity)
  (l : list ValidEntity) :
  List.filter (unseen seen) (List.filter (differs_from e) l)
  = List.filter (unseen ({[name_key e]} ∪ seen)) l.
Proof.
  induction l as [|x l IH]; [reflexivity|].
  cbn [List.filter]. unfold differs_from at 1, unseen at 2.
  destruct (String.eqb_spec (name_key x) (name_key e)) as [Heq|Hne];
    cbn [negb].
  - rewrite bool_decide_eq_false_2; [exact IH|].
    rewrite not_elem_of_add. tauto.
  - cbn [List.filter]. unfold unseen at 1.
    destruct (decide (name_key x ∈ seen)) as [Hin|Hout].
    + rewrite !bool_decide_eq_false_2; [exact IH| |tauto].
      rewrite not_elem_of_add. tauto.
    + rewrite !bool_decide_eq_true_2; [now rewrite IH| |exact Hout].
      rewrite not_elem_of_add. tauto.
Qed.

Lemma filter_unseen_seen (seen : gset string) (e : ValidEntity)
  (l : list ValidEntity) :
  name_key e ∈ seen ->
  List.filter (unseen seen) (List.filter (differs_from e) l)
  = List.filter (unseen seen) l.
Proof.
  intros Hin. rewrite filter_unseen_differs.
  rewrite (subseteq_union_1_L {[name_key e]} seen); [reflexivity|].
  now apply singleton_subseteq_l.
Qed.

(** The second loop of [_validate_entities], from any state. *)
Lemma dedup_loop (l : list ValidEntity) (seen : gset string)
  (unique : list ValidEntity) :
  snd (fold_left dedup_step l (seen, unique))
  = (unique ++ List.filter (unseen seen) (first_seen l))%list.
Proof.
  revert seen unique. induction l as [|e l IH]; intros seen unique.
  - cbn. now rewrite app_nil_r.
  - cbn [fold_left first_seen List.filter]. unfold dedup_step at 2.
    fold (name_key e). unfold unseen at 1.
    destruct (decide (name_key e ∈ seen)) as [Hin|Hout].
    + rewrite bool_decide_eq_false_2 by tauto.
      rewrite IH. now rewrite filter_unseen_seen.
    + rewrite bool_decide_eq_true_2 by exact Hout.
      rewrite IH, filter_unseen_differs, <- app_assoc. reflexivity.
Qed.

Lemma filter_unseen_empty (l : list ValidEntity) :
  List.filter (unseen ∅) l = l.
Proof.
  induction l as [|x l IH]; [reflexivity|].
  cbn. unfold unseen at 1.
  rewrite bool_decide_eq_true_2 by apply not_elem_of_empty.
  now rewrite IH.
Qed.

Lemma _validate_entities_first_seen (entities : list RawEntity) :
  _validate_entities entities = first_seen (omap validate_entity entities).
Proof.
  unfold _validate_entities. rewrite dedup_loop. cbn [app].
  apply filter_unseen_empty.
Qed.

Lemma first_seen_incl (l : list ValidEntity) (e : ValidEntity) :
  In e (first_seen l) -> In e l.
Proof.
  revert e. induction l as [|x l IH]; intros e; [intros []|].
  cbn. intros [->|Hin]; [now left|].
  right. apply IH. apply filter_In in Hin. tauto.
Qed.

Lemma first_seen_keys_distinct (l : list ValidEntity) :
  List.NoDup (map name_key (first_seen l)).
Proof.
  induction l as [|x l IH]; cbn; constructor.
  - intros Hin. apply in_map_iff in Hin as (y & Hkey & Hy).
    apply filter_In in Hy as [_ Hd]. unfold differs_from in Hd.
    rewrite Hkey, String.eqb_refl in Hd. discriminate Hd.
  - clear -IH. induction (first_seen l) as [|y r IHr]; [constructor|].
    cbn. inversion IH as [|? ? Hnotin Hnodup]; subst.
    destruct (differs_from x y); [|now apply IHr].
    cbn. constructor; [|now apply IHr].
    intros Hin. apply Hnotin. apply in_map_iff in Hin as (z & Hz & Hin).
    apply filter_In in Hin as [Hin _]. apply in_map_iff. eauto.
Qed.

(** Every name that passes the first loop is kept once. *)
Lemma first_seen_covers (l : list ValidEntity) (e : ValidEntity) :
  In e l -> exists e', In e' (first_seen l) /\ name_key e' = name_key e.
Proof.
  induction l as [|x l IH]; [intros []|].
  intros [->|Hin]; [exists e; split; [now left|reflexivity]|].
  destruct (IH Hin) as (e' & Hin' & Hkey).
  destruct (String.eqb_spec (name_key e') (name_key x)) as [Heq|Hne].
  - exists x. split; [now left|congruence].
  - exists e'. split; [|exact Hkey].
    right. apply filter_In. split; [exact Hin'|].
    unfold differs_from. now apply negb_true_iff, String.eqb_neq.
Qed.

(** What the first loop lets through. *)
Lemma validate_entity_some (raw : RawEntity) (e : ValidEntity) :
  validate_entity raw = Some e ->
  exists name,
    raw_name raw = Some (VStr name)
    /\ name <> ""
    /\ ve_name e = Py.strip name
    /\ 2 <= Py.len (ve_name e)
    /\ Py.isdigit (ve_name e) = false
    /\ forallb is_punctuation (Py.chars (ve_name e)) = false
    /\ ve_type e = str_lower (raw_type raw) "misc"
    /\ In (ve_sentiment e) sentiments
    /\ ve_bias e = get_field (raw_bias raw).
Proof.
  unfold validate_entity.
  destruct (raw_name raw) as [[|name|q]|]; try discriminate.
  destruct (Py.truthy name) eqn:Ht; cbn [negb]; [|discriminate].
  destruct (negb (Py.truthy (Py.strip name)) || (Py.len (Py.strip name) <? 2))
    eqn:Hlen; [discriminate|].
  destruct (Py.isdigit (Py.strip name)
            || forallb is_punctuation (Py.chars (Py.strip name))) eqn:Hd;
    [discriminate|].
  apply orb_false_iff in Hlen as [_ Hlen]. apply Z.ltb_ge in Hlen.
  apply orb_false_iff in Hd as [Hdigit Hpunct].
  assert (forall s, In (if existsb (String.eqb s) sentiments then s else "neutral")
                       sentiments) as Hsent.
  { intros s. destruct (existsb (String.eqb s) sentiments) eqn:Hs.
    - apply existsb_exists in Hs as (s' & Hin & Heq).
      apply String.eqb_eq in Heq. now rewrite Heq.
    - right; right; now left. }
  destruct (raw_score raw) as [[|q|]|]; try discriminate;
    intros [= <-]; exists name;
    cbn [ve_name ve_type ve_sentiment ve_bias];
    (repeat split; try assumption; try reflexivity; try apply Hsent;
     intros ->; discriminate Ht).
Qed.

Lemma length_lower (s : string) : String.length (Py.lower s) = String.length s.
Proof.
  unfold Py.lower. now rewrite length_str, length_map, length_chars.
Qed.

Lemma length_le_list_max (v : list string) (x : string) :
  In x v -> (String.length x <= list_max (map String.length v))%nat.
Proof.
  intros Hin.
  pose proof (proj1 (list_max_le (map String.length v)
                       (list_max (map String.length v))) (Nat.le_refl _)) as H.
  rewrite List.Forall_forall in H. apply H. now apply in_map.
Qed.

(** C6, as the specification states it, fails: the type of an entity is
    put in lower case but is not taken from a closed vocabulary; whatever
    finite vocabulary one fixes, some entity comes out with a type that is
    not in it. *)
Lemma entity_type_vocabulary_is_open :
  ~ (exists vocabulary : list string,
        forall entities e,
          In e (_validate_entities entities) -> In (ve_type e) vocabulary).
Proof.
  intros (v & H).
  set (n := S (list_max (map String.length v))).
  set (t := Py.str (repeat "a"%char n)).
  set (raw := {| raw_name := Some (VStr "Apple");
                 raw_type := Some (Some t);
                 raw_sentiment := None;
                 raw_bias := None;
                 raw_score := None |}).
  destruct (validate_entity raw) as [e|] eqn:E.
  2:{ vm_compute in E. discriminate E. }
  assert (In e (omap validate_entity [raw])) as Hv.
  { apply list_elem_of_In, list_elem_of_omap. exists raw.
    split; [apply list_elem_of_In; now left|exact E]. }
  destruct (first_seen_covers _ _ Hv) as (e' & Hin & _).
  assert (In (ve_type e') v) as Hout.
  { apply (H [raw]). now rewrite _validate_entities_first_seen. }
  apply first_seen_incl, list_elem_of_In, list_elem_of_omap in Hin
    as (raw' & Hraw' & E').
  apply list_elem_of_In in Hraw'. destruct Hraw' as [<-|[]].
  apply validate_entity_some in E' as (_ & _ & _ & _ & _ & _ & _ & Ht & _).
  rewrite Ht in Hout. cbn [raw raw_type str_lower] in Hout.
  apply length_le_list_max in Hout.
  rewrite length_lower in Hout. unfold t in Hout.
  rewrite length_str, repeat_length in Hout. unfold n in Hout. lia.
Qed.

(** A name made of punctuation that the list of [_validate_entities]
    does not know is kept. *)
Example at_signs_are_kept :
  map ve_name
    (_validate_entities
       [{| raw_name := Some (VStr "@@"); raw_type := None;
           raw_sentiment := None; raw_bias := None; raw_score := None |}])
  = ["@@"].
Proof. vm_compute. reflexivity. Qed.

(** C6, amended.  [_validate_entities] keeps the entries whose name is a
    string that, trimmed, has at least two characters, is not made of
    digits only and is not made only of the characters [.,!?;:()-[]{}],
    the quote and the double quote; the type becomes the lower-case text
    of the given type (["misc"] when there is none) and is not otherwise
    restricted, the sentiment is put in lower case and replaced by
    ["neutral"] unless it is ["positive"], ["negative"] or ["neutral"].
    Of the entries kept, the first of every name, compared in lower case,
    remains, in the order and with the casing of the input.  In
    [validate_and_create_entities] an entry without a non-blank string
    name gives no entity. *)
Theorem entity_post_processing (entities : list RawEntity) :
  let unique := _validate_entities entities in
  unique = first_seen (omap validate_entity entities)
  /\ List.NoDup (map name_key unique)
  /\ (forall e, In e unique ->
        exists raw name,
          In raw entities
          /\ raw_name raw = Some (VStr name)
          /\ name <> ""
          /\ ve_name e = Py.strip name
          /\ 2 <= Py.len (ve_name e)
          /\ Py.isdigit (ve_name e) = false
          /\ forallb is_punctuation (Py.chars (ve_name e)) = false
          /\ ve_type e = str_lower (raw_type raw) "misc"
          /\ In (ve_sentiment e) sentiments)
  /\ (forall raw e,
        In raw entities -> validate_entity raw = Some e ->
        exists e', In e' unique /\ name_key e' = name_key e)
  /\ (forall schema e,
        In e (validate_and_create_entities schema (Some entities)) ->
        exists raw name,
          In raw entities
          /\ raw_name raw = Some (VStr name)
          /\ Py.strip name <> ""
          /\ ent_name e = Py.strip name).
Proof.
  cbv zeta. rewrite _validate_entities_first_seen.
  split; [reflexivity|]. split; [apply first_seen_keys_distinct|].
  split; [|split].
  - intros e Hin. apply first_seen_incl in Hin.
    apply list_elem_of_In, list_elem_of_omap in Hin as (raw & Hraw & Hv).
    apply list_elem_of_In in Hraw.
    apply validate_entity_some in Hv
      as (name & Hn & Hne & Hs & Hl & Hd & Hp & Ht & Hsent & _).
    exists raw, name. repeat split; assumption.
  - intros raw e Hin Hv. apply first_seen_covers.
    apply list_elem_of_In, list_elem_of_omap. exists raw.
    split; [now apply list_elem_of_In|exact Hv].
  - intros schema e Hin. cbn [validate_and_create_entities] in Hin.
    apply list_elem_of_In, list_elem_of_omap in Hin as (raw & Hraw & Hc).
    apply list_elem_of_In in Hraw.
    unfold create_entity in Hc.
    destruct (raw_name raw) as [[|name|q]|] eqn:Hn; try discriminate Hc.
    destruct (Py.truthy (Py.strip name)) eqn:Ht; cbn [negb] in Hc;
      [|discriminate Hc].
    exists raw, name. split; [exact Hraw|]. split; [exact Hn|].
    split; [intros Hempty; rewrite Hempty in Ht; cbn in Ht; discriminate Ht|].
    destruct (raw_score raw) as [[|q|]|];
      try discriminate Hc;
      match type of Hc with
      | (if ?b then _ else _) = _ => destruct b; [|discriminate Hc]
      end;
      now injection Hc as <-.
Qed.

(** ["Apple"] followed by ["apple"]: one entity, ["Apple"]. *)
Example apple_then_apple :
  _validate_entities
    [{| raw_name := Some (VStr "Apple"); raw_type := Some (Some "ORG");
        raw_sentiment := Some (Some "Positive"); raw_bias := Some None;
        raw_score := Some (SNum (9 # 10)) |};
     {| raw_name := Some (VStr "apple"); raw_type := Some (Some "FRUIT");
        raw_sentiment := Some (Some "tasty"); raw_bias := Some None;
        raw_score := None |}]
  = [{| ve_name := "Apple"; ve_type := "org"; ve_sentiment := "positive";
        ve_bias := None; ve_score := 9 # 10 |}].
Proof. vm_compute. reflexivity. Qed.

Lemma entity_post_processing_witness :
  exists e',
    In e' (_validate_entities
             [{| raw_name := Some (VStr "Apple"); raw_type := None;
                 raw_sentiment := None; raw_bias := None; raw_score := None |};
              {| raw_name := Some (VStr "apple"); raw_type := None;
                 raw_sentiment := None; raw_bias := None; raw_score := None |}])
    /\ name_key e' = "apple".
Proof.
  destruct (entity_post_processing
              [{| raw_name := Some (VStr "Apple"); raw_type := None;
                  raw_sentiment := None; raw_bias := None; raw_score := None |};
               {| raw_name := Some (VStr "apple"); raw_type := None;
                  raw_sentiment := None; raw_bias := None; raw_score := None |}])
    as (_ & _ & _ & Hcover & _).
  apply (Hcover {| raw_name := Some (VStr "apple"); raw_type := None;
                   raw_sentiment := None; raw_bias := None; raw_score := None |}
                {| ve_name := "apple"; ve_type := "misc";
                   ve_sentiment := "neutral"; ve_bias := None;
                   ve_score := 1 # 2 |}).
  - right. left. reflexivity.
  - vm_compute. reflexivity.
Defined.

(** ** The risk scan *)

Lemma length_insert_desc (d : ArticleDoc) (l : list ArticleDoc) :
  List.length (insert_desc d l) = S (List.length l).
Proof.
  induction l as [|x l IH]; [reflexivity|].
  cbn. destruct (published x <? published d); cbn; [reflexivity|].
  now rewrite IH.
Qed.

Lemma length_sort_desc (l : list ArticleDoc) :
  List.length (sort_desc l) = List.length l.
Proof.
  induction l as [|x l IH]; [reflexivity|].
  change (sort_desc (x :: l)) with (insert_desc x (sort_desc l)).
  now rewrite length_insert_desc, IH.
Qed.

Lemma length_hits_of engine w topic :
  Z.of_nat (List.length (hits_of engine w topic))
  = Z.min 5 (Z.of_nat (List.length (matching engine w topic))).
Proof.
  unfold hits_of, search_size.
  rewrite length_firstn, length_sort_desc. lia.
Qed.

Lemma matching_in_store engine w topic d :
  In d (matching engine w topic)
  <-> exists id, articles w !! id = Some d
                 /\ matches_query engine topic (now w - 24 * 3600) d = true.
Proof.
  unfold matching. rewrite filter_In, in_map_iff. split.
  - intros [([id d'] & <- & Hin) Hm]. exists id. split; [|exact Hm].
    now apply elem_of_map_to_list, list_elem_of_In.
  - intros (id & Hl & Hm). split; [|exact Hm].
    exists (id, d). split; [reflexivity|].
    now apply list_elem_of_In, elem_of_map_to_list.
Qed.

Lemma analyze_topic_risk_run engine topic w :
  analyze_topic_risk engine topic w
  = if es_up w
    then (Ok (risk_record engine w topic), w, [EvSearchArticles topic])
    else (Raise "ConnectionError", w, [EvSearchArticles topic]).
Proof.
  unfold analyze_topic_risk, es_search, es_call, bind, emit, get_world, ret,
    raise.
  destruct (es_up w); reflexivity.
Qed.

(** C3. While the store answers, the record of a topic is critical if and
    only if the store holds at least one document that the query matches
    (relevant to the topic, published in the last 24 hours, of negative
    sentiment), and [article_count] is the number of such documents, 5 at
    most: no match gives [critical = false] and a count of 0, one match
    gives [critical = true] and a count of 1. *)
Theorem risk_record_counts_matches engine topic w :
  es_up w = true ->
  exists r,
    analyze_topic_risk engine topic w = (Ok r, w, [EvSearchArticles topic])
    /\ risk_topic r = topic
    /\ (is_critical r = true
        <-> exists id d,
              articles w !! id = Some d
              /\ matches_query engine topic (now w - 24 * 3600) d = true)
    /\ article_count r
       = Z.min 5 (Z.of_nat (List.length (matching engine w topic)))
    /\ article_count r = Z.of_nat (List.length (articles_data r))
    /\ (matching engine w topic = [] ->
        is_critical r = false /\ article_count r = 0)
    /\ (forall d, matching engine w topic = [d] ->
        is_critical r = true /\ article_count r = 1).
Proof.
  intros Hup. exists (risk_record engine w topic).
  rewrite analyze_topic_risk_run, Hup.
  split; [reflexivity|]. split; [reflexivity|].
  cbn [risk_record is_critical article_count articles_data].
  rewrite length_map, length_hits_of.
  split; [|split; [reflexivity|split; [reflexivity|split]]].
  - rewrite Z.ltb_lt. split.
    + intros Hpos.
      destruct (matching engine w topic) as [|d l] eqn:E; [cbn in Hpos; lia|].
      assert (In d (matching engine w topic)) as Hin by (rewrite E; now left).
      apply matching_in_store in Hin as (id & Hl & Hm). eauto.
    + intros (id & d & Hl & Hm).
      assert (In d (matching engine w topic)) as Hin
        by (apply matching_in_store; eauto).
      destruct (matching engine w topic); [destruct Hin|cbn; lia].
  - intros ->. split; reflexivity.
  - intros d ->. split; reflexivity.
Qed.

Lemma risk_record_counts_matches_witness :
  exists r,
    analyze_topic_risk Sample.engine "X raises" Sample.stored_world
    = (Ok r, Sample.stored_world, [EvSearchArticles "X raises"])
    /\ is_critical r = true
    /\ article_count r = 1.
Proof.
  destruct (risk_record_counts_matches Sample.engine "X raises"
              Sample.stored_world)
    as (r & Hrun & _ & _ & _ & _ & _ & Hone); [reflexivity|].
  exists r. split; [exact Hrun|].
  apply (Hone Sample.doc). vm_compute. reflexivity.
Defined.

(** ** The patrol *)

Lemma reports_app (a b : list Event) :
  reports (a ++ b) = (reports a ++ reports b)%list.
Proof. apply omap_app. Qed.

Lemma fetch_users_run (w : World) :
  try_except fetch_users (fun _ => ret None) w
  = if es_up w
    then match users w with
         | Some us => (Ok (Some (firstn users_size us)), w,
                       [EvUsersIndex; EvSearchUsers])
         | None => (Ok None, w, [EvUsersIndex])
         end
    else (Ok None, w, [EvUsersIndex]).
Proof.
  unfold try_except, fetch_users, es_call, bind, emit, get_world, ret, raise.
  destruct (es_up w) eqn:Hup; [|reflexivity].
  destruct (users w); [|reflexivity].
  cbn. rewrite Hup. reflexivity.
Qed.

Lemma topic_map_append_keys (tm : list (string * list string)) (t e : string) :
  (forall k, In k (map fst (topic_map_append tm t e))
             <-> k = t \/ In k (map fst tm))
  /\ (List.NoDup (map fst tm) -> List.NoDup (map fst (topic_map_append tm t e))).
Proof.
  induction tm as [|[t' emails] tm [IHin IHnd]]; cbn.
  - split; [intros k; intuition congruence|].
    intros _. repeat constructor. intros [].
  - destruct (String.eqb_spec t' t) as [->|Hne]; cbn.
    + split; [intros k; intuition congruence|]. tauto.
    + split.
      * intros k. rewrite IHin. tauto.
      * intros Hnd. inversion Hnd as [|? ? Hnotin Hnd']; subst.
        constructor; [|now apply IHnd].
        rewrite IHin. intros [Heq|Hin]; [now apply Hne|now apply Hnotin].
Qed.

(** The inner loop of [map_topics], for a user who has an e-mail. *)
Lemma map_topics_inner (email : string) (topics : list string)
  (tm : list (string * list string)) (w : World) :
  exists tm',
    for_each topics
      (fun topic_map topic =>
         match Some email with
         | Some email => ret (topic_map_append topic_map (Py.strip topic) email)
         | None => raise "KeyError"
         end) tm w = (Ok tm', w, [])
    /\ (forall k, In k (map fst tm')
                  <-> In k (map Py.strip topics) \/ In k (map fst tm))
    /\ (List.NoDup (map fst tm) -> List.NoDup (map fst tm')).
Proof.
  revert tm. induction topics as [|topic topics IH]; intros tm.
  - exists tm. split; [reflexivity|]. split; [intros k; cbn; tauto|tauto].
  - cbn [for_each]. unfold bind, ret at 1.
    destruct (IH (topic_map_append tm (Py.strip topic) email))
      as (tm' & -> & Hin & Hnd).
    destruct (topic_map_append_keys tm (Py.strip topic) email) as [Hin1 Hnd1].
    exists tm'. split; [reflexivity|]. split.
    + intros k. rewrite Hin, Hin1. cbn. intuition congruence.
    + intros H. apply Hnd, Hnd1, H.
Qed.

(** [map_topics] asks nothing of the outside.  When it returns, the keys
    of the map are the watched topics, each of them once. *)
Lemma map_topics_run (us : list User) (w : World) :
  exists r,
    map_topics us w = (r, w, [])
    /\ (forall tm, r = Ok tm ->
          List.NoDup (map fst tm)
          /\ forall k, In k (map fst tm) <-> In k (watched_topics us))
    /\ ((forall u, In u us -> user_email u <> None) -> exists tm, r = Ok tm).
Proof.
  unfold map_topics.
  assert (forall tm : list (string * list string),
             exists r,
               for_each us
                 (fun topic_map user =>
                    for_each (default [] (user_watchlist user))
                      (fun topic_map topic =>
                         match user_email user with
                         | Some email =>
                             ret (topic_map_append topic_map (Py.strip topic) email)
                         | None => raise "KeyError"
                         end) topic_map) tm w = (r, w, [])
               /\ (forall tm', r = Ok tm' ->
                     (List.NoDup (map fst tm) -> List.NoDup (map fst tm'))
                     /\ forall k, In k (map fst tm')
                                  <-> In k (watched_topics us) \/ In k (map fst tm))
               /\ ((forall u, In u us -> user_email u <> None) ->
                   exists tm', r = Ok tm')) as Hgen.
  { induction us as [|u us IH]; intros tm.
    - exists (Ok tm). split; [reflexivity|]. split; [|eauto].
      intros tm' [= <-]. split; [tauto|]. intros k. cbn. tauto.
    - cbn [for_each]. unfold bind at 1.
      destruct (user_email u) as [email|] eqn:He.
      + destruct (map_topics_inner email (default [] (user_watchlist u)) tm w)
          as (tm1 & -> & Hin1 & Hnd1).
        destruct (IH tm1) as (r & -> & Hok & Htot).
        exists r. split; [reflexivity|]. split.
        * intros tm' Hr. destruct (Hok tm' Hr) as [Hnd Hin].
          split; [intros H; apply Hnd, Hnd1, H|].
          intros k. rewrite Hin, Hin1. cbn [watched_topics flat_map].
          rewrite in_app_iff. fold (watched_topics us). tauto.
        * intros Hall. apply Htot. intros u' Hu'. apply Hall. now right.
      + destruct (default [] (user_watchlist u)) as [|topic topics] eqn:Hw.
        * cbn [for_each]. unfold ret at 1.
          destruct (IH tm) as (r & -> & Hok & Htot).
          exists r. split; [reflexivity|]. split.
          -- intros tm' Hr. destruct (Hok tm' Hr) as [Hnd Hin].
             split; [exact Hnd|].
             intros k. rewrite Hin. cbn [watched_topics flat_map].
             rewrite Hw. cbn. fold (watched_topics us). tauto.
          -- intros Hall. apply Htot. intros u' Hu'. apply Hall. now right.
        * cbn [for_each]. unfold bind at 1, raise at 1.
          exists (Raise "KeyError"). split; [reflexivity|]. split.
          -- intros tm' [=].
          -- intros Hall. exfalso. apply (Hall u); [now left|exact He]. }
  destruct (Hgen []) as (r & Hrun & Hok & Htot).
  exists r. split; [exact Hrun|]. split; [|exact Htot].
  intros tm Hr. destruct (Hok tm Hr) as [Hnd Hin].
  split; [apply Hnd; constructor|].
  intros k. rewrite Hin. cbn. tauto.
Qed.

Lemma alert_topics engine w (tm : list (string * list string)) :
  map risk_topic (omap (alert_of engine w) tm)
  = List.filter (fun topic => is_critical (risk_record engine w topic))
                (map fst tm).
Proof.
  induction tm as [|[topic emails] tm IH]; [reflexivity|].
  cbn [map List.filter fst].
  change (omap (alert_of engine w) ((topic, emails) :: tm))
    with (match alert_of engine w (topic, emails) with
          | Some r => r :: omap (alert_of engine w) tm
          | None => omap (alert_of engine w) tm
          end).
  unfold alert_of at 1. cbn [fst snd].
  destruct (is_critical (risk_record engine w topic)); [|exact IH].
  cbn [map risk_topic]. now rewrite IH.
Qed.

(** The loop of [analyze_risks], from any list of records gathered so
    far: it asks for no report, and while the store answers it gathers the
    records of the critical topics, in the order of the map. *)
Lemma analyze_risks_loop engine (tm : list (string * list string))
  (acc : list RiskRecord) (w : World) :
  exists r evs,
    for_each tm
      (fun risk_list '(topic, emails) =>
         let* risk_data := analyze_topic_risk engine topic in
         if is_critical risk_data then
           ret (risk_list ++
                [{| risk_topic := risk_topic risk_data;
                    is_critical := is_critical risk_data;
                    article_count := article_count risk_data;
                    articles_data := articles_data risk_data;
                    top_summary := top_summary risk_data;
                    ai_assessment := Some (top_summary risk_data);
                    users_affected := Some emails |}])%list
         else ret risk_list) acc w = (r, w, evs)
    /\ reports evs = []
    /\ (es_up w = true -> r = Ok (acc ++ omap (alert_of engine w) tm)%list).
Proof.
  revert acc. induction tm as [|[topic emails] tm IH]; intros acc.
  - exists (Ok acc), []. split; [reflexivity|]. split; [reflexivity|].
    intros _. cbn. now rewrite app_nil_r.
  - cbn [for_each]. unfold bind at 1. unfold bind at 1.
    rewrite analyze_topic_risk_run.
    destruct (es_up w) eqn:Hup.
    2:{ exists (Raise "ConnectionError"), [EvSearchArticles topic].
        split; [reflexivity|]. split; [reflexivity|]. discriminate. }
    change (omap (alert_of engine w) ((topic, emails) :: tm))
      with (match alert_of engine w (topic, emails) with
            | Some r => r :: omap (alert_of engine w) tm
            | None => omap (alert_of engine w) tm
            end).
    unfold alert_of at 1. cbn [fst snd].
    destruct (is_critical (risk_record engine w topic)); unfold ret at 1.
    + match goal with
      | |- context [for_each tm _ ?acc' w] =>
          destruct (IH acc') as (r & evs & -> & Hrep & Hok)
      end.
      eexists _, _. split; [reflexivity|]. split.
      * rewrite !reports_app, Hrep. reflexivity.
      * intros _. rewrite (Hok eq_refl), <- app_assoc. reflexivity.
    + destruct (IH acc) as (r & evs & -> & Hrep & Hok).
      eexists _, _. split; [reflexivity|]. split.
      * rewrite !reports_app, Hrep. reflexivity.
      * intros _. now rewrite (Hok eq_refl).
Qed.

Lemma generate_alert_batch_run engine risk_list w :
  exists r evs,
    generate_alert_batch engine risk_list w = (r, w, evs)
    /\ reports evs = [risk_list].
Proof.
  unfold generate_alert_batch, bind, emit, lift.
  destruct (generate_html_report engine risk_list);
    eexists _, _; split; reflexivity.
Qed.

Lemma reports_fetch : reports [EvUsersIndex; EvSearchUsers] = [].
Proof. reflexivity. Qed.

Lemma reports_nil : reports [] = [].
Proof. reflexivity. Qed.

(** C1. A patrol asks for one report at most.  While the store answers
    and every user has an e-mail: when no watched topic is critical no
    report is asked for; when at least one is, exactly one report is asked
    for, and its records are those of all the critical topics, each topic
    once. *)
Theorem one_report_per_cycle engine w :
  exists r evs,
    run_patrol engine w = (r, w, evs)
    /\ (List.length (reports evs) <= 1)%nat
    /\ forall us,
         es_up w = true ->
         users w = Some us ->
         (forall u, In u (firstn users_size us) -> user_email u <> None) ->
         let topics := watched_topics (firstn users_size us) in
         let critical topic := is_critical (risk_record engine w topic) in
         ((forall topic, In topic topics -> critical topic = false) ->
          reports evs = [])
         /\ ((exists topic, In topic topics /\ critical topic = true) ->
             exists risk_list,
               reports evs = [risk_list]
               /\ List.NoDup (map risk_topic risk_list)
               /\ forall topic,
                    In topic (map risk_topic risk_list)
                    <-> In topic topics /\ critical topic = true).
Proof.
  unfold run_patrol. unfold bind at 1. rewrite fetch_users_run.
  destruct (es_up w) eqn:Hup.
  2:{ exists (Ok tt), [EvUsersIndex]. split; [reflexivity|].
      split; [cbn; lia|]. intros us [=]. }
  destruct (users w) as [us|] eqn:Hus.
  2:{ exists (Ok tt), [EvUsersIndex]. split; [reflexivity|].
      split; [cbn; lia|]. intros us _ [=]. }
  unfold bind at 1.
  destruct (map_topics_run (firstn users_size us) w) as (rm & -> & Hkeys & Htot).
  destruct rm as [tm|exn].
  2:{ exists (Raise exn), [EvUsersIndex; EvSearchUsers].
      split; [reflexivity|]. split; [cbn; lia|].
      intros us' _ [= <-] Hall. destruct (Htot Hall) as (tm & [=]). }
  destruct (Hkeys tm eq_refl) as [Hnd Hin].
  destruct tm as [|p tm'].
  { exists (Ok tt), [EvUsersIndex; EvSearchUsers].
    split; [reflexivity|]. split; [cbn; lia|].
    intros us' _ [= <-] _. cbv zeta. split; [reflexivity|].
    intros (topic & Ht & _). apply Hin in Ht. destruct Ht. }
  set (tm := p :: tm') in *.
  unfold bind at 1. unfold analyze_risks.
  destruct (analyze_risks_loop engine tm [] w) as (ra & evs_a & -> & Hrep & Hok).
  specialize (Hok Hup). subst ra. cbn [app].
  pose proof (alert_topics engine w tm) as Htopics.
  assert (forall topic,
             In topic (map risk_topic (omap (alert_of engine w) tm))
             <-> In topic (watched_topics (firstn users_size us))
                 /\ is_critical (risk_record engine w topic) = true) as Hmem.
  { intros topic. rewrite Htopics, filter_In, Hin. reflexivity. }
  destruct (omap (alert_of engine w) tm) as [|a risk_list] eqn:Halerts.
  - exists (Ok tt), ([EvUsersIndex; EvSearchUsers] ++ [] ++ evs_a ++ [])%list.
    split; [reflexivity|].
    rewrite !reports_app, Hrep, reports_fetch, reports_nil.
    cbn [app List.length]. split; [lia|].
    intros us' _ [= <-] _. cbv zeta. split; [reflexivity|].
    intros (topic & Ht & Hc).
    destruct (proj2 (Hmem topic) (conj Ht Hc)).
  - destruct (generate_alert_batch_run engine (a :: risk_list) w)
      as (rg & evs_g & -> & Hg).
    exists rg, ([EvUsersIndex; EvSearchUsers] ++ [] ++ evs_a ++ evs_g)%list.
    split; [reflexivity|].
    rewrite !reports_app, Hrep, Hg, reports_fetch, reports_nil.
    cbn [app List.length]. split; [lia|].
    intros us' _ [= <-] _. cbv zeta. split.
    + intros Hnone. exfalso.
      destruct (proj1 (Hmem (risk_topic a)) (or_introl eq_refl)) as [Ht Hc].
      rewrite (Hnone _ Ht) in Hc. discriminate Hc.
    + intros _. exists (a :: risk_list). split; [reflexivity|].
      split; [|exact Hmem].
      rewrite Htopics. now apply List.NoDup_filter.
Qed.

Lemma one_report_per_cycle_witness :
  exists risk_list,
    reports (snd (run_patrol Sample.engine Sample.patrol_world)) = [risk_list]
    /\ List.NoDup (map risk_topic risk_list).
Proof.
  destruct (one_report_per_cycle Sample.engine Sample.patrol_world)
    as (r & evs & Hrun & _ & H).
  rewrite Hrun. cbn [snd].
  destruct (H Sample.subscribers eq_refl eq_refl) as [_ Hsome].
  { intros u Hin. vm_compute in Hin.
    destruct Hin as [<-|[<-|[]]]; discriminate. }
  destruct Hsome as (risk_list & Hr & Hnd & _).
  { exists "X raises". split; [vm_compute; left; reflexivity|].
    vm_compute. reflexivity. }
  exists risk_list. split; [exact Hr|exact Hnd].
Defined.

(** Two topics critical in the same cycle: one report, two records. *)
Example two_critical_topics_one_report :
  map (map risk_topic)
      (reports (snd (run_patrol Sample.engine Sample.patrol_world)))
  = [["X raises"; "funds"]].
Proof. vm_compute. reflexivity. Qed.

(** No critical topic: no report. *)
Example no_critical_topic_no_report :
  reports (snd (run_patrol Sample.engine Sample.quiet_world)) = [].
Proof. vm_compute. reflexivity. Qed.

(** * Further properties of the code *)

(** ** More on strings *)

Lemma lstrip_fixed (c : ascii) (l : list ascii) :
  Py.isspace c = false -> Py.lstrip_chars (c :: l) = c :: l.
Proof. intros H. cbn. now rewrite H. Qed.

Lemma lstrip_head (l : list ascii) :
  Py.lstrip_chars l = []
  \/ exists c r, Py.lstrip_chars l = c :: r /\ Py.isspace c = false.
Proof.
  induction l as [|c l IH]; [now left|].
  cbn. destruct (Py.isspace c) eqn:E; [exact IH|].
  right. exists c, l. split; [reflexivity|exact E].
Qed.

Lemma lstrip_idempotent (l : list ascii) :
  Py.lstrip_chars (Py.lstrip_chars l) = Py.lstrip_chars l.
Proof.
  destruct (lstrip_head l) as [->|(c & r & -> & Hc)]; [reflexivity|].
  now apply lstrip_fixed.
Qed.

Lemma lstrip_app_nonspace (l : list ascii) (c : ascii) :
  Py.isspace c = false ->
  Py.lstrip_chars (l ++ [c]) = (Py.lstrip_chars l ++ [c])%list.
Proof.
  intros Hc. induction l as [|x l IH]; cbn.
  - now rewrite Hc.
  - destruct (Py.isspace x); [exact IH|reflexivity].
Qed.

Lemma rstrip_cons_nonspace (c : ascii) (l : list ascii) :
  Py.isspace c = false ->
  Py.rstrip_chars (c :: l) = c :: Py.rstrip_chars l.
Proof.
  intros Hc. unfold Py.rstrip_chars. cbn [rev].
  rewrite lstrip_app_nonspace by exact Hc.
  now rewrite rev_app_distr.
Qed.

Lemma strip_chars_trimmed (l : list ascii) :
  trimmed (Py.rstrip_chars (Py.lstrip_chars l)).
Proof.
  split.
  - destruct (lstrip_head l) as [->|(c & r & -> & Hc)]; [reflexivity|].
    rewrite rstrip_cons_nonspace by exact Hc. now apply lstrip_fixed.
  - unfold Py.rstrip_chars. rewrite rev_involutive. apply lstrip_idempotent.
Qed.

Lemma trimmed_strip (l : list ascii) :
  trimmed l -> Py.rstrip_chars (Py.lstrip_chars l) = l.
Proof.
  intros [Hl Hr]. rewrite Hl. unfold Py.rstrip_chars.
  rewrite Hr. apply rev_involutive.
Qed.

Lemma strip_idempotent (s : string) : Py.strip (Py.strip s) = Py.strip s.
Proof.
  unfold Py.strip. rewrite chars_str.
  now rewrite trimmed_strip by apply strip_chars_trimmed.
Qed.

Lemma length_lstrip (l : list ascii) :
  (List.length (Py.lstrip_chars l) <= List.length l)%nat.
Proof.
  induction l as [|c l IH]; cbn; [lia|].
  destruct (Py.isspace c); cbn; lia.
Qed.

Lemma length_strip (s : string) :
  (String.length (Py.strip s) <= String.length s)%nat.
Proof.
  unfold Py.strip, Py.rstrip_chars.
  rewrite length_str, length_rev.
  etransitivity; [apply length_lstrip|].
  rewrite length_rev.
  etransitivity; [apply length_lstrip|].
  now rewrite length_chars.
Qed.

Lemma lower_char_idempotent (c : ascii) :
  Py.lower_char (Py.lower_char c) = Py.lower_char c.
Proof.
  destruct c as [[] [] [] [] [] [] [] []]; vm_compute; reflexivity.
Qed.

Lemma lower_idempotent (s : string) : Py.lower (Py.lower s) = Py.lower s.
Proof.
  unfold Py.lower. rewrite chars_str, map_map.
  f_equal. apply map_ext. intros c. apply lower_char_idempotent.
Qed.

Lemma length_append (a b : string) :
  String.length (a +:+ b) = (String.length a + String.length b)%nat.
Proof.
  induction a as [|c a IH]; [reflexivity|].
  change (S (String.length (a +:+ b)) = S (String.length a + String.length b)).
  now rewrite IH.
Qed.

Lemma chars_append (a b : string) :
  Py.chars (a +:+ b) = (Py.chars a ++ Py.chars b)%list.
Proof.
  induction a as [|c a IH]; [reflexivity|].
  change (c :: Py.chars (a +:+ b) = c :: (Py.chars a ++ Py.chars b)%list).
  now rewrite IH.
Qed.

Lemma is_prefix_refl (s : string) : is_prefix s s.
Proof. exists []. now rewrite app_nil_r. Qed.

Lemma is_prefix_trans (a b c : string) :
  is_prefix a b -> is_prefix b c -> is_prefix a c.
Proof.
  intros [r1 H1] [r2 H2]. exists (r1 ++ r2)%list.
  now rewrite H2, H1, <- app_assoc.
Qed.

Lemma take_is_prefix (n : nat) (s : string) : is_prefix (Py.take n s) s.
Proof.
  exists (skipn n (Py.chars s)). unfold Py.take.
  now rewrite chars_str, firstn_skipn.
Qed.

(** ** Text and title helpers *)

Lemma len_take (n : nat) (s : string) :
  Py.len (Py.take n s) = Z.min (Z.of_nat n) (Py.len s).
Proof. unfold Py.len. rewrite length_py_take. lia. Qed.

(** X1. [truncate_text] returns what its input starts with, cut to
    [4 * max_tokens] characters at most; a text within that bound is
    returned as it is, so truncating twice is truncating once. *)
Theorem truncate_text_prefix text max_tokens :
  0 <= max_tokens ->
  is_prefix (truncate_text text max_tokens) text
  /\ Py.len (truncate_text text max_tokens) <= 4 * max_tokens
  /\ (Py.len text <= 4 * max_tokens -> truncate_text text max_tokens = text)
  /\ truncate_text (truncate_text text max_tokens) max_tokens
     = truncate_text text max_tokens.
Proof.
  intros Hpos.
  assert (forall t, Py.len t <= 4 * max_tokens ->
                    truncate_text t max_tokens = t) as Hshort.
  { intros t Ht. unfold truncate_text. cbv zeta.
    destruct (Py.truthy t); cbn [negb]; [|reflexivity].
    destruct (Z.leb_spec (Py.len t) (max_tokens * 4)); [reflexivity|lia]. }
  assert (is_prefix (truncate_text text max_tokens) text
          /\ Py.len (truncate_text text max_tokens) <= 4 * max_tokens)
    as [Hpre Hlen].
  { unfold truncate_text. cbv zeta.
    destruct (Py.truthy text) eqn:Ht; cbn [negb].
    2:{ split; [apply is_prefix_refl|].
        destruct text; [change (Py.len "") with 0; lia|discriminate Ht]. }
    destruct (Py.len text <=? max_tokens * 4) eqn:Hle.
    { apply Z.leb_le in Hle. split; [apply is_prefix_refl|lia]. }
    destruct (8 * (max_tokens * 4) <? _).
    - split.
      + eapply is_prefix_trans; apply take_is_prefix.
      + rewrite !len_take. lia.
    - split; [apply take_is_prefix|]. rewrite len_take. lia. }
  split; [exact Hpre|]. split; [exact Hlen|]. split; [apply Hshort|].
  now apply Hshort.
Qed.

Lemma truncate_text_prefix_witness :
  truncate_text (truncate_text Sample.body 10) 10 = truncate_text Sample.body 10.
Proof.
  apply (truncate_text_prefix Sample.body 10). lia.
Defined.

Lemma length_before_last_space (s : string) :
  (String.length (Py.before_last_space s) <= String.length s)%nat.
Proof.
  unfold Py.before_last_space.
  destruct (Py.rfind s " " <? 0); [lia|].
  rewrite length_py_take. lia.
Qed.

(** X2. A cleaned title has 203 characters at most (200 and the three
    dots), and neither starts nor ends with white space. *)
Theorem clean_title_bounded_trimmed (title : string) :
  Py.len (clean_title title) <= 203
  /\ Py.strip (clean_title title) = clean_title title.
Proof.
  unfold clean_title.
  destruct (Py.truthy title); cbn [negb];
    [|split; [change (Py.len "") with 0; lia|reflexivity]].
  split; [|apply strip_idempotent].
  match goal with |- Py.len (Py.strip ?x) <= _ => set (t := x) end.
  assert (Py.len t <= 203) as Ht.
  { subst t.
    match goal with |- context [200 <? Py.len ?x] => set (u := x) end.
    destruct (200 <? Py.len u) eqn:E.
    - unfold Py.len. rewrite length_append.
      pose proof (length_before_last_space (Py.take 200 u)) as H.
      rewrite length_py_take in H. cbn [String.length]. lia.
    - apply Z.ltb_ge in E. lia. }
  pose proof (length_strip t). unfold Py.len in *. lia.
Qed.

(** X3. [extract_title_from_content] gives nothing for a text of fewer
    than 50 characters; a title it gives is valid, and is the cleaned form
    of one of the first five sentences, one that has between 15 and 150
    characters once trimmed and does not begin with a lead-in. *)
Theorem extract_title_from_content_valid (text : string) :
  (Py.len text < 50 -> extract_title_from_content text = None)
  /\ forall title,
       extract_title_from_content text = Some title ->
       is_valid_title title = true
       /\ 50 <= Py.len text
       /\ exists sentence,
            In sentence (firstn 5 (Py.split_sentences text))
            /\ title = clean_title (Py.strip sentence)
            /\ 15 <= Py.len (Py.strip sentence) <= 150
            /\ forall lead_in, In lead_in lead_ins ->
                 Py.startswith (Py.lower (Py.strip sentence)) lead_in = false.
Proof.
  unfold extract_title_from_content. split.
  - intros Hlen. apply Z.ltb_lt in Hlen. rewrite Hlen. now rewrite orb_true_r.
  - intros title.
    destruct (negb (Py.truthy text) || (Py.len text <? 50)) eqn:E;
      [discriminate|].
    apply orb_false_iff in E as [_ E]. apply Z.ltb_ge in E.
    induction (firstn 5 (Py.split_sentences text)) as [|s l IH];
      [discriminate|].
    cbn [first_title_sentence].
    destruct ((15 <=? Py.len (Py.strip s)) && (Py.len (Py.strip s) <=? 150)
              && negb (existsb (Py.startswith (Py.lower (Py.strip s))) lead_ins))
      eqn:Hc.
    + destruct (is_valid_title (clean_title (Py.strip s))) eqn:Hv.
      * intros [= <-]. split; [exact Hv|]. split; [exact E|].
        exists s. split; [now left|]. split; [reflexivity|].
        apply andb_true_iff in Hc as [Hc Hl].
        apply andb_true_iff in Hc as [H15 H150].
        apply Z.leb_le in H15, H150. split; [lia|].
        apply negb_true_iff in Hl.
        intros lead_in Hin.
        destruct (Py.startswith (Py.lower (Py.strip s)) lead_in) eqn:Hs;
          [|reflexivity].
        assert (existsb (Py.startswith (Py.lower (Py.strip s))) lead_ins = true)
          as Hex by (apply existsb_exists; eauto).
        rewrite Hex in Hl. discriminate Hl.
      * intros H. destruct (IH H) as (Hv' & _ & s' & Hin & Hrest).
        split; [exact Hv'|]. split; [exact E|].
        exists s'. split; [now right|exact Hrest].
    + intros H. destruct (IH H) as (Hv' & _ & s' & Hin & Hrest).
      split; [exact Hv'|]. split; [exact E|].
      exists s'. split; [now right|exact Hrest].
Qed.

Lemma extract_title_from_content_valid_witness :
  is_valid_title "Scientists discover a new species of frog in the cloud forests of Peru"
  = true.
Proof.
  apply (extract_title_from_content_valid Sample.body).
  vm_compute. reflexivity.
Defined.

Lemma starts_app (p l : list ascii) : Py.starts p (p ++ l) = true.
Proof.
  induction p as [|c p IH]; [reflexivity|].
  cbn. now rewrite Ascii.eqb_refl, IH.
Qed.

Lemma contains_chars_app (p l : list ascii) :
  Py.contains_chars p (p ++ l) = true.
Proof.
  destruct (p ++ l) eqn:E; cbn; rewrite <- E, starts_app; reflexivity.
Qed.

Lemma rstrip_app_nonspace (p l : list ascii) :
  forallb (fun c => negb (Py.isspace c)) p = true ->
  Py.rstrip_chars (p ++ l) = (p ++ Py.rstrip_chars l)%list.
Proof.
  induction p as [|c p IH]; [reflexivity|].
  cbn [forallb app]. intros H. apply andb_true_iff in H as [Hc Hp].
  apply negb_true_iff in Hc.
  rewrite rstrip_cons_nonspace by exact Hc. now rewrite IH.
Qed.

Lemma lower_append (a b : string) :
  Py.chars (Py.lower (a +:+ b))
  = (Py.chars (Py.lower a) ++ Py.chars (Py.lower b))%list.
Proof.
  unfold Py.lower. now rewrite !chars_str, chars_append, map_app.
Qed.

(** The label of the source mentions ["article"], so [is_valid_title]
    refuses it. *)
Lemma source_label_invalid (url : string) :
  is_valid_title (source_label url) = false.
Proof.
  rewrite is_valid_title_unfold.
  assert (mentions_generic (source_label url) = true) as ->;
    [|now rewrite andb_false_r].
  unfold mentions_generic. apply existsb_exists.
  exists "article". split; [cbn; tauto|].
  unfold source_label, Py.contains, Py.strip.
  rewrite chars_str, lower_append.
  change (Py.chars (Py.lower "Article from "))
    with (Py.chars "article" ++ Py.chars " from ")%list.
  rewrite <- app_assoc.
  change (Py.lstrip_chars (Py.chars "article" ++ ?l))
    with (Py.chars "article" ++ l)%list.
  rewrite rstrip_app_nonspace by reflexivity.
  apply contains_chars_app.
Qed.

Lemma source_label_not_empty (url : string) : source_label url <> "".
Proof.
  unfold source_label. intros H. apply (f_equal String.length) in H.
  rewrite length_append in H. cbn in H. lia.
Qed.

Lemma resolve_title_not_empty rss_title extracted text url :
  resolve_title rss_title extracted text url <> "".
Proof.
  rewrite resolve_title_cases. cbv zeta.
  assert (forall t, or_source_label url t <> "") as Hor.
  { intros t. destruct (is_valid_title t) eqn:E.
    - rewrite or_source_label_valid by exact E. intros ->. discriminate E.
    - rewrite or_source_label_invalid by exact E. apply source_label_not_empty. }
  destruct (is_valid_title (Py.strip rss_title)
            && Py.truthy (clean_title (Py.strip rss_title))); [apply Hor|].
  destruct (is_valid_title (default "" extracted)
            && Py.truthy (clean_title (default "" extracted))); [apply Hor|].
  destruct (is_valid_title (default "" (extract_title_from_content text)))
    eqn:E3; [|apply Hor].
  intros H. rewrite H in E3. discriminate E3.
Qed.

(** X4. The final title is never empty.  It passes [is_valid_title] or it
    is the label of the source, and never both: the label itself is
    refused. *)
Theorem final_title_valid_or_label rss_title extracted text url :
  let final_title := resolve_title rss_title extracted text url in
  final_title <> ""
  /\ (is_valid_title final_title = true \/ final_title = source_label url)
  /\ (is_valid_title final_title = true -> final_title <> source_label url).
Proof.
  cbv zeta.
  assert (forall t, or_source_label url t <> ""
                    /\ (is_valid_title (or_source_label url t) = true
                        \/ or_source_label url t = source_label url)) as Hor.
  { intros t. destruct (is_valid_title t) eqn:E.
    - rewrite or_source_label_valid by exact E. split; [|now left].
      intros ->. discriminate E.
    - rewrite or_source_label_invalid by exact E.
      split; [apply source_label_not_empty|now right]. }
  assert (resolve_title rss_title extracted text url <> ""
          /\ (is_valid_title (resolve_title rss_title extracted text url) = true
              \/ resolve_title rss_title extracted text url = source_label url))
    as [Hne Hcases].
  { rewrite resolve_title_cases. cbv zeta.
    destruct (is_valid_title (Py.strip rss_title)
              && Py.truthy (clean_title (Py.strip rss_title))); [apply Hor|].
    destruct (is_valid_title (default "" extracted)
              && Py.truthy (clean_title (default "" extracted))); [apply Hor|].
    destruct (is_valid_title (default "" (extract_title_from_content text)))
      eqn:E3; [|apply Hor].
    split; [|now left]. intros H. rewrite H in E3. discriminate E3. }
  split; [exact Hne|]. split; [exact Hcases|].
  intros Hv Heq. rewrite Heq, source_label_invalid in Hv. discriminate Hv.
Qed.

Lemma final_title_valid_or_label_witness :
  resolve_title "Breaking: X raises funds" None "" "http://a.test/1"
  <> source_label "http://a.test/1".
Proof.
  apply (final_title_valid_or_label "Breaking: X raises funds" None ""
           "http://a.test/1").
  vm_compute. reflexivity.
Defined.

(** ** Invariants of the documents *)

Lemma label_and_score_label (result : option (string * Q)) :
  fst (label_and_score result) <> "".
Proof.
  destruct result as [[label score]|]; cbn; [|discriminate].
  destruct label; cbn; discriminate.
Qed.

Lemma create_entity_some schema raw e :
  create_entity schema raw = Some e ->
  ent_name e <> ""
  /\ Py.strip (ent_name e) = ent_name e
  /\ entity_ok schema e = true.
Proof.
  unfold create_entity.
  destruct (raw_name raw) as [[|name|q]|]; try discriminate.
  destruct (Py.truthy (Py.strip name)) eqn:Ht; cbn [negb]; [|discriminate].
  intros H.
  assert (exists score,
             e = {| ent_name := Py.strip name;
                    ent_type := get_default (raw_type raw) "misc";
                    ent_sentiment := get_default (raw_sentiment raw) "neutral";
                    ent_bias := get_field (raw_bias raw);
                    ent_score := score |}
             /\ entity_ok schema e = true) as (score & -> & Hok).
  { destruct (raw_score raw) as [[|q|]|]; try discriminate H;
      match type of H with
      | (if ?b then _ else _) = _ => destruct b eqn:Hb; [|discriminate H]
      end;
      injection H as <-; eexists; split; try reflexivity; exact Hb. }
  cbn [ent_name]. split; [|split; [apply strip_idempotent|exact Hok]].
  intros Hempty. rewrite Hempty in Ht. discriminate Ht.
Qed.

(** X5. Every document that [process_single_article] returns is filed
    under the identifier of its own URL, which is the link of the item;
    its title, language and the labels of bias and sentiment are not
    empty; it carries a translation only when its language is not
    ["en"], and never an empty one; its entities have trimmed, non-empty
    names that the schema accepted, as it accepted the document. *)
Theorem document_invariants web an schema entry w a w' evs :
  process_single_article web an schema entry w = (Ok (Some a), w', evs) ->
  let doc := act_source a in
  act_id a = generate_id (doc_url doc)
  /\ item_link entry = Some (doc_url doc)
  /\ doc_source_name doc = item_source entry
  /\ doc_title doc <> ""
  /\ doc_language doc <> ""
  /\ (doc_language doc = "en" -> doc_translated_text doc = None)
  /\ (forall t, doc_translated_text doc = Some t -> t <> "")
  /\ doc_bias_overall doc <> ""
  /\ doc_sentiment_overall doc <> ""
  /\ (forall e, In e (doc_entities doc) ->
        ent_name e <> "" /\ Py.strip (ent_name e) = ent_name e
        /\ entity_ok schema e = true)
  /\ article_ok schema doc = true.
Proof.
  intros H.
  apply process_single_article_some in H
    as (url & raw & evs_d & Hlink & _ & _ & _ & Hok & -> & _ & _).
  cbv zeta. cbn [act_id act_source].
  unfold document_of; cbn [doc_url doc_source_name doc_title doc_language
    doc_translated_text doc_bias_overall doc_sentiment_overall doc_entities].
  split; [reflexivity|]. split; [exact Hlink|]. split; [reflexivity|].
  split; [apply resolve_title_not_empty|].
  split; [|split; [|split; [|split; [|split; [|split]]]]].
  - unfold language_of.
    destruct (safe_value (detect_language an) _) as [l|]; [|discriminate].
    destruct l; cbn; discriminate.
  - intros Hen. unfold translation_of. now rewrite Hen.
  - intros t. unfold translation_of.
    destruct (String.eqb _ "en"); [discriminate|].
    destruct (safe_value (translate_to_english an) _) as [t'|]; [|discriminate].
    destruct (Py.truthy t') eqn:Ht; [|discriminate].
    intros [= <-] ->. discriminate Ht.
  - apply label_and_score_label.
  - apply label_and_score_label.
  - intros e Hin.
    destruct (safe_value (an_extract_entities an) _) as [data|];
      cbn [validate_and_create_entities] in Hin; [|destruct Hin].
    apply list_elem_of_In, list_elem_of_omap in Hin as (raw' & _ & Hc).
    now apply create_entity_some in Hc.
  - exact Hok.
Qed.

Lemma document_invariants_witness :
  match process_single_article Sample.web Sample.failing_analyzers
          Sample.schema Sample.entry Sample.empty_world with
  | (Ok (Some a), _, _) => doc_title (act_source a) <> ""
  | _ => False
  end.
Proof.
  destruct (process_single_article Sample.web Sample.failing_analyzers
              Sample.schema Sample.entry Sample.empty_world)
    as [[[[a|]|exn] w'] evs] eqn:E; try (vm_compute in E; discriminate E).
  exact (proj1 (proj2 (proj2 (proj2
    (document_invariants _ _ _ _ _ _ _ _ E))))).
Defined.

(** ** The feeds of a cycle *)

Lemma fetch_feed_entries_loop web limit feeds (acc : list FeedItem) w :
  for_each feeds
    (fun items feed_url =>
       let* _ := emit (EvFeed feed_url) in
       match feedparser_parse web feed_url with
       | Ok feed =>
           ret (items ++ map (feed_item feed_url feed)
                             (slice_upto limit (feed_entries feed)))%list
       | Raise _ => ret items
       end) acc w
  = (Ok (acc ++ flat_map (feed_items web limit) feeds)%list, w,
     map EvFeed feeds).
Proof.
  revert acc. induction feeds as [|feed_url feeds IH]; intros acc.
  - cbn. now rewrite app_nil_r.
  - cbn [for_each flat_map map]. unfold bind at 1. unfold bind at 1.
    unfold emit at 1. unfold feed_items at 1.
    destruct (feedparser_parse web feed_url) as [feed|exn]; unfold ret at 1;
      rewrite IH; cbn [app]; [now rewrite app_assoc|reflexivity].
Qed.

Lemma length_flat_map_le {A B} (f : A -> list B) (n : nat) (l : list A) :
  (forall x, List.length (f x) <= n)%nat ->
  (List.length (flat_map f l) <= List.length l * n)%nat.
Proof.
  intros Hf. induction l as [|x l IH]; cbn; [lia|].
  rewrite length_app. specialize (Hf x). lia.
Qed.

Lemma length_slice_upto {A} (n : Z) (l : list A) :
  Z.of_nat (List.length (slice_upto n l))
  = if 0 <=? n then Z.min n (Z.of_nat (List.length l))
    else Z.max 0 (Z.of_nat (List.length l) + n).
Proof.
  unfold slice_upto.
  destruct (Z.leb_spec 0 n); rewrite length_firstn; lia.
Qed.

Lemma length_feed_items web limit feed_url :
  0 <= limit ->
  (List.length (feed_items web limit feed_url) <= Z.to_nat limit)%nat.
Proof.
  intros Hpos. unfold feed_items.
  destruct (feedparser_parse web feed_url) as [feed|exn];
    cbn [List.length]; [|lia].
  rewrite length_map.
  pose proof (length_slice_upto limit (feed_entries feed)) as H.
  rewrite (proj2 (Z.leb_le 0 limit) Hpos) in H. lia.
Qed.

Lemma has_title_not_empty (t : option string) :
  has_title t = true -> default "" t <> "".
Proof.
  destruct t as [t|]; cbn; [|discriminate].
  destruct t; cbn; [discriminate|]. intros _. discriminate.
Qed.

(** X6. [fetch_feed_entries] never raises and asks every feed of
    [RSS_FEEDS] once, in order, whichever of them fail: a feed that cannot
    be parsed contributes no item and the others contribute the slice
    [entries[:limit_per_feed]], that is their first [limit_per_feed]
    entries and, for a negative limit, all but their last
    [-limit_per_feed].  For a limit that is not negative there are at most
    19 times [limit_per_feed] items.  Every item has a trimmed title and
    a source that is not empty. *)
Theorem fetch_feed_entries_all_feeds web limit_per_feed w :
  let items := flat_map (feed_items web limit_per_feed) RSS_FEEDS in
  fetch_feed_entries web limit_per_feed w = (Ok items, w, map EvFeed RSS_FEEDS)
  /\ (forall feed_url,
        Z.of_nat (List.length (feed_items web limit_per_feed feed_url))
        = match feedparser_parse web feed_url with
          | Ok feed =>
              let n := Z.of_nat (List.length (feed_entries feed)) in
              if 0 <=? limit_per_feed then Z.min limit_per_feed n
              else Z.max 0 (n + limit_per_feed)
          | Raise _ => 0
          end)
  /\ (0 <= limit_per_feed ->
      Z.of_nat (List.length items) <= 19 * limit_per_feed)
  /\ forall item, In item items ->
       Py.strip (item_title item) = item_title item
       /\ item_source item <> "".
Proof.
  cbv zeta. split; [apply (fetch_feed_entries_loop web limit_per_feed RSS_FEEDS [])|].
  split; [|split].
  - intros feed_url. unfold feed_items.
    destruct (feedparser_parse web feed_url) as [feed|exn]; [|reflexivity].
    cbv zeta. rewrite length_map. apply length_slice_upto.
  - intros Hpos.
    pose proof (length_flat_map_le (feed_items web limit_per_feed)
                  (Z.to_nat limit_per_feed) RSS_FEEDS
                  (fun feed_url =>
                     length_feed_items web limit_per_feed feed_url Hpos)) as H.
    change (List.length RSS_FEEDS) with 19%nat in H. lia.
  - intros item Hin. apply in_flat_map in Hin as (feed_url & Hfeed & Hin).
    unfold feed_items in Hin.
    destruct (feedparser_parse web feed_url) as [feed|exn]; [|destruct Hin].
    apply in_map_iff in Hin as (entry & <- & _).
    cbn [feed_item item_title item_source]. split; [apply strip_idempotent|].
    destruct (has_title (feed_title feed)) eqn:Ht;
      [now apply has_title_not_empty|].
    intros ->. revert Hfeed. clear. unfold RSS_FEEDS. cbn [In].
    intuition discriminate.
Qed.

Lemma fetch_feed_entries_all_feeds_witness :
  Z.of_nat (List.length (flat_map (feed_items Sample.feed_web 1) RSS_FEEDS))
  <= 19 * 1.
Proof.
  apply (proj1 (proj2 (proj2 (fetch_feed_entries_all_feeds Sample.feed_web 1
                                Sample.empty_world)))).
  lia.
Defined.

(** With a negative limit every feed loses its last entries only: the
    two entries of the sample feed and a limit of -1 give one item. *)
Example negative_limit_keeps_all_but_the_last :
  map item_title (flat_map (feed_items Sample.feed_web (-1)) RSS_FEEDS)
  = ["Breaking: X raises funds"].
Proof. vm_compute. reflexivity. Qed.

(** ** The workers of a cycle *)

Lemma run_workers_omap web an schema entries w :
  exists evs,
    run_workers web an schema entries w
    = (Ok (omap (document_for web an schema w) entries), w, evs).
Proof.
  unfold run_workers.
  set (body := fun (docs_to_index : list Action) entry =>
         let* result :=
           try_except (process_single_article web an schema entry)
                      (fun _ => ret None) in
         match result with
         | Some doc => ret (docs_to_index ++ [doc])%list
         | None => ret docs_to_index
         end).
  assert (forall acc, exists evs,
             for_each entries body acc w
             = (Ok (acc ++ omap (document_for web an schema w) entries)%list,
                w, evs)) as H; [|exact (H [])].
  induction entries as [|entry entries IH]; intros acc.
  - exists []. cbn. now rewrite app_nil_r.
  - destruct (process_single_article_world web an schema entry w)
      as (r & evs1 & Hp).
    change (for_each (entry :: entries) body acc w)
      with (bind (body acc entry) (for_each entries body) w).
    cbn [omap list_omap]. unfold document_for at 1. rewrite Hp.
    unfold bind at 1. unfold body at 1. unfold bind, try_except. rewrite Hp.
    destruct r as [[a|]|exn]; unfold ret.
    + destruct (IH (acc ++ [a])%list) as (evs & ->).
      eexists. now rewrite <- app_assoc.
    + destruct (IH acc) as (evs & ->). eexists. reflexivity.
    + destruct (IH acc) as (evs & ->). eexists. reflexivity.
Qed.

Lemma length_omap_le {A B} (f : A -> option B) (l : list A) :
  (List.length (omap f l) <= List.length l)%nat.
Proof.
  induction l as [|x l IH]; cbn; [lia|]. destruct (f x); cbn; lia.
Qed.

Lemma document_for_some web an schema w entry a :
  document_for web an schema w entry = Some a ->
  exists evs, process_single_article web an schema entry w = (Ok (Some a), w, evs).
Proof.
  unfold document_for.
  destruct (process_single_article_world web an schema entry w)
    as (r & evs & Hp). rewrite Hp.
  destruct r as [[a'|]|exn]; try discriminate. intros [= ->]. eauto.
Qed.

(** ** The store after a batch *)

Lemma written_app (docs1 docs2 : list Action) (store : gmap string ArticleDoc) :
  written (docs1 ++ docs2) store = written docs2 (written docs1 store).
Proof. unfold written. apply fold_left_app. Qed.

Lemma written_last (docs : list Action) (store : gmap string ArticleDoc)
  (id : string) :
  written docs store !! id
  = match last_action docs id with
    | Some a => Some (act_source a)
    | None => store !! id
    end.
Proof.
  unfold last_action.
  induction docs as [|a docs IH] using rev_ind; [reflexivity|].
  rewrite written_app, rev_app_distr. cbn [rev app written fold_left find].
  destruct (String.eqb_spec (act_id a) id) as [<-|Hne].
  - apply lookup_insert_eq.
  - rewrite lookup_insert_ne by exact Hne. exact IH.
Qed.

Lemma last_action_in (docs : list Action) (id : string) (a : Action) :
  last_action docs id = Some a -> In a docs /\ act_id a = id.
Proof.
  unfold last_action. intros H. apply find_some in H as [Hin Heq].
  apply in_rev in Hin. apply String.eqb_eq in Heq. auto.
Qed.

(** ** Computations that do not look at the world *)

Lemma ignores_ret {A} (a : A) : ignores_world (ret a).
Proof. intros w1 w2. split; reflexivity. Qed.

Lemma ignores_lift {A} (r : Res A) : ignores_world (lift r).
Proof. intros w1 w2. split; reflexivity. Qed.

Lemma ignores_emit (e : Event) : ignores_world (emit e).
Proof. intros w1 w2. split; reflexivity. Qed.

Lemma ignores_bind {A B} (m : M A) (k : A -> M B) :
  ignores_world m -> (forall a, ignores_world (k a)) -> ignores_world (bind m k).
Proof.
  intros Hm Hk w1 w2. unfold bind. destruct (Hm w1 w2) as [Hr He].
  destruct (m w1) as [[r1 u1] evs1], (m w2) as [[r2 u2] evs2].
  cbn in Hr, He. subst r2 evs2.
  destruct r1 as [a|exn]; [|split; reflexivity].
  destruct (Hk a u1 u2) as [Hr' He'].
  destruct (k a u1) as [[r1' u1'] evs1'], (k a u2) as [[r2' u2'] evs2'].
  cbn in Hr', He'. subst r2' evs2'. split; reflexivity.
Qed.

Lemma ignores_try_except {A} (m : M A) (h : string -> M A) :
  ignores_world m -> (forall exn, ignores_world (h exn)) ->
  ignores_world (try_except m h).
Proof.
  intros Hm Hh w1 w2. unfold try_except. destruct (Hm w1 w2) as [Hr He].
  destruct (m w1) as [[r1 u1] evs1], (m w2) as [[r2 u2] evs2].
  cbn in Hr, He. subst r2 evs2.
  destruct r1 as [a|exn]; [split; reflexivity|].
  destruct (Hh exn u1 u2) as [Hr' He'].
  destruct (h exn u1) as [[r1' u1'] evs1'], (h exn u2) as [[r2' u2'] evs2'].
  cbn in Hr', He'. subst r2' evs2'. split; reflexivity.
Qed.

Create HintDb ignores discriminated.
#[export] Hint Resolve ignores_ret ignores_lift ignores_emit : ignores.

Ltac ignores_step :=
  match goal with
  | |- ignores_world (bind _ _) => apply ignores_bind; [|intros]
  | |- ignores_world (try_except _ _) => apply ignores_try_except; [|intros]
  | |- ignores_world (match ?x with _ => _ end) => destruct x
  | |- ignores_world (let '(_, _) := ?x in _) => destruct x
  | |- ignores_world _ => solve [auto with ignores]
  end.

Ltac ignores := repeat ignores_step.

(** What [download_article] returns for a URL depends on the web alone. *)
Lemma ignores_download_article (web : Web) (url : string) :
  ignores_world (download_article web url).
Proof. unfold download_article, primary_extraction, secondary_extraction. ignores. Qed.

Lemma download_article_any_world web url w1 w2 r evs :
  download_article web url w1 = (r, w1, evs) ->
  download_article web url w2 = (r, w2, evs).
Proof.
  intros H. destruct (ignores_download_article web url w1 w2) as [Hr He].
  pose proof (keeps_download_article web url w2) as Hk.
  rewrite H in Hr, He. cbn in Hr, He.
  destruct (download_article web url w2) as [[r2 u2] evs2].
  cbn in Hr, He, Hk. now subst.
Qed.

(** ** The counts of a cycle *)

Lemma written_keeps (docs : list Action) (store : gmap string ArticleDoc) :
  (forall a, In a docs -> store !! act_id a = None) ->
  forall id d, store !! id = Some d -> written docs store !! id = Some d.
Proof.
  intros Hnew id d Hd. rewrite written_last.
  destruct (last_action docs id) as [a|] eqn:E; [|exact Hd].
  apply last_action_in in E as [Hin <-].
  rewrite (Hnew a Hin) in Hd. discriminate Hd.
Qed.

Lemma size_written (docs : list Action) (store : gmap string ArticleDoc) :
  (size (written docs store) <= size store + List.length docs)%nat.
Proof.
  revert store. induction docs as [|a docs IH]; intros store; cbn; [lia|].
  specialize (IH (<[act_id a := act_source a]> store)).
  unfold written in IH. rewrite map_size_insert in IH.
  destruct (store !! act_id a); cbn in IH; lia.
Qed.

Lemma in_omap {A B} (f : A -> option B) (l : list A) (b : B) :
  In b (omap f l) <-> exists a, In a l /\ f a = Some b.
Proof.
  rewrite <- list_elem_of_In, list_elem_of_omap.
  split; intros (a & Hin & Hf); exists a; split; try exact Hf;
    now apply list_elem_of_In.
Qed.

Lemma omap_none {A B} (f : A -> option B) (l : list A) :
  (forall a, In a l -> f a = None) -> omap f l = [].
Proof.
  induction l as [|x l IH]; intros H; cbn; [reflexivity|].
  rewrite (H x) by now left. apply IH. intros a Ha. apply H. now right.
Qed.

(** A cycle while the store is up, in closed form. *)
Lemma ingest_from_feeds_closed web an schema limit w :
  es_up w = true ->
  let entries := flat_map (feed_items web limit) RSS_FEEDS in
  let docs := omap (document_for web an schema w) entries in
  exists w' evs,
    ingest_from_feeds web an schema limit w
    = (Ok (Z.of_nat (List.length entries), Z.of_nat (List.length docs)), w', evs)
    /\ es_up w' = true /\ users w' = users w /\ now w' = now w
    /\ articles w' = written docs (articles w)
    /\ (docs = [] -> w' = w).
Proof.
  intros Hup entries docs.
  destruct (run_workers_omap web an schema entries w) as (evs_w & Hw).
  unfold ingest_from_feeds, bind. rewrite get_es_up by exact Hup.
  unfold fetch_feed_entries.
  rewrite (fetch_feed_entries_loop web limit RSS_FEEDS []).
  cbn [app]. fold entries. rewrite Hw. fold docs.
  destruct docs as [|a docs'] eqn:Hdocs.
  - unfold ret. eexists _, _. split; [reflexivity|].
    repeat split; try reflexivity; exact Hup.
  - rewrite bulk_run by exact Hup. unfold ret.
    eexists _, _. split; [reflexivity|]. cbn [es_up users now articles].
    repeat split; try reflexivity; try exact Hup. discriminate.
Qed.

(** X7. A cycle of ingestion while the store is up: the count of new
    documents is at most the count of fetched items, which for a limit
    that is not negative is at most 19 times the limit.  The cycle only
    adds to the store: every document that was there is still there,
    unchanged, at most [new_indexed] identifiers are added, and users and
    clock are untouched.  With no new document the world is left as it
    was. *)
Theorem ingest_only_adds web an schema limit_per_feed w :
  es_up w = true ->
  exists total_fetched new_indexed w' evs,
    ingest_from_feeds web an schema limit_per_feed w
    = (Ok (total_fetched, new_indexed), w', evs)
    /\ 0 <= new_indexed <= total_fetched
    /\ (0 <= limit_per_feed -> total_fetched <= 19 * limit_per_feed)
    /\ es_up w' = true /\ users w' = users w /\ now w' = now w
    /\ (forall id d, articles w !! id = Some d -> articles w' !! id = Some d)
    /\ (size (articles w') <= size (articles w) + Z.to_nat new_indexed)%nat
    /\ (new_indexed = 0 -> w' = w).
Proof.
  intros Hup.
  destruct (ingest_from_feeds_closed web an schema limit_per_feed w Hup)
    as (w' & evs & Hrun & Hup' & Hus & Hnow & Hart & Hnil).
  set (entries := flat_map (feed_items web limit_per_feed) RSS_FEEDS) in *.
  set (docs := omap (document_for web an schema w) entries) in *.
  exists (Z.of_nat (List.length entries)), (Z.of_nat (List.length docs)), w', evs.
  split; [exact Hrun|].
  pose proof (length_omap_le (document_for web an schema w) entries) as Hle.
  fold docs in Hle.
  split; [lia|]. split.
  { intros Hpos.
    pose proof (length_flat_map_le (feed_items web limit_per_feed)
                  (Z.to_nat limit_per_feed) RSS_FEEDS
                  (fun feed_url =>
                     length_feed_items web limit_per_feed feed_url Hpos))
      as Hfeeds.
    fold entries in Hfeeds.
    change (List.length RSS_FEEDS) with 19%nat in Hfeeds. lia. }
  split; [exact Hup'|]. split; [exact Hus|]. split; [exact Hnow|].
  split; [|split].
  - rewrite Hart. apply written_keeps. intros a Hin.
    apply in_omap in Hin as (entry & _ & Hdoc).
    apply document_for_some in Hdoc as (evs' & Hp).
    apply process_single_article_some in Hp
      as (url & raw & evs_d & _ & _ & Hnone & _ & _ & -> & _).
    exact Hnone.
  - rewrite Hart, Nat2Z.id. apply size_written.
  - intros H0. apply Hnil. destruct docs; [reflexivity|]. cbn in H0. lia.
Qed.

Lemma ingest_only_adds_witness :
  exists total_fetched new_indexed w' evs,
    ingest_from_feeds Sample.feed_web Sample.failing_analyzers Sample.schema
      20 Sample.empty_world
    = (Ok (total_fetched, new_indexed), w', evs)
    /\ 0 <= new_indexed <= total_fetched
    /\ total_fetched <= 19 * 20.
Proof.
  destruct (ingest_only_adds Sample.feed_web Sample.failing_analyzers
              Sample.schema 20 Sample.empty_world eq_refl)
    as (total & new & w' & evs & Hrun & Hcount & Hbound & _).
  exists total, new, w', evs. split; [exact Hrun|].
  split; [exact Hcount|]. apply Hbound. lia.
Defined.

(** X8. Ingestion is idempotent: after a cycle that returned, a second
    cycle over the same web fetches the same number of items, finds no new
    document, writes nothing and leaves the world as the first cycle left
    it. *)
Theorem second_cycle_indexes_nothing web an schema limit_per_feed w
  total_fetched new_indexed w' evs :
  ingest_from_feeds web an schema limit_per_feed w
  = (Ok (total_fetched, new_indexed), w', evs) ->
  exists evs',
    ingest_from_feeds web an schema limit_per_feed w'
    = (Ok (total_fetched, 0), w', evs').
Proof.
  intros H.
  destruct (es_up w) eqn:Hup.
  2:{ unfold ingest_from_feeds, bind in H.
      rewrite get_es_down in H by exact Hup. discriminate H. }
  destruct (ingest_from_feeds_closed web an schema limit_per_feed w Hup)
    as (w1 & evs1 & Hrun & Hup' & _ & _ & Hart & _).
  rewrite Hrun in H. injection H as <- _ <- _.
  set (entries := flat_map (feed_items web limit_per_feed) RSS_FEEDS) in *.
  set (docs := omap (document_for web an schema w) entries) in *.
  assert (omap (document_for web an schema w1) entries = []) as Hnone.
  { apply omap_none. intros entry Hentry.
    destruct (document_for web an schema w1 entry) as [a|] eqn:Hdoc;
      [exfalso|reflexivity].
    apply document_for_some in Hdoc as (evs' & Hp).
    apply process_single_article_some in Hp
      as (url & raw & evs_d & Hlink & _ & Hnew & Hd & Hok & -> & _).
    assert (articles w !! generate_id url = None) as Hold.
    { destruct (articles w !! generate_id url) as [d|] eqn:E; [|reflexivity].
      assert (is_Some (articles w1 !! generate_id url)) as [d' Hd'].
      { rewrite Hart. apply written_lookup. left. rewrite E. eauto. }
      rewrite Hd' in Hnew. discriminate Hnew. }
    apply (download_article_any_world _ _ _ w) in Hd.
    assert (In {| act_id := generate_id url;
                  act_source := document_of web an schema entry url raw |} docs)
      as Hin.
    { apply in_omap. exists entry. split; [exact Hentry|].
      unfold document_for.
      rewrite (process_single_article_run _ _ _ _ url) by assumption.
      rewrite bool_decide_eq_false_2
        by (rewrite Hold; intros [? [=]]).
      rewrite Hd, Hok. reflexivity. }
    assert (is_Some (articles w1 !! generate_id url)) as [d' Hd'].
    { rewrite Hart. apply written_lookup. right. eexists. split; [exact Hin|].
      reflexivity. }
    rewrite Hd' in Hnew. discriminate Hnew. }
  destruct (run_workers_omap web an schema entries w1) as (evs_w & Hw).
  rewrite Hnone in Hw.
  unfold ingest_from_feeds, bind. rewrite get_es_up by exact Hup'.
  unfold fetch_feed_entries.
  rewrite (fetch_feed_entries_loop web limit_per_feed RSS_FEEDS []).
  cbn [app]. fold entries. rewrite Hw. unfold ret.
  eexists. reflexivity.
Qed.

Lemma second_cycle_indexes_nothing_witness :
  exists evs',
    ingest_from_feeds Sample.feed_web Sample.failing_analyzers Sample.schema
      20 (snd (fst (ingest_from_feeds Sample.feed_web Sample.failing_analyzers
                      Sample.schema 20 Sample.empty_world)))
    = (Ok (2, 0),
       snd (fst (ingest_from_feeds Sample.feed_web Sample.failing_analyzers
                   Sample.schema 20 Sample.empty_world)),
       evs').
Proof.
  destruct (ingest_from_feeds Sample.feed_web Sample.failing_analyzers
              Sample.schema 20 Sample.empty_world) as [[r w'] evs] eqn:E.
  assert (r = Ok (2, 2)) as ->.
  { vm_compute in E. now injection E as <- _ _. }
  exact (second_cycle_indexes_nothing _ _ _ _ _ _ _ _ _ E).
Defined.

(** X9. When the store cannot be reached the cycle stops at its first
    step with a [RuntimeError]: no feed is asked and nothing is written.
    A worker started in that state raises the same error after its ping,
    without fetching its page, and the pool swallows it: the batch is
    empty. *)
Theorem store_down_stops_the_cycle web an schema w :
  es_up w = false ->
  (forall limit_per_feed,
     ingest_from_feeds web an schema limit_per_feed w
     = (Raise "RuntimeError", w, [EvPing]))
  /\ (forall entry,
        process_single_article web an schema entry w
        = (Raise "RuntimeError", w, [EvPing]))
  /\ (forall feed_entries,
        run_workers web an schema feed_entries w
        = (Ok [], w, map (fun _ => EvPing) feed_entries)).
Proof.
  intros Hdown.
  assert (forall entry,
             process_single_article web an schema entry w
             = (Raise "RuntimeError", w, [EvPing])) as Hp.
  { intros entry. unfold process_single_article, bind.
    now rewrite get_es_down by exact Hdown. }
  split; [|split; [exact Hp|]].
  - intros limit. unfold ingest_from_feeds, bind.
    now rewrite get_es_down by exact Hdown.
  - intros feed_entries. unfold run_workers.
    generalize (@nil Action) as acc.
    induction feed_entries as [|entry rest IH]; intros acc; [reflexivity|].
    cbn [for_each map]. unfold bind at 1. unfold bind at 1.
    unfold try_except. rewrite Hp. unfold ret at 1. unfold ret at 1.
    rewrite IH. reflexivity.
Qed.

Lemma store_down_stops_the_cycle_witness :
  ingest_from_feeds Sample.feed_web Sample.failing_analyzers Sample.schema 20
    Sample.down_world
  = (Raise "RuntimeError", Sample.down_world, [EvPing]).
Proof.
  apply (store_down_stops_the_cycle Sample.feed_web Sample.failing_analyzers
           Sample.schema Sample.down_world eq_refl).
Defined.

(** ** Titles from the page *)

Lemma first_valid_text_find (texts : list string) :
  first_valid_text texts = option_map clean_title (find usable_title texts).
Proof.
  induction texts as [|t texts IH]; [reflexivity|].
  cbn [first_valid_text find]. unfold usable_title at 1.
  destruct (Py.truthy t && is_valid_title t); [reflexivity|exact IH].
Qed.

Lemma find_app {A} (p : A -> bool) (a b : list A) :
  find p (a ++ b) = match find p a with
                    | Some x => Some x
                    | None => find p b
                    end.
Proof.
  induction a as [|x a IH]; [reflexivity|].
  cbn. destruct (p x); [reflexivity|exact IH].
Qed.

Lemma first_selector_title_find (selected : list (Res (list string))) :
  first_selector_title selected
  = option_map clean_title (find usable_title (html_candidates selected)).
Proof.
  induction selected as [|[elements|exn] selected IH]; [reflexivity| |exact IH].
  cbn [first_selector_title html_candidates flat_map].
  fold (html_candidates selected).
  rewrite find_app, first_valid_text_find.
  destruct (find usable_title (firstn 3 elements)); [reflexivity|exact IH].
Qed.

(** X10. [extract_title_from_html] gives nothing without the parser, for
    an empty page and when parsing raises.  Otherwise it looks at the
    first three elements of every selector, in the order of the
    selectors, passing over a selector that raises, and returns the
    cleaned form of the first text that is not empty and is a valid
    title; the URL plays no part. *)
Theorem extract_title_from_html_first_usable web downloaded_html url :
  (soup web = None -> extract_title_from_html web downloaded_html url = None)
  /\ extract_title_from_html web "" url = None
  /\ (forall parse,
        soup web = Some parse ->
        downloaded_html <> "" ->
        (raises parse downloaded_html ->
         extract_title_from_html web downloaded_html url = None)
        /\ forall selected,
             parse downloaded_html = Ok selected ->
             extract_title_from_html web downloaded_html url
             = option_map clean_title
                 (find usable_title (html_candidates selected))
             /\ forall title,
                  extract_title_from_html web downloaded_html url = Some title ->
                  exists candidate,
                    In candidate (html_candidates selected)
                    /\ is_valid_title candidate = true
                    /\ title = clean_title candidate).
Proof.
  unfold extract_title_from_html. split; [now intros ->|]. split.
  { now destruct (soup web). }
  intros parse -> Hne.
  assert (Py.truthy downloaded_html = true) as ->.
  { destruct downloaded_html; [now destruct Hne|reflexivity]. }
  cbn [negb]. split.
  - now intros [exn ->].
  - intros selected ->. rewrite first_selector_title_find.
    split; [reflexivity|].
    intros title Ht.
    destruct (find usable_title (html_candidates selected)) as [c|] eqn:E;
      [|discriminate Ht].
    injection Ht as <-. apply find_some in E as [Hin Hok].
    apply andb_true_iff in Hok as [_ Hv]. eauto.
Qed.

Lemma extract_title_from_html_first_usable_witness :
  extract_title_from_html Sample.soup_web "<html>page</html>" "http://a.test/1"
  = option_map clean_title
      (find usable_title
         (html_candidates [Raise "ValueError";
                           Ok ["Home"; "Frogs of the cloud forest | A Test"]])).
Proof.
  refine (proj1 (proj2 (proj2 (proj2
    (extract_title_from_html_first_usable Sample.soup_web
       "<html>page</html>" "http://a.test/1"))
    _ eq_refl _) _ eq_refl)).
  discriminate.
Defined.

(** ** Entities: normal forms and composition *)

Lemma truthy_len (s : string) : 1 <= Py.len s -> Py.truthy s = true.
Proof. destruct s; [change (Py.len "") with 0; lia|reflexivity]. Qed.

Lemma validate_entity_normal (raw : RawEntity) (v : ValidEntity) :
  validate_entity raw = Some v -> normal_entity v.
Proof.
  intros H. apply validate_entity_some in H
    as (name & _ & _ & Hs & Hl & Hd & Hp & Ht & Hsent & _).
  unfold normal_entity. repeat split; try assumption.
  - rewrite Hs. apply strip_idempotent.
  - rewrite Ht. destruct (raw_type raw) as [[t|]|]; cbn [str_lower];
      apply lower_idempotent.
Qed.

Lemma validate_entity_dict (v : ValidEntity) :
  normal_entity v -> validate_entity (entity_dict v) = Some v.
Proof.
  intros (Hs & Hl & Hd & Hp & Ht & Hsent).
  unfold validate_entity. cbn [entity_dict raw_name raw_score raw_type
    raw_sentiment raw_bias str_lower get_field].
  rewrite Hs, (truthy_len (ve_name v)) by lia. cbn [negb orb].
  rewrite (proj2 (Z.ltb_ge _ _)) by lia. rewrite Hd, Hp. cbn [orb].
  rewrite Ht.
  assert (Py.lower (ve_sentiment v) = ve_sentiment v) as ->.
  { destruct Hsent as [<-|[<-|[<-|[]]]]; reflexivity. }
  assert (existsb (String.eqb (ve_sentiment v)) sentiments = true) as ->.
  { apply existsb_exists. exists (ve_sentiment v).
    split; [exact Hsent|apply String.eqb_refl]. }
  destruct v; reflexivity.
Qed.

Lemma omap_validate_dicts (l : list ValidEntity) :
  (forall v, In v l -> normal_entity v) ->
  omap validate_entity (map entity_dict l) = l.
Proof.
  induction l as [|v l IH]; intros H; [reflexivity|].
  cbn [map omap list_omap]. rewrite validate_entity_dict by (apply H; now left).
  f_equal. apply IH. intros x Hx. apply H. now right.
Qed.

Lemma first_seen_distinct (l : list ValidEntity) :
  List.NoDup (map name_key l) -> first_seen l = l.
Proof.
  induction l as [|x l IH]; [reflexivity|].
  cbn [map first_seen]. intros Hnd. inversion Hnd as [|? ? Hnotin Hnd']; subst.
  rewrite IH by exact Hnd'. f_equal.
  clear -Hnotin. induction l as [|y l IH]; [reflexivity|].
  cbn [List.filter]. unfold differs_from at 1.
  destruct (String.eqb_spec (name_key y) (name_key x)) as [Heq|Hne].
  - exfalso. apply Hnotin. left. exact Heq.
  - cbn [negb]. f_equal. apply IH. intros Hin. apply Hnotin. now right.
Qed.

Lemma _validate_entities_normal (entities : list RawEntity) (v : ValidEntity) :
  In v (_validate_entities entities) -> normal_entity v.
Proof.
  rewrite _validate_entities_first_seen. intros Hin.
  apply first_seen_incl, in_omap in Hin as (raw & _ & Hv).
  now apply validate_entity_normal in Hv.
Qed.

(** X11. [_validate_entities] is idempotent: given its own output, it
    returns it unchanged, in the same order.  What it returns is in normal
    form: names are trimmed, types are in lower case. *)
Theorem validate_entities_idempotent (entities : list RawEntity) :
  let unique := _validate_entities entities in
  _validate_entities (map entity_dict unique) = unique
  /\ forall v, In v unique ->
       Py.strip (ve_name v) = ve_name v /\ Py.lower (ve_type v) = ve_type v.
Proof.
  cbv zeta. split.
  - rewrite (_validate_entities_first_seen (map entity_dict _)).
    rewrite omap_validate_dicts by apply _validate_entities_normal.
    apply first_seen_distinct.
    rewrite _validate_entities_first_seen. apply first_seen_keys_distinct.
  - intros v Hin. apply _validate_entities_normal in Hin.
    destruct Hin as (Hs & _ & _ & _ & Ht & _). auto.
Qed.

Lemma validate_entities_idempotent_witness :
  match _validate_entities
          [{| raw_name := Some (VStr " Apple "); raw_type := Some (Some "ORG");
              raw_sentiment := None; raw_bias := None; raw_score := None |}]
  with
  | v :: _ =>
      Py.strip (ve_name v) = ve_name v /\ Py.lower (ve_type v) = ve_type v
  | [] => False
  end.
Proof.
  destruct (_validate_entities
              [{| raw_name := Some (VStr " Apple ");
                  raw_type := Some (Some "ORG");
                  raw_sentiment := None; raw_bias := None;
                  raw_score := None |}])
    as [|v rest] eqn:E; [vm_compute in E; discriminate E|].
  apply (proj2 (validate_entities_idempotent
                  [{| raw_name := Some (VStr " Apple ");
                      raw_type := Some (Some "ORG");
                      raw_sentiment := None; raw_bias := None;
                      raw_score := None |}])).
  rewrite E. now left.
Defined.

(** X12. The entities of [extract_entities] reach the schema whole:
    [validate_and_create_entities] builds one entity from each dict, with
    the same name, type, sentiment, bias and score and in the same order,
    and keeps those that the schema accepts. *)
Theorem extracted_entities_reach_the_schema (schema : Schema)
  (models : NerModels) (text : string) :
  validate_and_create_entities schema
    (safe_value (entities_analyzer models) text)
  = List.filter (entity_ok schema) (map entity_of (extract_entities models text)).
Proof.
  unfold safe_value, entities_analyzer. cbn [validate_and_create_entities].
  assert (forall v, In v (extract_entities models text) -> normal_entity v)
    as Hnormal.
  { intros v. unfold extract_entities.
    destruct (Py.truthy text); cbn [negb]; [|intros []].
    destruct (nlp_spacy models), (ner_pipeline models);
      try apply _validate_entities_normal. intros []. }
  induction (extract_entities models text) as [|v l IH]; [reflexivity|].
  cbn [map omap list_omap List.filter].
  assert (create_entity schema (entity_dict v)
          = if entity_ok schema (entity_of v) then Some (entity_of v) else None)
    as ->.
  { destruct (Hnormal v (or_introl eq_refl)) as (Hs & Hl & _).
    unfold create_entity. cbn [entity_dict raw_name raw_score raw_type
      raw_sentiment raw_bias get_default get_field].
    rewrite Hs, (truthy_len (ve_name v)) by lia. reflexivity. }
  rewrite IH by (intros x Hx; apply Hnormal; now right).
  destruct (entity_ok schema (entity_of v)); reflexivity.
Qed.

Lemma in_spacy_entities models text raw :
  In raw (_extract_with_spacy models text) ->
  raw_sentiment raw = Some (Some "neutral") /\ raw_bias raw = Some None
  /\ raw_score raw = Some (SNum (9 # 10)).
Proof.
  unfold _extract_with_spacy.
  destruct (nlp_spacy models) as [nlp|]; [|intros []].
  destruct (nlp _) as [ents|exn]; [|intros []].
  intros Hin. apply in_omap in Hin as (ent & _ & H).
  destruct (_ && _); [|discriminate]. injection H as <-. auto.
Qed.

Lemma in_transformer_entities results raw :
  In raw (transformer_entities results) ->
  raw_sentiment raw = Some (Some "neutral") /\ raw_bias raw = Some None.
Proof.
  induction results as [|result rest IH]; [intros []|].
  cbn [transformer_entities].
  destruct (ner_word result) as [word|]; [|exact IH].
  destruct (_ && _); [|exact IH].
  destruct (ner_score result) as [[|q|]|]; cbn [In]; try contradiction;
    (intros [<-|Hin]; [auto|now apply IH]).
Qed.

Lemma validate_entity_neutral (raw : RawEntity) (v : ValidEntity) :
  validate_entity raw = Some v ->
  raw_sentiment raw = Some (Some "neutral") -> raw_bias raw = Some None ->
  ve_sentiment v = "neutral" /\ ve_bias v = None
  /\ forall q, raw_score raw = Some (SNum q) -> ve_score v = q.
Proof.
  unfold validate_entity. intros H Hsent Hbias.
  destruct (raw_name raw) as [[|name|q]|]; try discriminate.
  destruct (negb (Py.truthy name)); [discriminate|].
  destruct (_ || _); [discriminate|].
  destruct (_ || _); [discriminate|].
  rewrite Hsent, Hbias in H.
  destruct (raw_score raw) as [[|q|]|]; try discriminate;
    injection H as <-; cbn; repeat split; try reflexivity;
    intros q' [=]; congruence.
Qed.

(** X13. [extract_entities] gives nothing for an empty text or when no
    model is loaded.  Every entity it gives is neutral, has no bias and a
    name of two characters or more; with spaCy loaded its score is 0.9.
    spaCy has precedence once it is loaded: the transformers pipeline is
    not asked, not even when spaCy raises on the text, in which case
    there is no entity. *)
Theorem extract_entities_source (models : NerModels) (text : string) :
  extract_entities models "" = []
  /\ (nlp_spacy models = None -> ner_pipeline models = None ->
      extract_entities models text = [])
  /\ (forall v, In v (extract_entities models text) ->
        ve_sentiment v = "neutral" /\ ve_bias v = None
        /\ 2 <= Py.len (ve_name v)
        /\ (is_Some (nlp_spacy models) -> ve_score v = (9 # 10)%Q))
  /\ (forall nlp, nlp_spacy models = Some nlp ->
        (forall ner,
           extract_entities models text
           = extract_entities {| nlp_spacy := Some nlp; ner_pipeline := ner |}
               text)
        /\ (raises nlp (Py.take 2000 text) -> extract_entities models text = [])).
Proof.
  split; [reflexivity|]. split; [|split].
  - intros Hs Hn. unfold extract_entities. rewrite Hs, Hn.
    now destruct (negb (Py.truthy text)).
  - intros v. unfold extract_entities.
    destruct (Py.truthy text); cbn [negb]; [|intros []].
    destruct (nlp_spacy models) as [nlp|] eqn:Hs.
    + rewrite _validate_entities_first_seen. intros Hin.
      apply first_seen_incl, in_omap in Hin as (raw & Hraw & Hv).
      apply in_spacy_entities in Hraw as (Hsent & Hbias & Hscore).
      destruct (validate_entity_neutral _ _ Hv Hsent Hbias) as (H1 & H2 & H3).
      apply validate_entity_normal in Hv as (_ & Hl & _).
      repeat split; try assumption. intros _. now apply H3.
    + destruct (ner_pipeline models) as [ner|] eqn:Hn; [|intros []].
      rewrite _validate_entities_first_seen. intros Hin.
      apply first_seen_incl, in_omap in Hin as (raw & Hraw & Hv).
      unfold _extract_with_transformers in Hraw. rewrite Hn in Hraw.
      destruct (ner _) as [results|exn]; [|destruct Hraw].
      apply in_transformer_entities in Hraw as (Hsent & Hbias).
      destruct (validate_entity_neutral _ _ Hv Hsent Hbias) as (H1 & H2 & _).
      apply validate_entity_normal in Hv as (_ & Hl & _).
      repeat split; try assumption. intros [? [=]].
  - intros nlp Hs. split.
    + intros ner. unfold extract_entities, _extract_with_spacy. rewrite Hs.
      reflexivity.
    + intros [exn Hraise]. unfold extract_entities, _extract_with_spacy.
      rewrite Hs, Hraise. now destruct (negb (Py.truthy text)).
Qed.

Lemma extract_entities_source_witness :
  extract_entities
    {| nlp_spacy := Some (fun _ => Raise "ValueError");
       ner_pipeline :=
         Some (fun _ => Ok [{| ner_word := Some "Peru";
                               ner_entity_group := Some "LOC";
                               ner_score := None |}]) |}
    Sample.body
  = [].
Proof.
  exact (proj2 (proj2 (proj2 (proj2
           (extract_entities_source
              {| nlp_spacy := Some (fun _ => Raise "ValueError");
                 ner_pipeline :=
                   Some (fun _ => Ok [{| ner_word := Some "Peru";
                                         ner_entity_group := Some "LOC";
                                         ner_score := None |}]) |}
              Sample.body))) _ eq_refl)
           (ex_intro _ "ValueError" eq_refl)).
Defined.

(** X14. A score that is not a number is handled in two ways.  In the
    loop of [_extract_with_transformers] it ends the loop: the results
    before it are kept and all the results after it are lost with it.  In
    [_validate_entities] it costs only the entity that carries it. *)
Theorem bad_score_ends_transformer_loop (before after : list NerResult)
  (bad : NerResult) (word : string) :
  ner_word bad = Some word ->
  1 < Py.len (Py.strip word) ->
  ner_score bad = Some SBad \/ ner_score bad = Some SNone ->
  transformer_entities (before ++ bad :: after) = transformer_entities before
  /\ forall (entities rest : list RawEntity) (raw : RawEntity),
       raw_score raw = Some SBad ->
       _validate_entities (entities ++ raw :: rest)
       = _validate_entities (entities ++ rest).
Proof.
  intros Hword Hlen Hscore. split.
  - induction before as [|r before IH].
    + cbn [app transformer_entities]. rewrite Hword.
      assert (Py.truthy word = true) as ->.
      { destruct word; [vm_compute in Hlen; discriminate Hlen|reflexivity]. }
      rewrite (proj2 (Z.ltb_lt _ _)) by exact Hlen. cbn [andb].
      destruct Hscore as [-> | ->]; reflexivity.
    + cbn [app transformer_entities]. rewrite IH. reflexivity.
  - intros entities rest raw Hbad.
    rewrite !_validate_entities_first_seen, !omap_app.
    cbn [omap list_omap].
    assert (validate_entity raw = None) as ->; [|reflexivity].
    unfold validate_entity. rewrite Hbad.
    destruct (raw_name raw) as [[|name|q]|]; try reflexivity.
    destruct (negb (Py.truthy name)); [reflexivity|].
    destruct (_ || _); [reflexivity|].
    destruct (_ || _); reflexivity.
Qed.

Lemma bad_score_ends_transformer_loop_witness :
  transformer_entities
    ([{| ner_word := Some "Peru"; ner_entity_group := Some "LOC";
         ner_score := None |}]
     ++ {| ner_word := Some "Lima"; ner_entity_group := Some "LOC";
           ner_score := Some SBad |}
     :: [{| ner_word := Some "Andes"; ner_entity_group := Some "LOC";
            ner_score := None |}])
  = transformer_entities
      [{| ner_word := Some "Peru"; ner_entity_group := Some "LOC";
          ner_score := None |}].
Proof.
  apply (bad_score_ends_transformer_loop _ _ _ "Lima").
  - reflexivity.
  - vm_compute. reflexivity.
  - left. reflexivity.
Defined.

(** ** The patrol: who is told about what *)

Lemma emails_of_append (tm : list (string * list string)) (t e k : string) :
  emails_of (topic_map_append tm t e) k
  = if String.eqb t k then (emails_of tm k ++ [e])%list else emails_of tm k.
Proof.
  induction tm as [|[t' emails] tm IH]; cbn [topic_map_append emails_of].
  - destruct (String.eqb t k); reflexivity.
  - destruct (String.eqb_spec t' t) as [->|Hne]; cbn [emails_of].
    + destruct (String.eqb t k); reflexivity.
    + destruct (String.eqb_spec t' k) as [->|Hne'].
      * destruct (String.eqb_spec t k) as [->|_]; [contradiction|reflexivity].
      * exact IH.
Qed.

Lemma emails_of_in (tm : list (string * list string)) (t : string)
  (emails : list string) :
  List.NoDup (map fst tm) -> In (t, emails) tm -> emails_of tm t = emails.
Proof.
  induction tm as [|[t' emails'] tm IH]; [intros _ []|].
  cbn [map fst emails_of]. intros Hnd [[= -> ->]|Hin].
  - now rewrite String.eqb_refl.
  - inversion Hnd as [|? ? Hnotin Hnd']; subst.
    destruct (String.eqb_spec t' t) as [->|_]; [|now apply IH].
    exfalso. apply Hnotin. apply in_map_iff. exists (t, emails). auto.
Qed.

Lemma map_topics_emails (us : list User) (w : World)
  (tm : list (string * list string)) w' evs :
  map_topics us w = (Ok tm, w', evs) ->
  forall topic, emails_of tm topic = watchers us topic.
Proof.
  unfold map_topics.
  assert (forall tm0,
             for_each us
               (fun topic_map user =>
                  for_each (default [] (user_watchlist user))
                    (fun topic_map topic =>
                       match user_email user with
                       | Some email =>
                           ret (topic_map_append topic_map (Py.strip topic) email)
                       | None => raise "KeyError"
                       end) topic_map) tm0 w = (Ok tm, w', evs) ->
             forall topic,
               emails_of tm topic
               = (emails_of tm0 topic ++ watchers us topic)%list) as Hgen.
  { revert w evs. induction us as [|u us IH]; intros w evs tm0.
    - cbn. intros [= <- _ _] topic. now rewrite app_nil_r.
    - cbn [for_each watchers flat_map]. unfold bind at 1.
      fold (watchers us).
      assert (forall topics tm1,
                 exists r,
                   for_each topics
                     (fun topic_map topic =>
                        match user_email u with
                        | Some email =>
                            ret (topic_map_append topic_map (Py.strip topic) email)
                        | None => raise "KeyError"
                        end) tm1 w = (r, w, [])
                   /\ forall tm2, r = Ok tm2 ->
                        forall topic,
                          emails_of tm2 topic
                          = (emails_of tm1 topic
                             ++ flat_map
                                  (fun t =>
                                     if String.eqb (Py.strip t) topic
                                     then match user_email u with
                                          | Some email => [email]
                                          | None => []
                                          end
                                     else []) topics)%list) as Hinner.
      { induction topics as [|t topics IHt]; intros tm1.
        - exists (Ok tm1). split; [reflexivity|].
          intros tm2 [= <-] topic. cbn. now rewrite app_nil_r.
        - cbn [for_each flat_map]. unfold bind at 1.
          destruct (user_email u) as [email|].
          + unfold ret at 1.
            destruct (IHt (topic_map_append tm1 (Py.strip t) email))
              as (r & -> & Hr).
            exists r. split; [reflexivity|].
            intros tm2 Hok topic. rewrite (Hr tm2 Hok), emails_of_append.
            destruct (String.eqb (Py.strip t) topic); cbn [app];
              [now rewrite <- app_assoc|reflexivity].
          + exists (Raise "KeyError"). split; [reflexivity|]. intros tm2 [=]. }
      destruct (Hinner (default [] (user_watchlist u)) tm0) as (r & -> & Hr).
      destruct r as [tm1|exn]; [|discriminate].
      destruct (for_each us _ tm1 w) as [[r2 w2] evs2] eqn:Hrest.
      intros [= -> <- <-] topic.
      rewrite (IH _ _ _ Hrest), (Hr tm1 eq_refl), app_assoc. reflexivity. }
  intros H topic. now rewrite (Hgen [] H).
Qed.

Lemma map_topics_key_error (us : list User) (w : World) :
  (exists u, In u us /\ user_email u = None
             /\ default [] (user_watchlist u) <> []) ->
  map_topics us w = (Raise "KeyError", w, []).
Proof.
  unfold map_topics. generalize (@nil (string * list string)) as tm.
  induction us as [|u us IH]; intros tm (bad & Hin & Hmail & Hlist);
    [destruct Hin|].
  cbn [for_each]. unfold bind at 1.
  destruct (user_email u) as [email|] eqn:He.
  - destruct (map_topics_inner email (default [] (user_watchlist u)) tm w)
      as (tm1 & -> & _).
    destruct Hin as [->|Hin]; [congruence|].
    rewrite IH by eauto. reflexivity.
  - destruct (default [] (user_watchlist u)) as [|t topics] eqn:Hw.
    + cbn [for_each]. unfold ret at 1.
      destruct Hin as [->|Hin]; [contradiction|].
      rewrite IH by eauto. reflexivity.
    + cbn [for_each]. unfold bind at 1, raise at 1. reflexivity.
Qed.

Lemma in_reports (evs : list Event) (risk_list : list RiskRecord) :
  In (EvReport risk_list) evs <-> In risk_list (reports evs).
Proof.
  unfold reports. rewrite in_omap. split.
  - intros H. exists (EvReport risk_list). auto.
  - intros ([] & Hin & [=]). now subst.
Qed.

(** A patrol whose topic map is known, while the store answers. *)
Lemma run_patrol_run engine w us tm :
  es_up w = true ->
  users w = Some us ->
  map_topics (firstn users_size us) w = (Ok tm, w, []) ->
  exists r evs,
    run_patrol engine w = (r, w, evs)
    /\ reports evs = match omap (alert_of engine w) tm with
                     | [] => []
                     | risk_list => [risk_list]
                     end.
Proof.
  intros Hup Hus Hmap.
  unfold run_patrol. unfold bind at 1. rewrite fetch_users_run, Hup, Hus.
  unfold bind at 1. rewrite Hmap.
  destruct tm as [|p tm'].
  { exists (Ok tt), [EvUsersIndex; EvSearchUsers]. split; reflexivity. }
  set (tm := p :: tm') in *.
  unfold bind at 1. unfold analyze_risks.
  destruct (analyze_risks_loop engine tm [] w) as (ra & evs_a & -> & Hrep & Hok).
  specialize (Hok Hup). subst ra. cbn [app].
  destruct (omap (alert_of engine w) tm) as [|a risk_list] eqn:Halerts.
  - exists (Ok tt), ([EvUsersIndex; EvSearchUsers] ++ [] ++ evs_a ++ [])%list.
    split; [reflexivity|].
    now rewrite !reports_app, Hrep, reports_fetch, reports_nil.
  - destruct (generate_alert_batch_run engine (a :: risk_list) w)
      as (rg & evs_g & -> & Hg).
    exists rg, ([EvUsersIndex; EvSearchUsers] ++ [] ++ evs_a ++ evs_g)%list.
    split; [reflexivity|].
    now rewrite !reports_app, Hrep, Hg, reports_fetch, reports_nil.
Qed.

(** X15. The records of the report of a patrol, while the store answers
    and every user has an e-mail.  Each record is critical and counts
    between one and five articles, as many as it carries; its assessment
    is its top summary, which is not empty; and the users it names are
    the users who watch its topic, in the order of the user index, of
    whom there is at least one. *)
Theorem report_records engine w us risk_list :
  es_up w = true ->
  users w = Some us ->
  (forall u, In u (firstn users_size us) -> user_email u <> None) ->
  In (EvReport risk_list) (snd (run_patrol engine w)) ->
  forall r, In r risk_list ->
    is_critical r = true
    /\ 1 <= article_count r <= 5
    /\ article_count r = Z.of_nat (List.length (articles_data r))
    /\ articles_data r = map source_of (hits_of engine w (risk_topic r))
    /\ ai_assessment r = Some (top_summary r)
    /\ top_summary r <> ""
    /\ users_affected r = Some (watchers (firstn users_size us) (risk_topic r))
    /\ watchers (firstn users_size us) (risk_topic r) <> [].
Proof.
  intros Hup Hus Hmail Hev r Hr.
  destruct (map_topics_run (firstn users_size us) w) as (rm & Hmap & Hkeys & Htot).
  destruct (Htot Hmail) as (tm & ->).
  destruct (Hkeys tm eq_refl) as [Hnd Hin].
  destruct (run_patrol_run engine w us tm Hup Hus Hmap)
    as (res & evs & Hrun & Hrep).
  rewrite Hrun in Hev. cbn [snd] in Hev. apply in_reports in Hev.
  rewrite Hrep in Hev.
  assert (In r (omap (alert_of engine w) tm)) as Hin_r.
  { destruct (omap (alert_of engine w) tm); [destruct Hev|].
    destruct Hev as [<-|[]]. exact Hr. }
  apply in_omap in Hin_r as ([topic emails] & Hentry & Halert).
  unfold alert_of in Halert. cbn [fst snd] in Halert.
  destruct (is_critical (risk_record engine w topic)) eqn:Hcrit;
    [|discriminate Halert].
  injection Halert as <-.
  cbn [is_critical article_count articles_data ai_assessment top_summary
       users_affected risk_topic risk_record].
  cbn [risk_record is_critical] in Hcrit.
  rewrite length_map.
  pose proof (length_hits_of engine w topic) as Hlen.
  assert (emails = watchers (firstn users_size us) topic) as <-.
  { rewrite <- (map_topics_emails _ _ _ _ _ Hmap topic).
    symmetry. now apply emails_of_in. }
  split; [first [exact Hcrit|reflexivity]|]. apply Z.ltb_lt in Hcrit.
  split; [lia|]. split; [reflexivity|].
  split; [reflexivity|]. split; [reflexivity|]. split; [|split; [reflexivity|]].
  - destruct (map source_of (hits_of engine w topic)) as [|first rest];
      [discriminate|].
    destruct (has_title (hit_summary first)) eqn:Ht;
      [now apply has_title_not_empty|discriminate].
  - assert (In topic (watched_topics (firstn users_size us))) as Hwatched.
    { apply Hin. apply in_map_iff. exists (topic, emails). auto. }
    apply in_flat_map in Hwatched as (u & Hu & Ht).
    apply in_map_iff in Ht as (t & Hstrip & Ht).
    destruct (user_email u) as [email|] eqn:He;
      [|now destruct (Hmail u Hu)].
    assert (In email (watchers (firstn users_size us) topic)) as Hwatch.
    { apply in_flat_map. exists u. split; [exact Hu|].
      apply in_flat_map. exists t. split; [exact Ht|].
      rewrite Hstrip, String.eqb_refl, He. now left. }
    intros Hnone. revert Hwatch.
    erewrite <- map_topics_emails by exact Hmap.
    erewrite emails_of_in by eassumption.
    rewrite Hnone. intros [].
Qed.

Lemma report_records_witness :
  match reports (snd (run_patrol Sample.engine Sample.patrol_world)) with
  | [r :: _] =>
      users_affected r
      = Some (watchers (firstn users_size Sample.subscribers) (risk_topic r))
  | _ => False
  end.
Proof.
  destruct (reports (snd (run_patrol Sample.engine Sample.patrol_world)))
    as [|[|r l] [|x rest]] eqn:E; try (vm_compute in E; discriminate E).
  assert (forall u, In u (firstn users_size Sample.subscribers) ->
                    user_email u <> None) as Hmail.
  { intros u Hin. vm_compute in Hin.
    destruct Hin as [<-|[<-|[]]]; discriminate. }
  assert (In (EvReport (r :: l))
             (snd (run_patrol Sample.engine Sample.patrol_world))) as Hev.
  { apply in_reports. rewrite E. now left. }
  exact (proj1 (proj2 (proj2 (proj2 (proj2 (proj2 (proj2
    (report_records Sample.engine Sample.patrol_world Sample.subscribers
       (r :: l) eq_refl eq_refl Hmail Hev r (or_introl eq_refl))))))))).
Defined.

(** X16. The patrols that ask for no report.  When the store cannot be
    reached, when the index of the users is missing and when no user
    watches a topic, the patrol returns quietly and searches no article.
    When a user who watches a topic has no e-mail, the patrol ends with a
    [KeyError], again before any article is searched. *)
Theorem quiet_patrols engine w :
  (es_up w = false -> run_patrol engine w = (Ok tt, w, [EvUsersIndex]))
  /\ (es_up w = true -> users w = None ->
      run_patrol engine w = (Ok tt, w, [EvUsersIndex]))
  /\ (forall us,
        es_up w = true -> users w = Some us ->
        ((forall u, In u (firstn users_size us) ->
                    default [] (user_watchlist u) = []) ->
         run_patrol engine w = (Ok tt, w, [EvUsersIndex; EvSearchUsers]))
        /\ ((exists u, In u (firstn users_size us) /\ user_email u = None
                       /\ default [] (user_watchlist u) <> []) ->
            run_patrol engine w
            = (Raise "KeyError", w, [EvUsersIndex; EvSearchUsers]))).
Proof.
  split; [|split].
  - intros Hdown. unfold run_patrol. unfold bind at 1.
    now rewrite fetch_users_run, Hdown.
  - intros Hup Hnone. unfold run_patrol. unfold bind at 1.
    now rewrite fetch_users_run, Hup, Hnone.
  - intros us Hup Hus. split.
    + intros Hempty.
      assert (map_topics (firstn users_size us) w = (Ok [], w, [])) as Hmap.
      { unfold map_topics. generalize (@nil (string * list string)) as tm.
        induction (firstn users_size us) as [|u l IH]; intros tm;
          [reflexivity|].
        cbn [for_each]. unfold bind at 1.
        rewrite (Hempty u) by now left. cbn [for_each]. unfold ret at 1.
        rewrite IH; [reflexivity|]. intros u' Hu'. apply Hempty. now right. }
      unfold run_patrol. unfold bind at 1. rewrite fetch_users_run, Hup, Hus.
      unfold bind at 1. rewrite Hmap. reflexivity.
    + intros Hbad.
      unfold run_patrol. unfold bind at 1. rewrite fetch_users_run, Hup, Hus.
      unfold bind at 1. rewrite map_topics_key_error by exact Hbad.
      reflexivity.
Qed.

Lemma quiet_patrols_witness :
  run_patrol Sample.engine Sample.down_world
  = (Ok tt, Sample.down_world, [EvUsersIndex]).
Proof.
  apply (proj1 (quiet_patrols Sample.engine Sample.down_world)).
  reflexivity.
Defined.

(** ** [sentiment.py] and [summarizer.py] *)

Lemma is_prefix_startswith (a b : string) :
  is_prefix a b -> Py.startswith b a = true.
Proof.
  intros [rest H]. unfold Py.startswith. rewrite H. apply starts_app.
Qed.

Lemma sentiment_truncate_text_prefix (text : string) (max_length : Z) :
  0 <= max_length ->
  is_prefix (Sentiment.truncate_text text max_length) text
  /\ Py.len (Sentiment.truncate_text text max_length) <= 4 * max_length.
Proof.
  intros Hpos. unfold Sentiment.truncate_text. cbv zeta.
  destruct (Z.leb_spec (Py.len text) (max_length * 4)).
  { split; [apply is_prefix_refl|lia]. }
  destruct (_ <? _).
  - split.
    + eapply is_prefix_trans; apply take_is_prefix.
    + rewrite !len_take. lia.
  - split; [apply take_is_prefix|]. rewrite len_take. lia.
Qed.

Lemma strip_blank (text : string) :
  Py.strip text = "" ->
  negb (Py.truthy text) || negb (Py.truthy (Py.strip text)) = true.
Proof. intros ->. apply orb_true_r. Qed.

(** X17. [classify_sentiment] never raises and its label is always one of
    ["positive"], ["negative"] and ["neutral"].  A blank text, a missing
    classifier, a classifier that raises and one that gives no result all
    yield ["neutral"] with score 0.  The classifier is given a prefix of
    the text of 1600 characters at most.  In the pipeline, the sentiment
    of a document built with this analyzer is one of the three labels. *)
Theorem sentiment_label_is_normalised
  (classifier : option (string -> Res (list (string * Q)))) (text : string) :
  In (fst (Sentiment.classify_sentiment classifier text)) sentiments
  /\ (Py.strip text = "" ->
      Sentiment.classify_sentiment classifier text = ("neutral", 0%Q))
  /\ Sentiment.classify_sentiment None text = ("neutral", 0%Q)
  /\ (forall classify,
        Sentiment.classify_sentiment (Some classify) text
        = Sentiment.classify_sentiment
            (Some (fun t => if (Py.len t <=? 1600) && Py.startswith text t
                            then classify t else Raise "ValueError"))
            text
        /\ (raises classify (Sentiment.truncate_text text 400)
            \/ classify (Sentiment.truncate_text text 400) = Ok [] ->
            Sentiment.classify_sentiment (Some classify) text
            = ("neutral", 0%Q)))
  /\ (forall web an schema entry url raw,
        classify_sentiment an = sentiment_analyzer classifier ->
        In (doc_sentiment_overall (document_of web an schema entry url raw))
           sentiments).
Proof.
  assert (forall t, In (fst (Sentiment.classify_sentiment classifier t))
                       sentiments) as Hlabel.
  { intros t. unfold Sentiment.classify_sentiment.
    destruct (_ || _); [cbn; tauto|].
    destruct classifier as [classify|]; [|cbn; tauto].
    destruct (classify _) as [[|[label score] rest]|exn]; try (cbn; tauto).
    cbv zeta. cbn [fst].
    destruct (existsb _ Sentiment.positive_labels); [cbn; tauto|].
    destruct (existsb _ Sentiment.negative_labels); cbn; tauto. }
  split; [apply Hlabel|]. split; [|split; [|split]].
  - intros Hblank. unfold Sentiment.classify_sentiment.
    now rewrite strip_blank.
  - unfold Sentiment.classify_sentiment. now destruct (_ || _).
  - intros classify.
    destruct (sentiment_truncate_text_prefix text 400) as [Hpre Hlen]; [lia|].
    split.
    + unfold Sentiment.classify_sentiment.
      rewrite (is_prefix_startswith _ _ Hpre).
      rewrite (proj2 (Z.leb_le _ _)) by lia. reflexivity.
    + unfold Sentiment.classify_sentiment.
      destruct (_ || _); [reflexivity|].
      intros [[exn ->]| ->]; reflexivity.
  - intros web an schema entry url raw Han.
    unfold document_of. cbn [doc_sentiment_overall]. rewrite Han.
    unfold safe_value, sentiment_analyzer.
    specialize (Hlabel (analysis_text an (truncate_text_default (ra_text raw)))).
    destruct (Sentiment.classify_sentiment _ _) as [label score].
    cbn [label_and_score fst] in *.
    destruct label; [|exact Hlabel].
    cbn in Hlabel. intuition discriminate.
Qed.

Lemma sentiment_label_is_normalised_witness :
  Sentiment.classify_sentiment (Some (fun _ => Raise "RuntimeError")) Sample.body
  = ("neutral", 0%Q).
Proof.
  apply (sentiment_label_is_normalised
           (Some (fun _ => Raise "RuntimeError")) Sample.body).
  left. exists "RuntimeError". reflexivity.
Defined.

Lemma take_take (a b : nat) (s : string) :
  Py.take a (Py.take b s) = Py.take (Nat.min a b) s.
Proof. unfold Py.take. now rewrite chars_str, firstn_firstn. Qed.

Lemma len_strip (s : string) : Py.len (Py.strip s) <= Py.len s.
Proof. pose proof (length_strip s). unfold Py.len. lia. Qed.

Lemma len_nonneg (s : string) : 0 <= Py.len s.
Proof. unfold Py.len. lia. Qed.

Lemma not_truthy_empty (s : string) : Py.truthy s = false -> s = "".
Proof. destruct s; [reflexivity|discriminate]. Qed.

(** What [truncate_for_model] returns for a text that is too long. *)
Lemma truncate_for_model_long (text : string) (max_tokens : Z) :
  0 <= max_tokens ->
  4 * max_tokens < Py.len text ->
  exists n, (Z.of_nat n <= 4 * max_tokens)
            /\ Summarizer.truncate_for_model text max_tokens
               = Py.strip (Py.take n text).
Proof.
  intros Hpos Hlong. unfold Summarizer.truncate_for_model. cbv zeta.
  destruct (Py.truthy text) eqn:Ht; cbn [negb].
  2:{ apply not_truthy_empty in Ht. subst text.
      change (Py.len "") with 0 in Hlong. lia. }
  destruct (Z.leb_spec (Py.len text) (max_tokens * 4)); [lia|].
  destruct (_ <? _).
  { rewrite take_take. eexists. split; [|reflexivity]. lia. }
  destruct (_ <? _).
  { rewrite take_take. eexists. split; [|reflexivity]. lia. }
  eexists. split; [|reflexivity]. lia.
Qed.

Lemma truncate_for_model_short (text : string) (max_tokens : Z) :
  Py.len text <= 4 * max_tokens ->
  Summarizer.truncate_for_model text max_tokens = text.
Proof.
  intros Ht. unfold Summarizer.truncate_for_model. cbv zeta.
  destruct (Py.truthy text); cbn [negb]; [|reflexivity].
  destruct (Z.leb_spec (Py.len text) (max_tokens * 4)); [reflexivity|lia].
Qed.

Lemma len_truncate_for_model (text : string) (max_tokens : Z) :
  0 <= max_tokens ->
  Py.len (Summarizer.truncate_for_model text max_tokens) <= 4 * max_tokens.
Proof.
  intros Hpos.
  destruct (Z.le_gt_cases (Py.len text) (4 * max_tokens)) as [Hle|Hgt].
  - now rewrite truncate_for_model_short.
  - destruct (truncate_for_model_long text max_tokens Hpos)
      as (n & Hn & ->); [lia|].
    pose proof (len_strip (Py.take n text)). rewrite len_take in *. lia.
Qed.

(** X18. [truncate_for_model] leaves a text of [4 * max_tokens] characters
    or fewer as it is.  A longer text is cut to a prefix of that many
    characters at most, which is then trimmed.  So the result never has
    more than [4 * max_tokens] characters and truncating twice is
    truncating once. *)
Theorem truncate_for_model_bounded (text : string) (max_tokens : Z) :
  0 <= max_tokens ->
  let result := Summarizer.truncate_for_model text max_tokens in
  Py.len result <= 4 * max_tokens
  /\ (Py.len text <= 4 * max_tokens -> result = text)
  /\ (4 * max_tokens < Py.len text ->
      Py.strip result = result
      /\ exists n, Z.of_nat n <= 4 * max_tokens
                   /\ result = Py.strip (Py.take n text))
  /\ Summarizer.truncate_for_model result max_tokens = result.
Proof.
  intros Hpos. cbv zeta.
  pose proof (len_truncate_for_model text max_tokens Hpos) as Hlen.
  split; [exact Hlen|]. split; [apply truncate_for_model_short|]. split.
  - intros Hlong.
    destruct (truncate_for_model_long text max_tokens Hpos Hlong)
      as (n & Hn & Heq).
    split; [rewrite Heq; apply strip_idempotent|eauto].
  - now apply truncate_for_model_short.
Qed.

Lemma truncate_for_model_bounded_witness :
  Py.len (Summarizer.truncate_for_model Sample.body 10) <= 4 * 10.
Proof.
  apply (truncate_for_model_bounded Sample.body 10). lia.
Defined.

(** X19. The lengths that [summarize] asks of the model: the maximum is
    [max_tokens] capped at 150.  The minimum is below the maximum when
    [max_tokens] is above 10; for a [max_tokens] of 10 or less and an
    input of five times as many words or more, the correction of the code
    does not achieve it and the minimum is at least the maximum. *)
Theorem generation_lengths_ordered (max_tokens input_len : Z) :
  0 <= input_len ->
  let '(max_gen_len, min_gen_len) :=
    Summarizer.generation_lengths max_tokens input_len in
  max_gen_len = Z.min max_tokens 150
  /\ 0 <= min_gen_len <= 30
  /\ (10 < max_tokens -> min_gen_len < max_gen_len)
  /\ (max_tokens <= 10 -> 5 * max_tokens <= input_len ->
      max_gen_len <= min_gen_len).
Proof.
  intros Hpos. unfold Summarizer.generation_lengths. cbv zeta.
  pose proof (Z.div_pos input_len 5 Hpos ltac:(lia)) as Hq.
  assert (5 * max_tokens <= input_len -> max_tokens <= input_len / 5) as Hdiv.
  { intros H. apply Z.div_le_lower_bound; lia. }
  destruct (Z.leb_spec (Z.min max_tokens 150) (Z.min 30 (input_len / 5)));
    repeat split; try lia.
Qed.

Lemma generation_lengths_ordered_witness :
  snd (Summarizer.generation_lengths 160 50)
  < fst (Summarizer.generation_lengths 160 50).
Proof.
  pose proof (generation_lengths_ordered 160 50) as H.
  destruct (Summarizer.generation_lengths 160 50) as [mx mn].
  apply H; lia.
Defined.

Lemma rev_chars_append_period (s : string) :
  rev (Py.chars (s +:+ ".")) = "."%char :: rev (Py.chars s).
Proof. rewrite chars_append, rev_app_distr. reflexivity. Qed.

Lemma fallback_summary_ends (text : string) :
  Summarizer.fallback_summary text = ""
  \/ Summarizer.ends_with_period (Summarizer.fallback_summary text) = true.
Proof.
  unfold Summarizer.fallback_summary. cbv zeta.
  match goal with |- context [Py.truthy ?f] => set (fallback := f) end.
  destruct (Py.truthy fallback) eqn:Ht; cbn [andb].
  - destruct (Summarizer.ends_with_period fallback) eqn:He; cbn [negb].
    + now right.
    + right. unfold Summarizer.ends_with_period.
      now rewrite rev_chars_append_period.
  - left. now apply not_truthy_empty.
Qed.

(** X20. [summarize] never raises.  A blank text gives the empty summary;
    without a model the summary is the first 300 characters and three
    dots; a text of fewer than 40 words is its own summary and the model
    is not asked.  The model is given 4096 characters at most and a
    maximal length of 150 at most.  When the model raises, the summary is
    made of the first sentences of the text and is empty or ends with a
    full stop, so the wrapper of the pipeline never sees the failure. *)
Theorem summarize_fallbacks
  (pipeline : option (string -> Z -> Z -> Res (list (option string))))
  (text : string) (max_tokens : Z) :
  (Py.strip text = "" -> Summarizer.summarize pipeline text max_tokens = "")
  /\ (Py.strip text <> "" ->
      Summarizer.summarize None text max_tokens = Py.take 300 text +:+ "..."
      /\ Py.len (Summarizer.summarize None text max_tokens) <= 303)
  /\ forall run,
       (Py.strip text <> "" ->
        Z.of_nat (List.length (Py.split_ws text)) < 40 ->
        Summarizer.summarize (Some run) text max_tokens = text)
       /\ Summarizer.summarize (Some run) text max_tokens
          = Summarizer.summarize
              (Some (fun t max_length min_length =>
                       if (Py.len t <=? 4096) && (max_length <=? 150)
                       then run t max_length min_length
                       else Raise "ValueError"))
              text max_tokens
       /\ ((forall t max_length min_length,
              exists exn, run t max_length min_length = Raise exn) ->
           Py.strip text <> "" ->
           40 <= Z.of_nat (List.length (Py.split_ws text)) ->
           Summarizer.summarize (Some run) text max_tokens
           = Summarizer.fallback_summary text
           /\ safe_value (summary_analyzer (Some run) max_tokens) text
              = Some (Summarizer.fallback_summary text)
           /\ (Summarizer.fallback_summary text = ""
               \/ Summarizer.ends_with_period
                    (Summarizer.fallback_summary text) = true)).
Proof.
  assert (Py.strip text <> "" ->
          negb (Py.truthy text) || negb (Py.truthy (Py.strip text)) = false)
    as Hfull.
  { intros Hne. destruct text as [|c text]; [now destruct Hne|].
    cbn [Py.truthy negb orb].
    destruct (Py.strip (String c text)); [now destruct Hne|reflexivity]. }
  split; [|split].
  - intros Hblank. unfold Summarizer.summarize. now rewrite strip_blank.
  - intros Hne. unfold Summarizer.summarize. rewrite (Hfull Hne).
    split; [reflexivity|].
    unfold Py.len. rewrite length_append, length_py_take.
    cbn [String.length]. lia.
  - intros run. split; [|split].
    + intros Hne Hshort. unfold Summarizer.summarize. rewrite (Hfull Hne).
      now rewrite (proj2 (Z.ltb_lt _ _)) by exact Hshort.
    + unfold Summarizer.summarize.
      destruct (_ || _); [reflexivity|].
      destruct (_ <? 40); [reflexivity|].
      pose proof (len_truncate_for_model text 1024 ltac:(lia)) as Hlen.
      unfold Summarizer.generation_lengths. cbv zeta.
      rewrite (proj2 (Z.leb_le _ 4096)) by lia.
      rewrite (proj2 (Z.leb_le (Z.min max_tokens 150) 150)) by lia.
      reflexivity.
    + intros Hraise Hne Hlong.
      assert (Summarizer.summarize (Some run) text max_tokens
              = Summarizer.fallback_summary text) as Heq.
      { unfold Summarizer.summarize. rewrite (Hfull Hne).
        rewrite (proj2 (Z.ltb_ge _ _)) by exact Hlong.
        destruct (Summarizer.generation_lengths _ _) as [mx mn].
        destruct (Hraise (Summarizer.truncate_for_model text 1024) mx mn)
          as [exn ->].
        reflexivity. }
      split; [exact Heq|]. split.
      * unfold safe_value, summary_analyzer. now rewrite Heq.
      * apply fallback_summary_ends.
Qed.

Lemma summarize_fallbacks_witness :
  Summarizer.summarize None Sample.body 160 = Py.take 300 Sample.body +:+ "...".
Proof.
  apply (summarize_fallbacks None Sample.body 160).
  vm_compute. discriminate.
Defined.
